(** * Task lifecycle of the employee management system

    A shallow embedding of the task state machine: the per-task state
    update and the route handlers of [backend/routes/employees.js], the
    counter aggregation of the employee model, the clean-up script
    [fixTaskStates], and the client-side helpers [TaskWorkflowService]
    ([src/services/taskWorkflow.js]), [taskUtils.js] and
    [handleStatusUpdate].

    Conventions of the embedding:
    - a JavaScript boolean flag is a [bool]; a string-valued field that
      may be absent is an [option string] ([None] is [undefined]);
    - a date is a number of milliseconds since the epoch ([Z]); a date
      field that may be absent is an [option Z];
    - [new Date()] is an explicit argument [now] of the function that
      reads the clock;
    - a handler takes the database (the list of admin documents) and the
      request, and returns the response with the database it leaves
      behind: a handler that answers without saving returns the database
      it was given. *)

From Stdlib Require Import ZArith Bool Lia.
From stdpp Require Import base strings list gmap.

Local Open Scope string_scope.

(** ** JavaScript helpers *)

(** [o === s] for a field [o] that may be absent. *)
Definition str_is (o : option string) (s : string) : bool :=
  match o with
  | Some x => String.eqb x s
  | None => false
  end.

(** Truthiness of a string-valued field: absent and [''] are falsy. *)
Definition truthy_str (o : option string) : bool :=
  match o with
  | Some x => negb (String.eqb x "")
  | None => false
  end.

(** [a || b] on string-valued fields. *)
Definition or_str (o : option string) (d : string) : string :=
  if truthy_str o then default d o else d.

(** [d && new Date(d) < now]: an absent date compares false. *)
Definition date_before (d : option Z) (now : Z) : bool :=
  match d with
  | Some e => (e <? now)%Z
  | None => false
  end.

(** Sequencing of field assignments, read left to right. *)
Notation "t |> f" := (f t) (at level 45, left associativity, only parsing).

(** ** Data model *)

(** An uploaded file as the upload middleware hands it to a handler. *)
Record File := {
  filename : string;
  originalname : string;
  size : Z;
  mimetype : string
}.

(** A submitted evidence document. The upload route stores an identifier,
    the uploader, a status and the task; the update route does not. *)
Record Document := {
  doc_id : option string;
  fileName : string;
  originalName : string;
  filePath : string;
  fileSize : Z;
  mimeType : string;
  uploadedAt : Z;
  uploadedBy : option string;
  doc_status : option string;
  doc_taskId : option string
}.

(** A task: every field the lifecycle code reads or writes. The routes
    work on the tasks embedded in the admin documents; the fields are
    taken as the routes and the client helpers use them on the task
    object. The task schema of the Admin model declares the flags, the
    status, the verification status, note and date, the deadline and the
    submitted documents; the other properties the handlers set
    (verifiedAt, verifiedBy, rejectedAt, rejectedBy, rejectionReason and
    the like) live on the object the handler holds and are not written to
    the database. *)
Record Task := {
  _id : string;
  newTask : bool;
  active : bool;
  completed : bool;
  failed : bool;
  pendingVerification : bool;
  status : option string;
  verificationStatus : option string;
  endDate : option Z;
  submittedDocuments : option (list Document);
  documentUrl : option string;
  updatedAt : option Z;
  submittedAt : option Z;
  verifiedAt : option Z;
  verifiedBy : option string;
  rejectedAt : option Z;
  rejectedBy : option string;
  rejectionReason : option string;
  verificationNote : option string;
  verificationDate : option Z
}.

Definition set_newTask (v : bool) (t : Task) : Task :=
  {| _id := _id t; newTask := v; active := active t;
     completed := completed t; failed := failed t;
     pendingVerification := pendingVerification t; status := status t;
     verificationStatus := verificationStatus t; endDate := endDate t;
     submittedDocuments := submittedDocuments t;
     documentUrl := documentUrl t; updatedAt := updatedAt t;
     submittedAt := submittedAt t; verifiedAt := verifiedAt t;
     verifiedBy := verifiedBy t; rejectedAt := rejectedAt t;
     rejectedBy := rejectedBy t; rejectionReason := rejectionReason t;
     verificationNote := verificationNote t;
     verificationDate := verificationDate t |}.

Definition set_active (v : bool) (t : Task) : Task :=
  {| _id := _id t; newTask := newTask t; active := v;
     completed := completed t; failed := failed t;
     pendingVerification := pendingVerification t; status := status t;
     verificationStatus := verificationStatus t; endDate := endDate t;
     submittedDocuments := submittedDocuments t;
     documentUrl := documentUrl t; updatedAt := updatedAt t;
     submittedAt := submittedAt t; verifiedAt := verifiedAt t;
     verifiedBy := verifiedBy t; rejectedAt := rejectedAt t;
     rejectedBy := rejectedBy t; rejectionReason := rejectionReason t;
     verificationNote := verificationNote t;
     verificationDate := verificationDate t |}.

Definition set_completed (v : bool) (t : Task) : Task :=
  {| _id := _id t; newTask := newTask t; active := active t; completed := v;
     failed := failed t; pendingVerification := pendingVerification t;
     status := status t; verificationStatus := verificationStatus t;
     endDate := endDate t; submittedDocuments := submittedDocuments t;
     documentUrl := documentUrl t; updatedAt := updatedAt t;
     submittedAt := submittedAt t; verifiedAt := verifiedAt t;
     verifiedBy := verifiedBy t; rejectedAt := rejectedAt t;
     rejectedBy := rejectedBy t; rejectionReason := rejectionReason t;
     verificationNote := verificationNote t;
     verificationDate := verificationDate t |}.

Definition set_failed (v : bool) (t : Task) : Task :=
  {| _id := _id t; newTask := newTask t; active := active t;
     completed := completed t; failed := v;
     pendingVerification := pendingVerification t; status := status t;
     verificationStatus := verificationStatus t; endDate := endDate t;
     submittedDocuments := submittedDocuments t;
     documentUrl := documentUrl t; updatedAt := updatedAt t;
     submittedAt := submittedAt t; verifiedAt := verifiedAt t;
     verifiedBy := verifiedBy t; rejectedAt := rejectedAt t;
     rejectedBy := rejectedBy t; rejectionReason := rejectionReason t;
     verificationNote := verificationNote t;
     verificationDate := verificationDate t |}.

Definition set_pendingVerification (v : bool) (t : Task) : Task :=
  {| _id := _id t; newTask := newTask t; active := active t;
     completed := completed t; failed := failed t; pendingVerification := v;
     status := status t; verificationStatus := verificationStatus t;
     endDate := endDate t; submittedDocuments := submittedDocuments t;
     documentUrl := documentUrl t; updatedAt := updatedAt t;
     submittedAt := submittedAt t; verifiedAt := verifiedAt t;
     verifiedBy := verifiedBy t; rejectedAt := rejectedAt t;
     rejectedBy := rejectedBy t; rejectionReason := rejectionReason t;
     verificationNote := verificationNote t;
     verificationDate := verificationDate t |}.

Definition set_status (v : option string) (t : Task) : Task :=
  {| _id := _id t; newTask := newTask t; active := active t;
     completed := completed t; failed := failed t;
     pendingVerification := pendingVerification t; status := v;
     verificationStatus := verificationStatus t; endDate := endDate t;
     submittedDocuments := submittedDocuments t;
     documentUrl := documentUrl t; updatedAt := updatedAt t;
     submittedAt := submittedAt t; verifiedAt := verifiedAt t;
     verifiedBy := verifiedBy t; rejectedAt := rejectedAt t;
     rejectedBy := rejectedBy t; rejectionReason := rejectionReason t;
     verificationNote := verificationNote t;
     verificationDate := verificationDate t |}.

Definition set_verificationStatus (v : option string) (t : Task) : Task :=
  {| _id := _id t; newTask := newTask t; active := active t;
     completed := completed t; failed := failed t;
     pendingVerification := pendingVerification t; status := status t;
     verificationStatus := v; endDate := endDate t;
     submittedDocuments := submittedDocuments t;
     documentUrl := documentUrl t; updatedAt := updatedAt t;
     submittedAt := submittedAt t; verifiedAt := verifiedAt t;
     verifiedBy := verifiedBy t; rejectedAt := rejectedAt t;
     rejectedBy := rejectedBy t; rejectionReason := rejectionReason t;
     verificationNote := verificationNote t;
     verificationDate := verificationDate t |}.

Definition set_endDate (v : option Z) (t : Task) : Task :=
  {| _id := _id t; newTask := newTask t; active := active t;
     completed := completed t; failed := failed t;
     pendingVerification := pendingVerification t; status := status t;
     verificationStatus := verificationStatus t; endDate := v;
     submittedDocuments := submittedDocuments t;
     documentUrl := documentUrl t; updatedAt := updatedAt t;
     submittedAt := submittedAt t; verifiedAt := verifiedAt t;
     verifiedBy := verifiedBy t; rejectedAt := rejectedAt t;
     rejectedBy := rejectedBy t; rejectionReason := rejectionReason t;
     verificationNote := verificationNote t;
     verificationDate := verificationDate t |}.

Definition set_submittedDocuments (v : option (list Document)) (t : Task) : Task :=
  {| _id := _id t; newTask := newTask t; active := active t;
     completed := completed t; failed := failed t;
     pendingVerification := pendingVerification t; status := status t;
     verificationStatus := verificationStatus t; endDate := endDate t;
     submittedDocuments := v; documentUrl := documentUrl t;
     updatedAt := updatedAt t; submittedAt := submittedAt t;
     verifiedAt := verifiedAt t; verifiedBy := verifiedBy t;
     rejectedAt := rejectedAt t; rejectedBy := rejectedBy t;
     rejectionReason := rejectionReason t;
     verificationNote := verificationNote t;
     verificationDate := verificationDate t |}.

Definition set_documentUrl (v : option string) (t : Task) : Task :=
  {| _id := _id t; newTask := newTask t; active := active t;
     completed := completed t; failed := failed t;
     pendingVerification := pendingVerification t; status := status t;
     verificationStatus := verificationStatus t; endDate := endDate t;
     submittedDocuments := submittedDocuments t; documentUrl := v;
     updatedAt := updatedAt t; submittedAt := submittedAt t;
     verifiedAt := verifiedAt t; verifiedBy := verifiedBy t;
     rejectedAt := rejectedAt t; rejectedBy := rejectedBy t;
     rejectionReason := rejectionReason t;
     verificationNote := verificationNote t;
     verificationDate := verificationDate t |}.

Definition set_updatedAt (v : option Z) (t : Task) : Task :=
  {| _id := _id t; newTask := newTask t; active := active t;
     completed := completed t; failed := failed t;
     pendingVerification := pendingVerification t; status := status t;
     verificationStatus := verificationStatus t; endDate := endDate t;
     submittedDocuments := submittedDocuments t;
     documentUrl := documentUrl t; updatedAt := v;
     submittedAt := submittedAt t; verifiedAt := verifiedAt t;
     verifiedBy := verifiedBy t; rejectedAt := rejectedAt t;
     rejectedBy := rejectedBy t; rejectionReason := rejectionReason t;
     verificationNote := verificationNote t;
     verificationDate := verificationDate t |}.

Definition set_submittedAt (v : option Z) (t : Task) : Task :=
  {| _id := _id t; newTask := newTask t; active := active t;
     completed := completed t; failed := failed t;
     pendingVerification := pendingVerification t; status := status t;
     verificationStatus := verificationStatus t; endDate := endDate t;
     submittedDocuments := submittedDocuments t;
     documentUrl := documentUrl t; updatedAt := updatedAt t;
     submittedAt := v; verifiedAt := verifiedAt t;
     verifiedBy := verifiedBy t; rejectedAt := rejectedAt t;
     rejectedBy := rejectedBy t; rejectionReason := rejectionReason t;
     verificationNote := verificationNote t;
     verificationDate := verificationDate t |}.

Definition set_verifiedAt (v : option Z) (t : Task) : Task :=
  {| _id := _id t; newTask := newTask t; active := active t;
     completed := completed t; failed := failed t;
     pendingVerification := pendingVerification t; status := status t;
     verificationStatus := verificationStatus t; endDate := endDate t;
     submittedDocuments := submittedDocuments t;
     documentUrl := documentUrl t; updatedAt := updatedAt t;
     submittedAt := submittedAt t; verifiedAt := v;
     verifiedBy := verifiedBy t; rejectedAt := rejectedAt t;
     rejectedBy := rejectedBy t; rejectionReason := rejectionReason t;
     verificationNote := verificationNote t;
     verificationDate := verificationDate t |}.

Definition set_verifiedBy (v : option string) (t : Task) : Task :=
  {| _id := _id t; newTask := newTask t; active := active t;
     completed := completed t; failed := failed t;
     pendingVerification := pendingVerification t; status := status t;
     verificationStatus := verificationStatus t; endDate := endDate t;
     submittedDocuments := submittedDocuments t;
     documentUrl := documentUrl t; updatedAt := updatedAt t;
     submittedAt := submittedAt t; verifiedAt := verifiedAt t;
     verifiedBy := v; rejectedAt := rejectedAt t; rejectedBy := rejectedBy t;
     rejectionReason := rejectionReason t;
     verificationNote := verificationNote t;
     verificationDate := verificationDate t |}.

Definition set_rejectedAt (v : option Z) (t : Task) : Task :=
  {| _id := _id t; newTask := newTask t; active := active t;
     completed := completed t; failed := failed t;
     pendingVerification := pendingVerification t; status := status t;
     verificationStatus := verificationStatus t; endDate := endDate t;
     submittedDocuments := submittedDocuments t;
     documentUrl := documentUrl t; updatedAt := updatedAt t;
     submittedAt := submittedAt t; verifiedAt := verifiedAt t;
     verifiedBy := verifiedBy t; rejectedAt := v; rejectedBy := rejectedBy t;
     rejectionReason := rejectionReason t;
     verificationNote := verificationNote t;
     verificationDate := verificationDate t |}.

Definition set_rejectedBy (v : option string) (t : Task) : Task :=
  {| _id := _id t; newTask := newTask t; active := active t;
     completed := completed t; failed := failed t;
     pendingVerification := pendingVerification t; status := status t;
     verificationStatus := verificationStatus t; endDate := endDate t;
     submittedDocuments := submittedDocuments t;
     documentUrl := documentUrl t; updatedAt := updatedAt t;
     submittedAt := submittedAt t; verifiedAt := verifiedAt t;
     verifiedBy := verifiedBy t; rejectedAt := rejectedAt t; rejectedBy := v;
     rejectionReason := rejectionReason t;
     verificationNote := verificationNote t;
     verificationDate := verificationDate t |}.

Definition set_rejectionReason (v : option string) (t : Task) : Task :=
  {| _id := _id t; newTask := newTask t; active := active t;
     completed := completed t; failed := failed t;
     pendingVerification := pendingVerification t; status := status t;
     verificationStatus := verificationStatus t; endDate := endDate t;
     submittedDocuments := submittedDocuments t;
     documentUrl := documentUrl t; updatedAt := updatedAt t;
     submittedAt := submittedAt t; verifiedAt := verifiedAt t;
     verifiedBy := verifiedBy t; rejectedAt := rejectedAt t;
     rejectedBy := rejectedBy t; rejectionReason := v;
     verificationNote := verificationNote t;
     verificationDate := verificationDate t |}.

Definition set_verificationNote (v : option string) (t : Task) : Task :=
  {| _id := _id t; newTask := newTask t; active := active t;
     completed := completed t; failed := failed t;
     pendingVerification := pendingVerification t; status := status t;
     verificationStatus := verificationStatus t; endDate := endDate t;
     submittedDocuments := submittedDocuments t;
     documentUrl := documentUrl t; updatedAt := updatedAt t;
     submittedAt := submittedAt t; verifiedAt := verifiedAt t;
     verifiedBy := verifiedBy t; rejectedAt := rejectedAt t;
     rejectedBy := rejectedBy t; rejectionReason := rejectionReason t;
     verificationNote := v; verificationDate := verificationDate t |}.

Definition set_verificationDate (v : option Z) (t : Task) : Task :=
  {| _id := _id t; newTask := newTask t; active := active t;
     completed := completed t; failed := failed t;
     pendingVerification := pendingVerification t; status := status t;
     verificationStatus := verificationStatus t; endDate := endDate t;
     submittedDocuments := submittedDocuments t;
     documentUrl := documentUrl t; updatedAt := updatedAt t;
     submittedAt := submittedAt t; verifiedAt := verifiedAt t;
     verifiedBy := verifiedBy t; rejectedAt := rejectedAt t;
     rejectedBy := rejectedBy t; rejectionReason := rejectionReason t;
     verificationNote := verificationNote t; verificationDate := v |}.

(** The four lifecycle flags, in the order newTask, active, completed,
    failed. *)
Definition flags (t : Task) : list bool :=
  [newTask t; active t; completed t; failed t].

(** [Object.values(state).filter(Boolean).length] *)
Definition count_true (bs : list bool) : nat :=
  length (List.filter id bs).

(** ** TaskWorkflowService (src/services/taskWorkflow.js) *)

(** The object returned by [determineTaskState]. *)
Record TaskState := {
  st_newTask : bool;
  st_active : bool;
  st_completed : bool;
  st_failed : bool;
  st_pendingVerification : bool
}.

(** The object returned by [acceptTask], [submitDocument], [expireTask]. *)
Record FlagState := {
  fs_newTask : bool;
  fs_active : bool;
  fs_completed : bool;
  fs_failed : bool
}.

Module TaskWorkflowService.

(** [now > new Date(task.endDate)] *)
Definition isTaskExpired (now : Z) (task : Task) : bool :=
  match endDate task with
  | Some e => (e <? now)%Z
  | None => false
  end.

(** [task.submittedDocuments && task.submittedDocuments.length > 0],
    as a condition. *)
Definition hasSubmittedDocuments (task : Task) : bool :=
  match submittedDocuments task with
  | Some (_ :: _) => true
  | _ => false
  end.

Definition st_only_new : TaskState :=
  {| st_newTask := true; st_active := false; st_completed := false;
     st_failed := false; st_pendingVerification := false |}.
Definition st_only_active : TaskState :=
  {| st_newTask := false; st_active := true; st_completed := false;
     st_failed := false; st_pendingVerification := false |}.
Definition st_only_completed : TaskState :=
  {| st_newTask := false; st_active := false; st_completed := true;
     st_failed := false; st_pendingVerification := false |}.
Definition st_only_failed : TaskState :=
  {| st_newTask := false; st_active := false; st_completed := false;
     st_failed := true; st_pendingVerification := false |}.
Definition st_only_pending : TaskState :=
  {| st_newTask := false; st_active := false; st_completed := false;
     st_failed := false; st_pendingVerification := true |}.

Definition determineTaskState (now : Z) (task : Task) : TaskState :=
  let isExpired := isTaskExpired now task in
  let hasDocuments := hasSubmittedDocuments task in
  if completed task then st_only_completed
  else if pendingVerification task then st_only_pending
  else if isExpired && negb hasDocuments then st_only_failed
  else if negb (newTask task) && negb isExpired && negb hasDocuments
  then st_only_active
  else if newTask task && negb isExpired then st_only_new
  else if completed task then st_only_completed
  else if pendingVerification task then st_only_pending
  else if failed task then st_only_failed
  else if active task then st_only_active
  else if newTask task then st_only_new
  else st_only_new.

(** [acceptTask] throws ['Cannot accept expired task'] or returns the
    active state. *)
Definition acceptTask (now : Z) (task : Task) : string + FlagState :=
  if isTaskExpired now task then inl "Cannot accept expired task"
  else inr {| fs_newTask := false; fs_active := true;
              fs_completed := false; fs_failed := false |}.

Definition submitDocument (task : Task) : FlagState :=
  {| fs_newTask := false; fs_active := false;
     fs_completed := true; fs_failed := false |}.

Definition expireTask (task : Task) : FlagState :=
  if hasSubmittedDocuments task then submitDocument task
  else {| fs_newTask := false; fs_active := false;
          fs_completed := false; fs_failed := true |}.

Definition state_flags (s : TaskState) : list bool :=
  [st_newTask s; st_active s; st_completed s; st_failed s;
   st_pendingVerification s].

End TaskWorkflowService.

(** ** Objects, property lookup and request bodies *)

(** The result of evaluating a JavaScript expression: a value, or an
    exception. *)
Inductive Completion (A : Type) : Type :=
| Normal (a : A)
| Throw (error : string).
Arguments Normal {A} a.
Arguments Throw {A} error.

(** The property names every object literal inherits from
    [Object.prototype]. *)
Definition objectPrototypeKeys : list string :=
  ["constructor"; "__defineGetter__"; "__defineSetter__"; "hasOwnProperty";
   "__lookupGetter__"; "__lookupSetter__"; "isPrototypeOf";
   "propertyIsEnumerable"; "toString"; "valueOf"; "__proto__";
   "toLocaleString"].

(** [obj[key]] on an object literal used as a table: an own entry, a
    member inherited from [Object.prototype] (a function or an object,
    truthy, without an [includes] method), or [undefined]. *)
Inductive Lookup (A : Type) : Type :=
| Own (a : A)
| Inherited
| Missing.
Arguments Own {A} a.
Arguments Inherited {A}.
Arguments Missing {A}.

Definition get_prop {A : Type} (obj : gmap string A) (key : string)
  : Lookup A :=
  match obj !! key with
  | Some v => Own v
  | None =>
      if bool_decide (key ∈ objectPrototypeKeys) then Inherited else Missing
  end.

(** [l.includes(s)] on an array of strings. *)
Definition includes (l : list string) (s : string) : bool :=
  bool_decide (s ∈ l).

(** A JSON value of a request body or of an update payload. *)
Inductive JSVal : Type :=
| VBool (b : bool)
| VStr (s : string)
| VDate (d : Z).

(** A request body or update payload: keys with their values. *)
Definition Body : Type := list (string * JSVal).

Fixpoint body_get (b : Body) (key : string) : option JSVal :=
  match b with
  | [] => None
  | (k, v) :: r => if String.eqb k key then Some v else body_get r key
  end.

(** [{...payload, key: v}] *)
Definition body_set (key : string) (v : JSVal) (b : Body) : Body :=
  (List.filter (λ kv, negb (String.eqb (fst kv) key)) b ++ [(key, v)])%list.

(** The string stored under [key], when there is one. *)
Definition body_str (b : Body) (key : string) : option string :=
  match body_get b key with
  | Some (VStr s) => Some s
  | _ => None
  end.

Definition truthy (v : option JSVal) : bool :=
  match v with
  | Some (VBool b) => b
  | Some (VStr s) => negb (String.eqb s "")
  | Some (VDate _) => true
  | None => false
  end.

(** ** Task status utilities (src/utils/taskUtils.js) *)

Definition ALLOWED_TRANSITIONS : gmap string (list string) :=
  list_to_map
    [("new", ["active"; "failed"]);
     ("active", ["pendingVerification"; "failed"]);
     ("pendingVerification", ["completed"; "rejected"; "failed"]);
     ("rejected", ["pendingVerification"; "failed"]);
     ("completed", []);
     ("failed", [])].

Definition not_a_function : string :=
  "allowedNextStates.includes is not a function".

Definition isValidTransition (currentStatus newStatus : string)
  : Completion bool :=
  if String.eqb currentStatus "" then Normal false
  else if String.eqb currentStatus newStatus then Normal true
  else match get_prop ALLOWED_TRANSITIONS currentStatus with
       | Own allowedNextStates => Normal (includes allowedNextStates newStatus)
       | Inherited => Throw not_a_function
       | Missing => Normal (includes [] newStatus)
       end.

Definition getTaskStatus (now : Z) (task : option Task) : string :=
  match task with
  | None => "unknown"
  | Some task =>
      let isExpired :=
        match endDate task with
        | Some e => (e <? now)%Z
        | None => false
        end in
      if completed task && str_is (verificationStatus task) "verified"
      then "completed"
      else if failed task
              || (isExpired && negb (str_is (verificationStatus task) "verified"))
      then "failed"
      else if str_is (verificationStatus task) "pending"
      then "pendingVerification"
      else if str_is (verificationStatus task) "rejected" then "rejected"
      else if active task then "active"
      else "new"
  end.

Definition getStatusUpdatePayload (now : Z) (newStatus : string) : Body :=
  let baseUpdate := [("updatedAt", VDate now); ("status", VStr newStatus)] in
  if String.eqb newStatus "active" then
    (baseUpdate ++ [("active", VBool true); ("newTask", VBool false);
                   ("completed", VBool false); ("failed", VBool false);
                   ("acceptedAt", VDate now)])%list
  else if String.eqb newStatus "pendingVerification" then
    (baseUpdate ++ [("active", VBool false);
                   ("verificationStatus", VStr "pending");
                   ("submittedAt", VDate now)])%list
  else if String.eqb newStatus "completed" then
    (baseUpdate ++ [("active", VBool false); ("completed", VBool true);
                   ("failed", VBool false);
                   ("verificationStatus", VStr "verified");
                   ("completedAt", VDate now)])%list
  else if String.eqb newStatus "rejected" then
    (baseUpdate ++ [("active", VBool false);
                   ("verificationStatus", VStr "rejected");
                   ("rejectedAt", VDate now)])%list
  else if String.eqb newStatus "failed" then
    (baseUpdate ++ [("active", VBool false); ("completed", VBool false);
                   ("failed", VBool true);
                   ("verificationStatus", VStr "expired");
                   ("failedAt", VDate now)])%list
  else baseUpdate.

(** The object [{isValid, reason}] returned by [validateStatusUpdate]. *)
Record Validation := {
  isValid : bool;
  reason : option string
}.

Definition invalid_transition_message (currentStatus newStatus : string)
  : string :=
  "Invalid status transition from " ++ currentStatus ++ " to " ++ newStatus.

Definition validateStatusUpdate (now : Z) (task : Task) (newStatus : string)
  : Completion Validation :=
  let currentStatus := getTaskStatus now (Some task) in
  match isValidTransition currentStatus newStatus with
  | Throw e => Throw e
  | Normal false =>
      Normal {| isValid := false;
                reason := Some (invalid_transition_message currentStatus newStatus) |}
  | Normal true =>
      if String.eqb newStatus "pendingVerification"
         && negb (truthy_str (documentUrl task))
      then Normal {| isValid := false;
                     reason := Some "Cannot submit for verification without a document" |}
      else Normal {| isValid := true; reason := None |}
  end.

(** ** The client-side status update helper (handleStatusUpdate,
       src/unnamed/part_007) *)

Definition validTransitions : gmap string (list string) :=
  list_to_map
    [("new", ["active"]);
     ("active", ["pendingVerification"; "failed"]);
     ("pendingVerification", ["completed"; "rejected"]);
     ("rejected", ["active"; "failed"])].

(** The property key an optional string is converted to. *)
Definition prop_key (o : option string) : string := default "undefined" o.

Definition terminal_message (task : Task) : string :=
  "Task " ++ _id task ++ " is already in terminal state ("
  ++ (if completed task then "completed" else "failed") ++ ")".

(** The payload [handleStatusUpdate] builds for [newStatus], or the error
    it returns instead. *)
Definition statusUpdateData (now : Z) (task : Task) (newStatus : string)
  : string + Body :=
  let updateData := [("updatedAt", VDate now)] in
  if String.eqb newStatus "active" then
    inr (updateData ++ [("status", VStr "active"); ("newTask", VBool false);
                        ("active", VBool true); ("startedAt", VDate now)])%list
  else if String.eqb newStatus "pendingVerification" then
    if negb (truthy_str (documentUrl task))
    then inl "Cannot submit for verification without document"
    else inr (updateData ++ [("status", VStr "pendingVerification");
                             ("verificationStatus", VStr "pending");
                             ("submittedAt", VDate now)])%list
  else if String.eqb newStatus "completed" then
    if negb (str_is (verificationStatus task) "pending")
    then inl "Only tasks pending verification can be completed"
    else inr (updateData ++ [("status", VStr "completed");
                             ("verificationStatus", VStr "approved");
                             ("active", VBool false); ("completed", VBool true);
                             ("completedAt", VDate now);
                             ("verifiedAt", VDate now)])%list
  else if String.eqb newStatus "rejected" then
    inr (updateData ++ [("status", VStr "rejected");
                        ("verificationStatus", VStr "rejected");
                        ("active", VBool false); ("rejectedAt", VDate now)])%list
  else if String.eqb newStatus "failed" then
    inr (updateData ++ [("status", VStr "failed");
                        ("verificationStatus", VStr "expired");
                        ("active", VBool false); ("failed", VBool true);
                        ("failedAt", VDate now)])%list
  else inl ("Unhandled status update: " ++ newStatus).

(** The gate of [handleStatusUpdate]: whether
    [validTransitions[status] && !validTransitions[status].includes(newStatus)]
    lets the request through. *)
Definition transitionAllowed (status_ : option string) (newStatus : string)
  : Completion bool :=
  match get_prop validTransitions (prop_key status_) with
  | Own allowed => Normal (includes allowed newStatus)
  | Inherited => Throw "validTransitions[status].includes is not a function"
  | Missing => Normal true
  end.

(** [handleStatusUpdate] up to the call of [updateTaskAPI]: the error
    object it returns ([inl]), or the task identifier and the payload it
    passes to the API ([inr]). *)
Definition handleStatusUpdate (now : Z) (task : option Task)
    (newStatus : string) : Completion (string + string * Body) :=
  match task with
  | None => Normal (inl "No task ID provided")
  | Some task =>
      if String.eqb (_id task) "" then Normal (inl "No task ID provided")
      else if completed task || failed task
      then Normal (inl (terminal_message task))
      else
        match transitionAllowed (status task) newStatus with
        | Throw e => Throw e
        | Normal false =>
            Normal (inl (invalid_transition_message
                           (prop_key (status task)) newStatus))
        | Normal true =>
            match statusUpdateData now task newStatus with
            | inl e => Normal (inl e)
            | inr updateData => Normal (inr (_id task, updateData))
            end
        end
  end.

(** ** The employee document (models/Employee.js, src/unnamed/part_000) *)

Module TaskCounts.
Record t := {
  newTask : Z;
  active : Z;
  completed : Z;
  failed : Z
}.
Definition sum (c : t) : Z := newTask c + active c + completed c + failed c.
End TaskCounts.

Record Employee := {
  employee_id : string;
  taskCounts : TaskCounts.t;
  tasks : list Task
}.

(** [arr.filter(p).length] *)
Definition count (p : Task → bool) (arr : list Task) : Z :=
  Z.of_nat (length (List.filter p arr)).

(** [employeeSchema.methods.updateTaskCounts] *)
Definition updateTaskCounts (this : Employee) : Employee :=
  {| employee_id := employee_id this;
     taskCounts :=
       {| TaskCounts.completed := count (λ task, completed task) (tasks this);
          TaskCounts.failed :=
            count (λ task, failed task && negb (completed task)) (tasks this);
          TaskCounts.active :=
            count (λ task, active task && negb (completed task)
                           && negb (failed task)) (tasks this);
          TaskCounts.newTask :=
            count (λ task, newTask task && negb (active task)
                           && negb (completed task) && negb (failed task))
                  (tasks this) |};
     tasks := tasks this |}.

(** The recount the update route falls back to when the employee document
    has no [updateTaskCounts] method. *)
Definition fallbackTaskCounts (employee : Employee) : Employee :=
  let tasksArr := tasks employee in
  {| employee_id := employee_id employee;
     taskCounts :=
       {| TaskCounts.completed := count (λ t, completed t) tasksArr;
          TaskCounts.failed :=
            count (λ t, failed t && negb (completed t)) tasksArr;
          TaskCounts.active :=
            count (λ t, active t && negb (completed t) && negb (failed t))
                  tasksArr;
          TaskCounts.newTask :=
            count (λ t, newTask t && negb (active t) && negb (completed t)
                        && negb (failed t)) tasksArr |};
     tasks := tasks employee |}.

(** ** The clean-up script (fixTaskStates, src/unnamed/part_001) *)

(** The body of the loop over an employee's tasks: the task it leaves,
    and whether it fixed it. *)
Definition fixTaskState (task : Task) : Task * bool :=
  let trueStates := count_true (flags task) in
  if (1 <? trueStates)%nat then
    let fixed :=
      if completed task then
        task |> set_newTask false |> set_active false
             |> set_completed true |> set_failed false
      else if failed task then
        task |> set_newTask false |> set_active false
             |> set_completed false |> set_failed true
      else if active task then
        task |> set_newTask false |> set_active true
             |> set_completed false |> set_failed false
      else
        task |> set_newTask true |> set_active false
             |> set_completed false |> set_failed false in
    (fixed, true)
  else (task, false).

(** One employee of the clean-up: the tasks are fixed in turn, and the
    counts are recomputed when any task was. *)
Definition fixEmployee (employee : Employee) : Employee * nat :=
  let results := map fixTaskState (tasks employee) in
  let employeeTasksFixed := length (List.filter snd results) in
  let employee' :=
    {| employee_id := employee_id employee;
       taskCounts := taskCounts employee;
       tasks := map fst results |} in
  if (0 <? employeeTasksFixed)%nat
  then (updateTaskCounts employee', employeeTasksFixed)
  else (employee', employeeTasksFixed).

(** ** The employee routes (backend/routes/employees.js) *)

(** The label [updateTaskState] stores in [task.status]. *)
Definition stateLabel (task : Task) : string :=
  if failed task then "expired"
  else if completed task then "completed"
  else if str_is (verificationStatus task) "pending" then "pendingVerification"
  else if active task then "active"
  else if newTask task then "new"
  else "new".

(** [updateTaskState(task, currentTime)]: the task as the call leaves it. *)
Definition updateTaskState (task : Task) (currentTime : Z) : Task :=
  if completed task then task
  else if date_before (endDate task) currentTime && negb (failed task) then
    task |> set_active false |> set_newTask false |> set_completed false
         |> set_failed true |> set_verificationStatus (Some "expired")
         |> set_updatedAt (Some currentTime)
  else
    let task :=
      if str_is (verificationStatus task) "pending" then
        task |> set_active false |> set_newTask false
             |> set_completed false |> set_failed false
      else task in
    task |> set_status (Some (stateLabel task)).

(** An admin document embeds its employees, which embed their tasks. *)
Record Admin := {
  admin_id : string;
  employees : list Employee
}.

Record Request := {
  employeeId : string;
  taskId : string;
  body : Body;
  file : option File;
  files : option (list File);
  user : option string
}.

Inductive Response : Type :=
| Ok (http : nat) (task : Task)
| Created (document : Document)
| Error (http : nat) (message : string) (code : option string).

(** The first element that satisfies [p] is replaced by its image. *)
Fixpoint update_first {A : Type} (p : A → bool) (f : A → A) (l : list A)
  : list A :=
  match l with
  | [] => []
  | x :: r => if p x then f x :: r else x :: update_first p f r
  end.

Definition has_id (id : string) (task : Task) : bool :=
  String.eqb (_id task) id.

Definition is_employee (id : string) (e : Employee) : bool :=
  String.eqb (employee_id e) id.

Definition has_employee (id : string) (a : Admin) : bool :=
  existsb (is_employee id) (employees a).

(** [Admin.findOne({ 'employees._id': id })], for an identifier the
    query can cast: on a malformed one the query throws, and the handlers
    answer 500 from their catch block with the database as it was. *)
Definition findOne (db : list Admin) (id : string) : option Admin :=
  List.find (has_employee id) db.

(** [admin.employees.id(id)] *)
Definition employees_id (a : Admin) (id : string) : option Employee :=
  List.find (is_employee id) (employees a).

(** [employee.tasks.id(id)] *)
Definition tasks_id (e : Employee) (id : string) : option Task :=
  List.find (has_id id) (tasks e).

(** The employee after the handler mutated the task it looked up and the
    counters. *)
Definition with_task (e : Employee) (id : string) (task : Task)
    (counts : TaskCounts.t) : Employee :=
  {| employee_id := employee_id e;
     taskCounts := counts;
     tasks := update_first (has_id id) (λ _, task) (tasks e) |}.

(** [admin.save()] after the handler mutated the employee [id]. *)
Definition save (db : list Admin) (id : string) (e : Employee) : list Admin :=
  update_first (has_employee id)
    (λ a, {| admin_id := admin_id a;
             employees := update_first (is_employee id) (λ _, e) (employees a) |})
    db.

(** [x || d] on a counter. *)
Definition or_num (x d : Z) : Z := if (x =? 0)%Z then d else x.

(** [counts.active = Math.max(0, (counts.active || 1) - 1)] *)
Definition dec_active (c : TaskCounts.t) : TaskCounts.t :=
  {| TaskCounts.newTask := TaskCounts.newTask c;
     TaskCounts.active := Z.max 0 (or_num (TaskCounts.active c) 1 - 1);
     TaskCounts.completed := TaskCounts.completed c;
     TaskCounts.failed := TaskCounts.failed c |}.

(** [counts.active = Math.max(0, (counts.active || 0) - 1)] *)
Definition dec_active0 (c : TaskCounts.t) : TaskCounts.t :=
  {| TaskCounts.newTask := TaskCounts.newTask c;
     TaskCounts.active := Z.max 0 (or_num (TaskCounts.active c) 0 - 1);
     TaskCounts.completed := TaskCounts.completed c;
     TaskCounts.failed := TaskCounts.failed c |}.

(** [counts.active = (counts.active || 0) + 1] *)
Definition inc_active (c : TaskCounts.t) : TaskCounts.t :=
  {| TaskCounts.newTask := TaskCounts.newTask c;
     TaskCounts.active := or_num (TaskCounts.active c) 0 + 1;
     TaskCounts.completed := TaskCounts.completed c;
     TaskCounts.failed := TaskCounts.failed c |}.

(** [counts.completed = (counts.completed || 0) + 1] *)
Definition inc_completed (c : TaskCounts.t) : TaskCounts.t :=
  {| TaskCounts.newTask := TaskCounts.newTask c;
     TaskCounts.active := TaskCounts.active c;
     TaskCounts.completed := or_num (TaskCounts.completed c) 0 + 1;
     TaskCounts.failed := TaskCounts.failed c |}.

(** [counts.failed = (counts.failed || 0) + 1] *)
Definition inc_failed (c : TaskCounts.t) : TaskCounts.t :=
  {| TaskCounts.newTask := TaskCounts.newTask c;
     TaskCounts.active := TaskCounts.active c;
     TaskCounts.completed := TaskCounts.completed c;
     TaskCounts.failed := or_num (TaskCounts.failed c) 0 + 1 |}.

(** *** POST /:employeeId/tasks/:taskId/documents *)

Definition uploadedDocument (now : Z) (freshId : string) (req : Request)
    (f : File) : Document :=
  {| doc_id := Some freshId;
     fileName := filename f;
     originalName := originalname f;
     filePath := "/uploads/" ++ filename f;
     fileSize := size f;
     mimeType := mimetype f;
     uploadedAt := now;
     uploadedBy := Some (employeeId req);
     doc_status := Some "pending";
     doc_taskId := Some (taskId req) |}.

(** The mutation of the task by the upload route. *)
Definition attachDocument (task : Task) (document : Document) : Task :=
  let task :=
    match submittedDocuments task with
    | None => task |> set_submittedDocuments (Some [])
    | Some _ => task
    end in
  let task :=
    task |> set_submittedDocuments
              (Some (default [] (submittedDocuments task) ++ [document])%list) in
  if str_is (status task) "new" || str_is (status task) "active" then
    task |> set_status (Some "pendingVerification")
         |> set_verificationStatus (Some "pending")
  else task.

Definition uploadDocument (now : Z) (freshId : string) (req : Request)
    (db : list Admin) : Response * list Admin :=
  match file req with
  | None =>
      (Error 400 "No file was uploaded. Please select a file to upload." None,
       db)
  | Some f =>
      match findOne db (employeeId req) with
      | None => (Error 404 "Employee not found" None, db)
      | Some admin =>
          match employees_id admin (employeeId req) with
          | None => (Error 404 "Employee not found" None, db)
          | Some employee =>
              match tasks_id employee (taskId req) with
              | None => (Error 404 "Task not found" None, db)
              | Some task =>
                  let document := uploadedDocument now freshId req f in
                  let task := attachDocument task document in
                  (Created document,
                   save db (employeeId req)
                     (with_task employee (taskId req) task
                        (taskCounts employee)))
              end
          end
      end
  end.

(** *** POST /:employeeId/tasks/:taskId/verify *)

(** The mutation of the task and of the counters by an approval. *)
Definition approve (currentTime : Z) (adminId : string) (task : Task)
    (counts : TaskCounts.t) : Task * TaskCounts.t :=
  (task |> set_completed true |> set_active false |> set_newTask false
        |> set_failed false |> set_verificationStatus (Some "approved")
        |> set_verifiedAt (Some currentTime) |> set_verifiedBy (Some adminId)
        |> set_updatedAt (Some currentTime),
   dec_active (inc_completed counts)).

(** The mutation of the task and of the counters by a rejection. *)
Definition reject (currentTime : Z) (adminId : string) (req : Request)
    (task : Task) (counts : TaskCounts.t) : Task * TaskCounts.t :=
  (task |> set_completed false |> set_active true |> set_newTask false
        |> set_failed false |> set_verificationStatus (Some "rejected")
        |> set_rejectedAt (Some currentTime) |> set_rejectedBy (Some adminId)
        |> set_rejectionReason
             (Some (or_str (body_str (body req) "reason") "No reason provided"))
        |> set_verificationNote
             (Some (or_str (body_str (body req) "note")
                      "Task rejected - please resubmit"))
        |> set_verificationDate (Some currentTime)
        |> set_updatedAt (Some currentTime),
   inc_active counts).

Definition verifyTask (now : Z) (req : Request) (db : list Admin)
  : Response * list Admin :=
  let status := body_str (body req) "status" in
  if negb (str_is status "completed" || str_is status "rejected") then
    (* the quotation marks around the two statuses are left out of the
       message *)
    (Error 400 "Invalid status. Must be completed or rejected"
       (Some "INVALID_STATUS"), db)
  else
    match findOne db (employeeId req) with
    | None => (Error 404 "Employee not found" (Some "EMPLOYEE_NOT_FOUND"), db)
    | Some admin =>
        match employees_id admin (employeeId req) with
        | None =>
            (Error 404 "Employee not found" (Some "EMPLOYEE_NOT_FOUND"), db)
        | Some employee =>
            match tasks_id employee (taskId req) with
            | None => (Error 404 "Task not found" (Some "TASK_NOT_FOUND"), db)
            | Some task =>
                if negb (str_is (verificationStatus task) "pending") then
                  (Error 400 "Task is not pending verification"
                     (Some "INVALID_TASK_STATUS"), db)
                else
                  let currentTime := now in
                  let adminId := or_str (user req) "system" in
                  let '(task, counts) :=
                    if str_is status "completed"
                    then approve currentTime adminId task (taskCounts employee)
                    else reject currentTime adminId req task
                           (taskCounts employee) in
                  (Ok 200 task,
                   save db (employeeId req)
                     (with_task employee (taskId req) task counts))
            end
        end
    end.

(** *** PUT /:id/tasks/:taskId *)

(** [task[key] = value] for the fields of the model; [_id] and [__v] are
    skipped by the route, and a key or a value of another type leaves the
    fields of the model as they are. *)
Definition assign (task : Task) (kv : string * JSVal) : Task :=
  let '(key, value) := kv in
  match value with
  | VBool b =>
      if String.eqb key "newTask" then set_newTask b task
      else if String.eqb key "active" then set_active b task
      else if String.eqb key "completed" then set_completed b task
      else if String.eqb key "failed" then set_failed b task
      else if String.eqb key "pendingVerification"
      then set_pendingVerification b task
      else task
  | VStr s =>
      if String.eqb key "verificationStatus"
      then set_verificationStatus (Some s) task
      else if String.eqb key "status" then set_status (Some s) task
      else if String.eqb key "documentUrl" then set_documentUrl (Some s) task
      else if String.eqb key "verifiedBy" then set_verifiedBy (Some s) task
      else if String.eqb key "rejectedBy" then set_rejectedBy (Some s) task
      else if String.eqb key "rejectionReason"
      then set_rejectionReason (Some s) task
      else if String.eqb key "verificationNote"
      then set_verificationNote (Some s) task
      else task
  | VDate d =>
      if String.eqb key "endDate" then set_endDate (Some d) task
      else if String.eqb key "updatedAt" then set_updatedAt (Some d) task
      else if String.eqb key "submittedAt" then set_submittedAt (Some d) task
      else if String.eqb key "verifiedAt" then set_verifiedAt (Some d) task
      else if String.eqb key "rejectedAt" then set_rejectedAt (Some d) task
      else if String.eqb key "verificationDate"
      then set_verificationDate (Some d) task
      else task
  end.

(** The document the update route stores for an uploaded file. *)
Definition pushedDocument (currentTime : Z) (f : File) : Document :=
  {| doc_id := None;
     fileName := filename f;
     originalName := originalname f;
     filePath := "/uploads/" ++ filename f;
     fileSize := size f;
     mimeType := mimetype f;
     uploadedAt := currentTime;
     uploadedBy := None;
     doc_status := None;
     doc_taskId := None |}.

(** The branch of the update route that handles uploaded documents. *)
Definition submitFiles (currentTime : Z) (fs : list File) (task : Task)
    (counts : TaskCounts.t) : Task * TaskCounts.t :=
  let '(task, counts) :=
    if negb (str_is (verificationStatus task) "pending") then
      let task :=
        task |> set_active false |> set_completed false |> set_failed false
             |> set_newTask false |> set_verificationStatus (Some "pending")
             |> set_submittedAt (Some currentTime) in
      (task,
       if str_is (verificationStatus task) "rejected"
       then dec_active0 counts else counts)
    else (task, counts) in
  let documents := map (pushedDocument currentTime) fs in
  (task |> set_submittedDocuments
             (Some (default [] (submittedDocuments task) ++ documents)%list)
        |> set_status (Some "pendingVerification"),
   counts).

(** The label the update route stores in [task.status] after a status
    change. *)
Definition routeLabel (task : Task) : string :=
  if completed task then "completed"
  else if failed task then "failed"
  else if str_is (verificationStatus task) "pending" then "pendingVerification"
  else if active task then "active"
  else "new".

(** The [switch (status)] of the update route, [status_] being the
    requested status: the message of the 400 response it returns, or the
    task and the counters it leaves. *)
Definition changeStatus (currentTime : Z) (req : Request) (status_ : string)
    (task : Task) (counts : TaskCounts.t) : string + Task * TaskCounts.t :=
  if String.eqb status_ "active" then
    inr (task |> set_active true |> set_completed false |> set_failed false
              |> set_newTask false |> set_verificationStatus (Some ""),
         counts)
  else if String.eqb status_ "completed" then
    if negb (str_is (verificationStatus task) "pending") then
      inl "Only tasks pending verification can be marked as completed"
    else
      inr (task |> set_completed true |> set_active false |> set_failed false
                |> set_newTask false
                |> set_verificationStatus (Some "approved")
                |> set_verifiedAt (Some currentTime)
                |> set_verifiedBy (Some (or_str (user req) "system")),
           dec_active (inc_completed counts))
  else if String.eqb status_ "failed" then
    if completed task then inl "Completed tasks cannot be marked as failed"
    else
      let task' :=
        task |> set_failed true |> set_active false |> set_completed false
             |> set_newTask false |> set_verificationStatus (Some "expired") in
      let counts := inc_failed counts in
      let counts :=
        if str_is (status task') "active" then dec_active counts
        else counts in
      inr (task' |> set_verificationNote
                      (Some (or_str (body_str (body req) "note") ""))
                 |> set_verificationDate (Some currentTime),
           counts)
  else if String.eqb status_ "pendingVerification" then
    inl "Cannot directly set status to pendingVerification. Upload documents instead."
  else if String.eqb status_ "expired" then
    inl "Cannot manually set status to expired. It is set automatically when endDate is passed."
  else if String.eqb status_ "rejected" then
    inl "Use the verification endpoint to reject tasks."
  else inl ("Invalid status: " ++ status_).

(** The text of a value inside a message; the text of a date is not
    modelled. *)
Definition js_text (v : JSVal) : string :=
  match v with
  | VBool true => "true"
  | VBool false => "false"
  | VStr s => s
  | VDate _ => "[date]"
  end.

Section UpdateRoute.

(** Whether the employee document carries an [updateTaskCounts] method,
    which the route tests with [typeof]: the employee schema of the Admin
    model defines one, and the route keeps a fallback for a document
    without it. *)
Variable hasUpdateTaskCounts : bool.

Definition recount (employee : Employee) : Employee :=
  if hasUpdateTaskCounts then updateTaskCounts employee
  else fallbackTaskCounts employee.

(** The mutation of the task and of the counters by the update route,
    before the recount: [currentTime] is the clock reading at the top of
    the handler, [later] the one passed to [updateTaskState]. *)
Definition applyUpdate (currentTime later : Z) (req : Request) (task : Task)
    (counts : TaskCounts.t) : string + Task * TaskCounts.t :=
  let status_ := body_get (body req) "status" in
  let updateData :=
    List.filter (λ kv, negb (String.eqb (fst kv) "status")) (body req) in
  let changed :=
    match files req with
    | Some (f :: fs) => inr (submitFiles currentTime (f :: fs) task counts)
    | _ =>
        if truthy status_ then
          match status_ with
          | Some (VStr s) =>
              match changeStatus currentTime req s task counts with
              | inl e => inl e
              | inr (task, counts) =>
                  inr (task |> set_status (Some (routeLabel task)), counts)
              end
          | Some v => inl ("Invalid status: " ++ js_text v)
          | None => inr (task, counts)
          end
        else inr (task, counts)
    end in
  match changed with
  | inl e => inl e
  | inr (task, counts) =>
      let task :=
        fold_left
          (λ task kv,
             if String.eqb (fst kv) "_id" || String.eqb (fst kv) "__v"
             then task else assign task kv)
          updateData task in
      inr (updateTaskState task later, counts)
  end.

Definition updateTask (currentTime later : Z) (req : Request)
    (db : list Admin) : Response * list Admin :=
  if String.eqb (employeeId req) "" || String.eqb (taskId req) "" then
    (Error 400 "Employee ID and Task ID are required" None, db)
  else
    match findOne db (employeeId req) with
    | None => (Error 404 "Employee not found" None, db)
    | Some admin =>
        match employees_id admin (employeeId req) with
        | None => (Error 404 "Employee not found" None, db)
        | Some employee =>
            match tasks_id employee (taskId req) with
            | None => (Error 404 "Task not found" None, db)
            | Some task =>
                match applyUpdate currentTime later req task
                        (taskCounts employee) with
                | inl e => (Error 400 e None, db)
                | inr (task, counts) =>
                    (Ok 200 task,
                     save db (employeeId req)
                       (recount (with_task employee (taskId req) task
                                   counts)))
                end
            end
        end
    end.

End UpdateRoute.

(** *** POST /tasks/check-expired *)

(** The [$elemMatch] of the query that selects the admins to sweep. *)
Definition elemMatch (currentTime : Z) (task : Task) : bool :=
  ((active task && date_before (endDate task) currentTime)
   || (str_is (verificationStatus task) "pending"
       && date_before (endDate task) currentTime))
  && negb (completed task) && negb (failed task).

Definition selected (currentTime : Z) (admin : Admin) : bool :=
  existsb (λ employee, existsb (elemMatch currentTime) (tasks employee))
    (employees admin).

(** The mutation of an expired task by the sweep. *)
Definition expire (currentTime : Z) (task : Task) : Task :=
  task |> set_active false |> set_completed false |> set_failed true
       |> set_verificationStatus (Some "expired")
       |> set_updatedAt (Some currentTime).

(** The loop over the tasks of an employee: the tasks and the counters it
    leaves, and the number of tasks it updated. *)
Fixpoint sweepTasks (currentTime : Z) (arr : list Task)
    (counts : TaskCounts.t) : list Task * TaskCounts.t * Z :=
  match arr with
  | [] => ([], counts, 0%Z)
  | task :: rest =>
      if completed task || failed task then
        let '(rest, counts, n) := sweepTasks currentTime rest counts in
        (task :: rest, counts, n)
      else if date_before (endDate task) currentTime then
        let task := expire currentTime task in
        let counts :=
          if str_is (status task) "active" then dec_active counts
          else counts in
        let counts := inc_failed counts in
        let '(rest, counts, n) := sweepTasks currentTime rest counts in
        (task :: rest, counts, (n + 1)%Z)
      else
        let '(rest, counts, n) := sweepTasks currentTime rest counts in
        (task :: rest, counts, n)
  end.

Definition sweepEmployee (currentTime : Z) (employee : Employee)
  : Employee * Z :=
  let '(arr, counts, n) :=
    sweepTasks currentTime (tasks employee) (taskCounts employee) in
  ({| employee_id := employee_id employee;
      taskCounts := counts;
      tasks := arr |}, n).

Fixpoint sweepEmployees (currentTime : Z) (es : list Employee)
  : list Employee * Z :=
  match es with
  | [] => ([], 0%Z)
  | employee :: rest =>
      let '(employee, n) := sweepEmployee currentTime employee in
      let '(rest, m) := sweepEmployees currentTime rest in
      (employee :: rest, (n + m)%Z)
  end.

Definition sweepAdmin (currentTime : Z) (admin : Admin) : Admin * Z :=
  let '(es, n) := sweepEmployees currentTime (employees admin) in
  ({| admin_id := admin_id admin; employees := es |}, n).

(** The route: the database it leaves and the [updatedCount] it reports.
    Only the admins the query selects are loaded and swept. *)
Fixpoint checkExpired (currentTime : Z) (db : list Admin)
  : list Admin * Z :=
  match db with
  | [] => ([], 0%Z)
  | admin :: rest =>
      let '(admin, n) :=
        if selected currentTime admin then sweepAdmin currentTime admin
        else (admin, 0%Z) in
      let '(rest, m) := checkExpired currentTime rest in
      (admin :: rest, (n + m)%Z)
  end.

(** ** The statements the properties are compared with *)

(** The legal transition table, entry by entry. *)
Inductive legal : string → string → Prop :=
| legal_new_active : legal "new" "active"
| legal_new_failed : legal "new" "failed"
| legal_active_pending : legal "active" "pendingVerification"
| legal_active_failed : legal "active" "failed"
| legal_pending_completed : legal "pendingVerification" "completed"
| legal_pending_rejected : legal "pendingVerification" "rejected"
| legal_pending_failed : legal "pendingVerification" "failed"
| legal_rejected_pending : legal "rejected" "pendingVerification"
| legal_rejected_failed : legal "rejected" "failed".

(** The table the gate of [handleStatusUpdate] applies, entry by entry. *)
Inductive gated : string → string → Prop :=
| gated_new_active : gated "new" "active"
| gated_active_pending : gated "active" "pendingVerification"
| gated_active_failed : gated "active" "failed"
| gated_pending_completed : gated "pendingVerification" "completed"
| gated_pending_rejected : gated "pendingVerification" "rejected"
| gated_rejected_active : gated "rejected" "active"
| gated_rejected_failed : gated "rejected" "failed".

(** A validator accepts exactly the legal transitions and the same-status
    no-ops. *)
Definition accepts_exactly_legal
    (validate : string → string → Completion bool) : Prop :=
  ∀ cur new, validate cur new = Normal true ↔ cur = new ∨ legal cur new.

(** Exactly one of the four lifecycle flags is true. *)
Definition exclusive (task : Task) : Prop := count_true (flags task) = 1%nat.

(** Exactly one of the four flags is true, or none is and the task awaits
    verification. *)
Definition exclusive_or_pending (task : Task) : Prop :=
  count_true (flags task) = 1%nat
  ∨ (count_true (flags task) = 0%nat
     ∧ verificationStatus task = Some "pending").

(** At least one of the four flags is true. *)
Definition flagged (task : Task) : bool :=
  newTask task || active task || completed task || failed task.

(** The task a request addresses, as the routes look it up. *)
Definition lookup_task (db : list Admin) (eid tid : string) : option Task :=
  admin ← findOne db eid;
  employee ← employees_id admin eid;
  tasks_id employee tid.

(** The counters of an employee, as the routes look the employee up. *)
Definition lookup_counts (db : list Admin) (eid : string)
  : option TaskCounts.t :=
  admin ← findOne db eid;
  employee ← employees_id admin eid;
  Some (taskCounts employee).

(** The task a successful response carries. *)
Definition response_task (r : Response) : option Task :=
  match r with
  | Ok _ task => Some task
  | _ => None
  end.

(** The response of the verification route to a task that is not pending
    review. *)
Definition NotPendingReview : Response :=
  Error 400 "Task is not pending verification" (Some "INVALID_TASK_STATUS").

(** The sweep changes a task that is neither completed nor failed and
    whose deadline has passed. *)
Definition sweepable (currentTime : Z) (task : Task) : bool :=
  negb (completed task || failed task)
  && date_before (endDate task) currentTime.

(** An employee none of whose tasks the sweep would change. *)
Definition settled (currentTime : Z) (employee : Employee) : bool :=
  forallb (λ task, negb (sweepable currentTime task)) (tasks employee).

(** The keys of a request body that would overwrite a lifecycle flag or
    the verification status. *)
Definition lifecycle_keys : list string :=
  ["newTask"; "active"; "completed"; "failed"; "verificationStatus"].

(** ** Sample data *)

(** A task as the assignment creates it, due at time 2000. *)
Definition assigned : Task :=
  {| _id := "t1"; newTask := true; active := false; completed := false;
     failed := false; pendingVerification := false; status := Some "new";
     verificationStatus := None; endDate := Some 2000%Z;
     submittedDocuments := Some []; documentUrl := None; updatedAt := None;
     submittedAt := None; verifiedAt := None; verifiedBy := None;
     rejectedAt := None; rejectedBy := None; rejectionReason := None;
     verificationNote := None; verificationDate := None |}.

(** The task once accepted. *)
Definition accepted : Task :=
  assigned |> set_newTask false |> set_active true |> set_status (Some "active")
        |> set_verificationStatus (Some "").

Definition doc1 : Document :=
  {| doc_id := Some "d1"; fileName := "report-1.pdf";
     originalName := "report.pdf"; filePath := "/uploads/report-1.pdf";
     fileSize := 1024; mimeType := "application/pdf"; uploadedAt := 1100;
     uploadedBy := Some "e1"; doc_status := Some "pending";
     doc_taskId := Some "t1" |}.

(** The accepted task after the upload route attached [doc1]. *)
Definition submitted : Task := attachDocument accepted doc1.

(** A task that awaits verification with its four flags cleared. *)
Definition awaiting : Task :=
  submitted |> set_active false.

(** An approved task. *)
Definition finished : Task :=
  awaiting |> set_completed true |> set_status (Some "completed")
           |> set_verificationStatus (Some "approved").

Definition zero_counts : TaskCounts.t :=
  {| TaskCounts.newTask := 0; TaskCounts.active := 0;
     TaskCounts.completed := 0; TaskCounts.failed := 0 |}.

(** A database with one admin and one employee, who owns [task]. *)
Definition employee_with (task : Task) : Employee :=
  {| employee_id := "e1"; taskCounts := zero_counts; tasks := [task] |}.

Definition admin_with (task : Task) : Admin :=
  {| admin_id := "a1"; employees := [employee_with task] |}.

Definition db_with (task : Task) : list Admin := [admin_with task].

Definition report1 : File :=
  {| filename := "report-1.pdf"; originalname := "report.pdf"; size := 1024;
     mimetype := "application/pdf" |}.

Definition report2 : File :=
  {| filename := "report-2.pdf"; originalname := "report.pdf"; size := 2048;
     mimetype := "application/pdf" |}.

(** A request on task [t1] of employee [e1]. *)
Definition request (b : Body) (f : option File) : Request :=
  {| employeeId := "e1"; taskId := "t1"; body := b; file := f;
     files := None; user := Some "a1" |}.

(** The request that accepts the task, approves or rejects it. *)
Definition accept_request : Request := request [("status", VStr "active")] None.
Definition approve_request : Request :=
  request [("status", VStr "completed")] None.
Definition reject_request : Request :=
  request [("status", VStr "rejected"); ("reason", VStr "incomplete")] None.

(** The flag set of an active task. *)
Definition active_state : FlagState :=
  {| fs_newTask := false; fs_active := true; fs_completed := false;
     fs_failed := false |}.

(** ** The rest of the workflow service (src/services/taskWorkflow.js) *)

(** [{...task, ...newState}] for a state of [determineTaskState]. *)
Definition withState (task : Task) (newState : TaskState) : Task :=
  task |> set_newTask (st_newTask newState)
       |> set_active (st_active newState)
       |> set_completed (st_completed newState)
       |> set_failed (st_failed newState)
       |> set_pendingVerification (st_pendingVerification newState).

(** [{...task, ...newState}] for a state of [acceptTask], [submitDocument]
    or [expireTask]. *)
Definition withFlags (task : Task) (newState : FlagState) : Task :=
  task |> set_newTask (fs_newTask newState)
       |> set_active (fs_active newState)
       |> set_completed (fs_completed newState)
       |> set_failed (fs_failed newState).

(** [processAllTasks]: every task is resolved in turn, and [clock i] is
    the clock reading taken while the task at index [i] is resolved. *)
Definition processAllTasks (clock : nat → Z) (arr : list Task) : list Task :=
  imap (λ i task,
          withState task
            (TaskWorkflowService.determineTaskState (clock i) task))
       arr.

(** The object returned by [getTaskStatistics]. *)
Record Statistics := {
  stat_newTask : Z;
  stat_active : Z;
  stat_completed : Z;
  stat_failed : Z;
  stat_total : Z
}.

Definition getTaskStatistics (clock : nat → Z) (arr : list Task)
  : Statistics :=
  let processedTasks := processAllTasks clock arr in
  {| stat_newTask := count newTask processedTasks;
     stat_active := count active processedTasks;
     stat_completed := count completed processedTasks;
     stat_failed := count failed processedTasks;
     stat_total := Z.of_nat (length processedTasks) |}.

(** The resolution of [determineTaskState] as a function of the seven
    signals it reads: the flags completed, pendingVerification, newTask,
    failed and active, whether the deadline has passed, and whether
    documents were submitted. *)
Definition resolveState (c p isExpired hasDocuments n f a : bool)
  : TaskState :=
  if c then TaskWorkflowService.st_only_completed
  else if p then TaskWorkflowService.st_only_pending
  else if isExpired && negb hasDocuments
  then TaskWorkflowService.st_only_failed
  else if negb n && negb isExpired && negb hasDocuments
  then TaskWorkflowService.st_only_active
  else if n && negb isExpired then TaskWorkflowService.st_only_new
  else if c then TaskWorkflowService.st_only_completed
  else if p then TaskWorkflowService.st_only_pending
  else if f then TaskWorkflowService.st_only_failed
  else if a then TaskWorkflowService.st_only_active
  else if n then TaskWorkflowService.st_only_new
  else TaskWorkflowService.st_only_new.

(** The double quote of a JSON text. *)
Definition dquote : string := String (Ascii.ascii_of_nat 34) "".

(** [JSON.stringify] of an object whose values are booleans. *)
Definition stringify (entries : list (string * bool)) : string :=
  "{"
  ++ String.concat ","
       (map (λ kv : string * bool,
               dquote ++ kv.1 ++ dquote ++ ":"
               ++ (if kv.2 then "true" else "false"))
            entries)
  ++ "}".

(** The two objects [needsStateUpdate] compares for a task. *)
Definition currentState (task : Task) : list (string * bool) :=
  [("newTask", newTask task); ("active", active task);
   ("completed", completed task); ("failed", failed task)].

Definition expectedState (s : TaskState) : list (string * bool) :=
  [("newTask", st_newTask s); ("active", st_active s);
   ("completed", st_completed s); ("failed", st_failed s);
   ("pendingVerification", st_pendingVerification s)].

Definition needsStateUpdate (clock : nat → Z) (arr : list Task) : bool :=
  existsb id
    (imap (λ i task,
             negb (String.eqb
                     (stringify (currentState task))
                     (stringify
                        (expectedState
                           (TaskWorkflowService.determineTaskState
                              (clock i) task)))))
          arr).

(** ** The task list of the employee dashboard (src/unnamed/part_008) *)

(** A task as the list shows it: the task with its recomputed fields, the
    employee it belongs to and whether its deadline has passed. *)
Record ViewTask := {
  vt_task : Task;
  vt_employeeId : option string;
  vt_isExpired : bool
}.

(** The body of the [map] that resolves a task for display. *)
Definition viewTask (now : Z) (employee : option string) (task : Task)
  : ViewTask :=
  let isExpired :=
    match endDate task with
    | Some e => (e <? now)%Z
    | None => false
    end in
  let baseTask :=
    task |> set_newTask false |> set_active false |> set_completed false
         |> set_failed false
         |> set_verificationStatus
              (Some (default "none" (verificationStatus task))) in
  let shown (t : Task) :=
    {| vt_task := t; vt_employeeId := employee; vt_isExpired := isExpired |} in
  if isExpired && negb (completed task)
     && negb (str_is (verificationStatus task) "approved")
  then shown (baseTask |> set_failed true |> set_status (Some "failed")
                       |> set_verificationStatus (Some "expired")
                       |> set_newTask false |> set_active false
                       |> set_completed false)
  else if completed task || str_is (verificationStatus task) "approved"
  then shown (baseTask |> set_completed true
                       |> set_verificationStatus (Some "approved")
                       |> set_newTask false |> set_active false
                       |> set_failed false)
  else if str_is (verificationStatus task) "pending"
  then shown (baseTask |> set_verificationStatus (Some "pending")
                       |> set_newTask false |> set_active false
                       |> set_completed false |> set_failed false)
  else if str_is (verificationStatus task) "rejected"
  then shown (baseTask |> set_verificationStatus (Some "rejected")
                       |> set_active true |> set_newTask false
                       |> set_completed false |> set_failed false)
  else if str_is (verificationStatus task) ""
  then shown (baseTask |> set_verificationStatus (Some "")
                       |> set_newTask (newTask task)
                       |> set_active (active task)
                       |> set_completed false |> set_failed false)
  else if newTask task
  then shown (baseTask |> set_newTask true |> set_active false
                       |> set_completed false |> set_failed false
                       |> set_verificationStatus (Some "none"))
  else shown (baseTask |> set_active true |> set_newTask false
                       |> set_completed false |> set_failed false
                       |> set_verificationStatus (Some "none")).

(** The resolved tasks of the list: [data.tasks] may be absent, and an
    entry that is no object ([None]) is dropped. *)
Definition viewTasks (now : Z) (employee : option string)
    (arr : option (list (option Task))) : list ViewTask :=
  match arr with
  | None | Some [] => []
  | Some l => omap (option_map (viewTask now employee)) l
  end.

(** The six lists the resolved tasks are sorted into. *)
Record Categories := {
  failedTasks : list ViewTask;
  completeTasks : list ViewTask;
  pendingVerificationTasks : list ViewTask;
  rejectedTasks : list ViewTask;
  newTasks : list ViewTask;
  activeTasks : list ViewTask
}.

(** One step of the [forEach] that sorts the tasks: the task is pushed on
    one of the lists. *)
Definition categorizeTask (c : Categories) (v : ViewTask) : Categories :=
  let task := vt_task v in
  if failed task then
    {| failedTasks := failedTasks c ++ [v];
       completeTasks := completeTasks c;
       pendingVerificationTasks := pendingVerificationTasks c;
       rejectedTasks := rejectedTasks c; newTasks := newTasks c;
       activeTasks := activeTasks c |}%list
  else if completed task || str_is (verificationStatus task) "approved" then
    {| failedTasks := failedTasks c;
       completeTasks := completeTasks c ++ [v];
       pendingVerificationTasks := pendingVerificationTasks c;
       rejectedTasks := rejectedTasks c; newTasks := newTasks c;
       activeTasks := activeTasks c |}%list
  else if str_is (verificationStatus task) "pending" then
    {| failedTasks := failedTasks c;
       completeTasks := completeTasks c;
       pendingVerificationTasks := pendingVerificationTasks c ++ [v];
       rejectedTasks := rejectedTasks c; newTasks := newTasks c;
       activeTasks := activeTasks c |}%list
  else if str_is (verificationStatus task) "rejected" then
    {| failedTasks := failedTasks c;
       completeTasks := completeTasks c;
       pendingVerificationTasks := pendingVerificationTasks c;
       rejectedTasks := rejectedTasks c; newTasks := newTasks c;
       activeTasks := activeTasks c ++ [v] |}%list
  else if newTask task then
    {| failedTasks := failedTasks c;
       completeTasks := completeTasks c;
       pendingVerificationTasks := pendingVerificationTasks c;
       rejectedTasks := rejectedTasks c; newTasks := newTasks c ++ [v];
       activeTasks := activeTasks c |}%list
  else
    {| failedTasks := failedTasks c;
       completeTasks := completeTasks c;
       pendingVerificationTasks := pendingVerificationTasks c;
       rejectedTasks := rejectedTasks c; newTasks := newTasks c;
       activeTasks := activeTasks c ++ [v] |}%list.

Definition noCategories : Categories :=
  {| failedTasks := []; completeTasks := []; pendingVerificationTasks := [];
     rejectedTasks := []; newTasks := []; activeTasks := [] |}.

Definition categorize (arr : list ViewTask) : Categories :=
  fold_left categorizeTask arr noCategories.

(** ** Reference functions for the sweep and the clean-up *)

(** What the sweep does to one task. *)
Definition expireDue (currentTime : Z) (task : Task) : Task :=
  if sweepable currentTime task then expire currentTime task else task.

(** The task lists of a database, admin by admin and employee by
    employee, with the identifiers of their owners. *)
Definition task_lists (db : list Admin)
  : list (string * list (string * list Task)) :=
  map (λ a, (admin_id a, map (λ e, (employee_id e, tasks e)) (employees a)))
      db.

(** The task lists the sweep is to leave: the tasks of the admins the
    query selects with their due tasks expired, the others as they are. *)
Definition swept_lists (currentTime : Z) (db : list Admin)
  : list (string * list (string * list Task)) :=
  map (λ a,
         (admin_id a,
          map (λ e,
                 (employee_id e,
                  if selected currentTime a
                  then map (expireDue currentTime) (tasks e)
                  else tasks e))
              (employees a)))
      db.

(** The number of due tasks of the admins the query selects. *)
Definition due_count (currentTime : Z) (db : list Admin) : Z :=
  foldr Z.add 0%Z
    (map (λ a,
            if selected currentTime a
            then foldr Z.add 0%Z
                   (map (λ e, count (sweepable currentTime) (tasks e))
                        (employees a))
            else 0%Z)
         db).

(** More than one of the four flags of the task is set. *)
Definition overflagged (task : Task) : bool :=
  (1 <? count_true (flags task))%nat.

(** A second task of the sample employee, still new and due at 1500, and
    a database in which the employee owns the accepted task and this one. *)
Definition second_task : Task :=
  {| _id := "t2"; newTask := true; active := false; completed := false;
     failed := false; pendingVerification := false; status := Some "new";
     verificationStatus := None; endDate := Some 1500%Z;
     submittedDocuments := None; documentUrl := None; updatedAt := None;
     submittedAt := None; verifiedAt := None; verifiedBy := None;
     rejectedAt := None; rejectedBy := None; rejectionReason := None;
     verificationNote := None; verificationDate := None |}.

Definition db_two : list Admin :=
  [{| admin_id := "a1";
      employees := [{| employee_id := "e1"; taskCounts := zero_counts;
                       tasks := [submitted; second_task] |}] |}].

(** The six lists of the task list, one after the other. *)
Definition all_categories (c : Categories) : list ViewTask :=
  (failedTasks c ++ completeTasks c ++ pendingVerificationTasks c
   ++ rejectedTasks c ++ newTasks c ++ activeTasks c)%list.

(** ** The admin routes (backend/routes/admin.js) *)

(** [arr.slice(start, end)]: a negative index counts from the end. *)
Definition relative_index (len i : Z) : Z :=
  if (i <? 0)%Z then Z.max (len + i) 0 else Z.min i len.

Definition js_slice {A : Type} (l : list A) (start end_ : Z) : list A :=
  let len := Z.of_nat (length l) in
  let k := relative_index len start in
  let final := relative_index len end_ in
  take (Z.to_nat (final - k)) (drop (Z.to_nat k) l).

(** [parseInt(s) || d]: the default replaces NaN (here [None]) and 0. *)
Definition or_default (parsed : option Z) (d : Z) : Z :=
  match parsed with
  | Some n => if (n =? 0)%Z then d else n
  | None => d
  end.

(** [Math.ceil(total / limit)] for a limit that is not 0. *)
Definition ceil_div (total limit : Z) : Z := (- ((- total) / limit))%Z.

(** *** GET /tasks/pending-verification *)

(** An entry of the review queue. *)
Record PendingTask := {
  pt_taskId : string;
  pt_status : option string;
  pt_verificationStatus : option string;
  pt_employee : string;
  pt_updatedAt : option Z
}.

Record Pagination := {
  page : Z;
  limit : Z;
  total : Z;
  totalPages : Z;
  hasNextPage : bool;
  hasPreviousPage : bool
}.

Record QueuePage := {
  data : list PendingTask;
  pagination : Pagination
}.

(** The filter of the queue: the review is pending and the task is
    completed or has a document. *)
Definition awaitsReview (task : Task) : bool :=
  str_is (verificationStatus task) "pending"
  && (completed task
      || match submittedDocuments task with
         | Some docs => (0 <? length docs)%nat
         | None => false
         end).

Definition pendingEntry (employee : Employee) (task : Task) : PendingTask :=
  {| pt_taskId := _id task;
     pt_status := status task;
     pt_verificationStatus := verificationStatus task;
     pt_employee := employee_id employee;
     pt_updatedAt := updatedAt task |}.

(** The loop over the employees of the admin: the list [pendingTasks]
    and the counter [totalPendingTasks] as it leaves them. *)
Definition collectPending (es : list Employee) : list PendingTask * Z :=
  fold_left
    (λ '(pendingTasks, totalPendingTasks) employee,
       let employeePendingTasks := List.filter awaitsReview (tasks employee) in
       ((pendingTasks ++ map (pendingEntry employee) employeePendingTasks)%list,
        (totalPendingTasks + Z.of_nat (length employeePendingTasks))%Z))
    es ([], 0%Z).

(** The page of the queue the route answers with. *)
Definition paginate (page_ limit_ : Z) (pendingTasks : list PendingTask)
    (totalPendingTasks : Z) : QueuePage :=
  let skip := ((page_ - 1) * limit_)%Z in
  let totalPages_ := ceil_div totalPendingTasks limit_ in
  {| data := js_slice pendingTasks skip (skip + limit_);
     pagination :=
       {| page := page_; limit := limit_; total := totalPendingTasks;
          totalPages := totalPages_;
          hasNextPage := (page_ <? totalPages_)%Z;
          hasPreviousPage := (1 <? page_)%Z |} |}.

Record QueueQuery := {
  q_page : option Z;
  q_limit : option Z;
  q_adminId : option string;
  q_admin : option string
}.

Definition is_admin (id : string) (a : Admin) : bool :=
  String.eqb (admin_id a) id.

(** [Admin.findById(id)] *)
Definition findById (db : list Admin) (id : string) : option Admin :=
  List.find (is_admin id) db.

Section AdminRoutes.

(** [mongoose.Types.ObjectId.isValid] *)
Variable isValidObjectId : string → bool.

(** [new Date(s).getTime()], [None] for an invalid date. *)
Variable parseDate : string → option Z.

Definition pendingVerificationQueue (query : QueueQuery) (db : list Admin)
  : QueuePage + nat * string :=
  let page_ := or_default (q_page query) 1 in
  let limit_ := or_default (q_limit query) 10 in
  let adminId := if truthy_str (q_adminId query) then q_adminId query
                 else q_admin query in
  if negb (truthy_str adminId) then inr (400%nat, "Admin ID is required")
  else
    let adminId := default "" adminId in
    if negb (isValidObjectId adminId)
    then inr (400%nat, "Invalid admin ID format")
    else
      match findById db adminId with
      | None => inr (404%nat, "Admin not found")
      | Some adminDoc =>
          let '(pendingTasks, totalPendingTasks) :=
            collectPending (employees adminDoc) in
          inl (paginate page_ limit_ pendingTasks totalPendingTasks)
      end.

(** *** POST /:adminId/employees/:employeeId/tasks *)

Record TaskData := {
  taskTitle : option string;
  taskDescription : option string;
  td_endDate : option string;
  category : option string
}.

Record Requester := {
  role : option string;
  requester_id : option string
}.

Record CreateRequest := {
  cr_adminId : string;
  cr_employeeId : string;
  cr_body : TaskData;
  cr_user : option Requester
}.

Inductive CreateResponse : Type :=
| TaskCreated (task : Task)
| Refused (http : nat) (message : string).

Definition GRACE_MS : Z := 30 * 1000.

(** The task object the route builds, in the fields of [Task]. *)
Definition createdTask (newId : string) (parsedEndDate later : Z) : Task :=
  {| _id := newId; newTask := true; active := false; completed := false;
     failed := false; pendingVerification := false; status := None;
     verificationStatus := Some EmptyString; endDate := Some parsedEndDate;
     submittedDocuments := None; documentUrl := None;
     updatedAt := Some later; submittedAt := None; verifiedAt := None;
     verifiedBy := None; rejectedAt := None; rejectedBy := None;
     rejectionReason := None; verificationNote := None;
     verificationDate := None |}.

(** The filter [{ _id: adminId, 'employees._id': employeeId }]. *)
Definition owns (adminId employeeId : string) (a : Admin) : bool :=
  is_admin adminId a && has_employee employeeId a.

(** [Admin.updateOne(filter, update)] with the positional operator: the
    update [f] is applied to the first employee with the identifier in the
    first admin the filter matches. *)
Definition updateOne (adminId employeeId : string) (f : Employee → Employee)
    (db : list Admin) : list Admin :=
  update_first (owns adminId employeeId)
    (λ a, {| admin_id := admin_id a;
             employees :=
               update_first (is_employee employeeId) f (employees a) |})
    db.

Definition push_task (task : Task) (e : Employee) : Employee :=
  {| employee_id := employee_id e; taskCounts := taskCounts e;
     tasks := (tasks e ++ [task])%list |}.

Definition set_taskCounts (counts : TaskCounts.t) (e : Employee) : Employee :=
  {| employee_id := employee_id e; taskCounts := counts; tasks := tasks e |}.

(** The recount of the route. *)
Definition countTasks (tasks : list Task) : TaskCounts.t :=
  {| TaskCounts.completed := count (λ t, completed t) tasks;
     TaskCounts.failed := count (λ t, failed t && negb (completed t)) tasks;
     TaskCounts.active :=
       count (λ t, active t && negb (completed t) && negb (failed t)) tasks;
     TaskCounts.newTask :=
       count (λ t, newTask t && negb (active t) && negb (completed t)
                   && negb (failed t)) tasks |}.

(** The requester is an admin other than the one of the path. *)
Definition forbidden (req : CreateRequest) : bool :=
  match cr_user req with
  | Some u =>
      str_is (role u) "admin" && truthy_str (requester_id u)
      && negb (String.eqb (default "" (requester_id u)) (cr_adminId req))
  | None => false
  end.

(** The handler: [now] and [later] are the readings of the clock for
    [parsedTaskDate] and [updatedAt], [newId] the identifier of the new
    task. *)
Definition createTask (now later : Z) (newId : string) (req : CreateRequest)
    (db : list Admin) : CreateResponse * list Admin :=
  let adminId := cr_adminId req in
  let employeeId := cr_employeeId req in
  let taskData := cr_body req in
  if negb (isValidObjectId adminId) || negb (isValidObjectId employeeId)
  then (Refused 400 "Invalid ID format", db)
  else if negb (truthy_str (taskTitle taskData))
          || negb (truthy_str (taskDescription taskData))
          || negb (truthy_str (td_endDate taskData))
          || negb (truthy_str (category taskData))
  then (Refused 400 "Missing required task fields", db)
  else if forbidden req
  then (Refused 403 "Forbidden: cannot modify other admin data", db)
  else
    match parseDate (default "" (td_endDate taskData)) with
    | None => (Refused 400 "Invalid endDate format. Expect ISO string.", db)
    | Some parsedEndDate =>
        if (parsedEndDate <=? now + GRACE_MS)%Z
        then (Refused 400 "End date/time must be slightly after current time",
              db)
        else
          let newTask := createdTask newId parsedEndDate later in
          if negb (existsb (owns adminId employeeId) db)
          then (Refused 404 "Admin or employee not found", db)
          else
            let db := updateOne adminId employeeId (push_task newTask) db in
            match findById db adminId with
            | None => (Refused 404 "Admin not found after push", db)
            | Some adminDoc =>
                match employees_id adminDoc employeeId with
                | None => (Refused 404 "Employee not found after push", db)
                | Some emp =>
                    let taskCounts := countTasks (tasks emp) in
                    (TaskCreated newTask,
                     updateOne adminId employeeId (set_taskCounts taskCounts)
                               db)
                end
            end
    end.

End AdminRoutes.

(** The employee of an admin, as the filter of [updateOne] finds it. *)
Definition employee_of (db : list Admin) (adminId employeeId : string)
  : option Employee :=
  List.find (owns adminId employeeId) db ≫= λ a, employees_id a employeeId.

(** *** GET /tasks/pending-verification of the employee routes *)

(** The tasks the route lists, with the identifiers of their owners. *)
Definition pendingVerificationTasksOf (db : list Admin)
  : list (string * string * Task) :=
  a ← List.filter
         (λ a, existsb (λ e, existsb (λ task,
                 str_is (status task) "pendingVerification") (tasks e))
                 (employees a)) db;
  e ← employees a;
  task ← List.filter (λ task, str_is (status task) "pendingVerification")
                     (tasks e);
  [(admin_id a, employee_id e, task)].

(** A request to create a task for the sample employee, due at 100000. *)
Definition create_request : CreateRequest :=
  {| cr_adminId := "a1"; cr_employeeId := "e1";
     cr_body := {| taskTitle := Some "Report"; taskDescription := Some "Write";
                   td_endDate := Some "2025-07-20T00:00:00.000Z";
                   category := Some "Dev" |};
     cr_user := None |}.

(** The fields of a task that the answer of the verification route and
    the stored task share: the identifier, the status label and the
    flags. *)
Definition reported (task : Task) : string * option string * list bool :=
  (_id task, status task, flags task).

(** The fields of a document the upload route answers with. *)
Definition documentSummary (d : Document)
  : string * string * string * Z * string :=
  (fileName d, originalName d, filePath d, fileSize d, mimeType d).

(** * Properties *)

(** ** The workflow service *)

(** C10: for every task and clock reading, [determineTaskState] returns a
    record in which exactly one of the five fields newTask, active,
    completed, failed, pendingVerification is true. *)
Theorem determineTaskState_exactly_one (now : Z) (task : Task) :
  count_true (TaskWorkflowService.state_flags
                (TaskWorkflowService.determineTaskState now task)) = 1%nat.
Proof.
  unfold TaskWorkflowService.determineTaskState.
  destruct (completed task), (pendingVerification task),
    (TaskWorkflowService.isTaskExpired now task),
    (TaskWorkflowService.hasSubmittedDocuments task),
    (newTask task), (failed task), (active task); reflexivity.
Qed.

(** The five states [determineTaskState] can return. *)
Lemma determineTaskState_cases (now : Z) (task : Task) :
  TaskWorkflowService.determineTaskState now task
  ∈ [TaskWorkflowService.st_only_new; TaskWorkflowService.st_only_active;
     TaskWorkflowService.st_only_completed;
     TaskWorkflowService.st_only_failed;
     TaskWorkflowService.st_only_pending].
Proof.
  unfold TaskWorkflowService.determineTaskState.
  repeat case_match; set_solver.
Qed.

(** ** Counter aggregation *)

Lemma count_nonneg (p : Task → bool) (arr : list Task) : (0 ≤ count p arr)%Z.
Proof. unfold count. lia. Qed.

Lemma count_cons (p : Task → bool) (t : Task) (arr : list Task) :
  count p (t :: arr) = ((if p t then 1 else 0) + count p arr)%Z.
Proof. unfold count. simpl. destruct (p t); simpl; lia. Qed.

(** The four buckets partition the tasks that have a flag set. *)
Lemma buckets_partition (arr : list Task) :
  (count (λ task, newTask task && negb (active task)
                  && negb (completed task) && negb (failed task)) arr
   + count (λ task, active task && negb (completed task)
                    && negb (failed task)) arr
   + count (λ task, completed task) arr
   + count (λ task, failed task && negb (completed task)) arr)%Z
  = count flagged arr.
Proof.
  induction arr as [|t arr IH]; [reflexivity|].
  rewrite !count_cons, <- IH. unfold flagged.
  destruct (newTask t), (active t), (completed t), (failed t); simpl; lia.
Qed.

Lemma count_le_length (p : Task → bool) (arr : list Task) :
  (count p arr ≤ Z.of_nat (length arr))%Z.
Proof.
  induction arr as [|t arr IH]; [reflexivity|].
  rewrite count_cons. simpl length. destruct (p t); lia.
Qed.

Lemma count_all (p : Task → bool) (arr : list Task) :
  (count p arr =? Z.of_nat (length arr))%Z = forallb p arr.
Proof.
  induction arr as [|t arr IH]; [reflexivity|].
  rewrite count_cons. simpl length. simpl forallb.
  pose proof (count_le_length p arr).
  destruct (p t); simpl.
  - rewrite <- IH. destruct (Z.eqb_spec (count p arr) (Z.of_nat (length arr)));
      [apply Z.eqb_eq | apply Z.eqb_neq]; lia.
  - apply Z.eqb_neq. lia.
Qed.

(** The fallback of the update route computes the counters of the model
    method. *)
Lemma fallbackTaskCounts_updateTaskCounts (employee : Employee) :
  fallbackTaskCounts employee = updateTaskCounts employee.
Proof. reflexivity. Qed.

(** C3, as the code has it: after [updateTaskCounts] the bucket counts sum
    to the number of tasks that have at least one lifecycle flag set; the
    sum never exceeds the number of tasks, and equals it exactly when every
    task has a flag set. The task list is left as it was. *)
Theorem updateTaskCounts_sum (employee : Employee) :
  let counted := updateTaskCounts employee in
  TaskCounts.sum (taskCounts counted) = count flagged (tasks employee)
  ∧ (TaskCounts.sum (taskCounts counted)
     ≤ Z.of_nat (length (tasks employee)))%Z
  ∧ (TaskCounts.sum (taskCounts counted)
     =? Z.of_nat (length (tasks employee)))%Z
    = forallb flagged (tasks employee)
  ∧ tasks counted = tasks employee.
Proof.
  cbn zeta.
  assert (TaskCounts.sum (taskCounts (updateTaskCounts employee))
          = count flagged (tasks employee)) as Hsum.
  { unfold TaskCounts.sum. simpl. apply buckets_partition. }
  rewrite Hsum. split; [reflexivity|]. split; [apply count_le_length|].
  split; [apply count_all | reflexivity].
Qed.

(** C3, as stated, fails: an employee whose only task awaits verification
    has counters that sum to 0, not 1. *)
Lemma updateTaskCounts_sum_counterexample :
  ¬ (∀ employee : Employee,
       TaskCounts.sum (taskCounts (updateTaskCounts employee))
       = Z.of_nat (length (tasks employee))).
Proof.
  intros H.
  specialize (H {| employee_id := "e1"; taskCounts := zero_counts;
                   tasks := [awaiting] |}).
  vm_compute in H. discriminate H.
Qed.

(** ** The exclusivity of the lifecycle flags *)

Lemma str_is_true (o : option string) (s : string) :
  str_is o s = true ↔ o = Some s.
Proof.
  destruct o as [x|]; simpl; [|split; discriminate].
  rewrite String.eqb_eq. split; congruence.
Qed.

Lemma str_is_false (o : option string) (s : string) :
  str_is o s = false ↔ o ≠ Some s.
Proof.
  rewrite <- str_is_true. destruct (str_is o s); split; congruence.
Qed.

(** Case analysis on the four flags and on the tests of a state update. *)
Ltac flag_cases task :=
  destruct task as [i n a c f pv st vs ed docs url ua sa va vb ra rb rr vn vd];
  cbn in *;
  destruct n, a, c, f; cbn in *.

Ltac pending_cases vs :=
  let E := fresh "Evs" in
  destruct (str_is vs "pending") eqn:E; cbn in *;
  [apply str_is_true in E | apply str_is_false in E].

Ltac close_invariant :=
  solve [ assumption
        | left; reflexivity
        | right; split; [reflexivity | first [reflexivity | assumption]]
        | match goal with
          | H : _ ∨ _ |- _ => destruct H as [H | [H ?]]; try discriminate H; congruence
          end ].

Lemma updateTaskState_invariant (task : Task) (now : Z) :
  exclusive_or_pending task → exclusive_or_pending (updateTaskState task now).
Proof.
  unfold exclusive_or_pending, updateTaskState, count_true, flags.
  intros Hinv. flag_cases task; try close_invariant;
    destruct (date_before ed now); cbn; try close_invariant;
    pending_cases vs; try close_invariant.
Qed.

Lemma approve_exclusive now adminId task counts :
  exclusive (approve now adminId task counts).1.
Proof. reflexivity. Qed.

Lemma reject_exclusive now adminId req task counts :
  exclusive (reject now adminId req task counts).1.
Proof. reflexivity. Qed.

Lemma changeStatus_exclusive now req s task counts task' counts' :
  changeStatus now req s task counts = inr (task', counts') →
  exclusive task'.
Proof.
  unfold changeStatus. intros H.
  repeat case_match; simplify_eq; reflexivity.
Qed.

Lemma submitFiles_invariant now fs task counts :
  exclusive_or_pending task →
  exclusive_or_pending (submitFiles now fs task counts).1.
Proof.
  unfold exclusive_or_pending, submitFiles, count_true, flags.
  intros Hinv. flag_cases task; pending_cases vs; close_invariant.
Qed.

Lemma attachDocument_flags task d :
  flags (attachDocument task d) = flags task.
Proof.
  unfold attachDocument. repeat case_match; reflexivity.
Qed.

Lemma attachDocument_invariant task d :
  exclusive_or_pending task → exclusive_or_pending (attachDocument task d).
Proof.
  unfold exclusive_or_pending. rewrite attachDocument_flags.
  intros [H|[H Hvs]]; [left; exact H|right; split; [exact H|]].
  unfold attachDocument. repeat case_match; cbn; congruence.
Qed.

Lemma expire_exclusive now task :
  newTask task = false → exclusive (expire now task).
Proof.
  unfold exclusive, expire, count_true, flags. cbn. intros ->. reflexivity.
Qed.

Lemma fixTaskState_at_most_one task :
  (count_true (flags (fixTaskState task).1) ≤ 1)%nat.
Proof.
  unfold fixTaskState, count_true, flags.
  flag_cases task; lia.
Qed.

Lemma fixTaskState_invariant task :
  exclusive_or_pending task → exclusive_or_pending (fixTaskState task).1.
Proof.
  unfold exclusive_or_pending, fixTaskState, count_true, flags.
  intros Hinv. flag_cases task; close_invariant.
Qed.

(** An assignment under a key that is no lifecycle key leaves the flags
    and the verification status as they are. *)
Lemma assign_other task kv :
  kv.1 ∉ lifecycle_keys →
  flags (assign task kv) = flags task
  ∧ verificationStatus (assign task kv) = verificationStatus task.
Proof.
  destruct kv as [key value]. cbn [fst]. unfold lifecycle_keys. intros Hkey.
  apply not_elem_of_cons in Hkey as [H1 Hkey].
  apply not_elem_of_cons in Hkey as [H2 Hkey].
  apply not_elem_of_cons in Hkey as [H3 Hkey].
  apply not_elem_of_cons in Hkey as [H4 Hkey].
  apply not_elem_of_cons in Hkey as [H5 _].
  apply String.eqb_neq in H1, H2, H3, H4, H5.
  unfold assign. destruct value; rewrite ?H1, ?H2, ?H3, ?H4, ?H5;
    repeat case_match; split; reflexivity.
Qed.

Lemma assign_all_other (updateData : Body) task :
  Forall (λ kv, kv.1 ∉ lifecycle_keys) updateData →
  let task' :=
    fold_left
      (λ task kv,
         if String.eqb kv.1 "_id" || String.eqb kv.1 "__v"
         then task else assign task kv)
      updateData task in
  flags task' = flags task
  ∧ verificationStatus task' = verificationStatus task.
Proof.
  cbn zeta. intros Hall. revert task.
  induction Hall as [|kv updateData Hkv _ IH]; intros task; [split; reflexivity|].
  cbn [fold_left]. destruct (IH
    (if String.eqb kv.1 "_id" || String.eqb kv.1 "__v"
     then task else assign task kv)) as [-> ->].
  destruct (String.eqb kv.1 "_id" || String.eqb kv.1 "__v");
    [split; reflexivity | apply assign_other, Hkv].
Qed.

Lemma invariant_ext task task' :
  flags task' = flags task →
  verificationStatus task' = verificationStatus task →
  exclusive_or_pending task → exclusive_or_pending task'.
Proof. unfold exclusive_or_pending. intros -> ->. exact id. Qed.

Lemma exclusive_invariant task : exclusive task → exclusive_or_pending task.
Proof. intros H. left. exact H. Qed.

Lemma applyUpdate_invariant now later req task counts task' counts' :
  Forall (λ kv, kv.1 ∉ lifecycle_keys) (body req) →
  exclusive_or_pending task →
  applyUpdate now later req task counts = inr (task', counts') →
  exclusive_or_pending task'.
Proof.
  intros Hbody Hinv. unfold applyUpdate.
  set (updateData := List.filter _ (body req)).
  assert (Forall (λ kv, kv.1 ∉ lifecycle_keys) updateData) as Hdata.
  { apply Forall_forall. intros kv Hin.
    rewrite Forall_forall in Hbody. apply Hbody.
    apply list_elem_of_In. apply list_elem_of_In in Hin.
    apply filter_In in Hin. tauto. }
  set (changed := match files req with Some (f :: fs) => _ | _ => _ end).
  assert (∀ t c, changed = inr (t, c) → exclusive_or_pending t) as Hchanged.
  { intros t c. subst changed.
    assert (∀ r : string + Task * TaskCounts.t,
              (if truthy (body_get (body req) "status")
               then match body_get (body req) "status" with
                    | Some (VStr s) =>
                        match changeStatus now req s task counts with
                        | inl e => inl e
                        | inr (task, counts) =>
                            inr (task |> set_status (Some (routeLabel task)),
                                 counts)
                        end
                    | Some v => inl ("Invalid status: " ++ js_text v)
                    | None => inr (task, counts)
                    end
               else inr (task, counts)) = r →
              r = inr (t, c) → exclusive_or_pending t) as Hstatus.
    { intros r Hr ->. destruct (truthy _); [|congruence].
      destruct (body_get (body req) "status") as [[b|s|d]|]; try congruence.
      destruct (changeStatus now req s task counts) as [e|[t1 c1]] eqn:Hcs;
        [discriminate|].
      injection Hr as <- <-. apply exclusive_invariant.
      apply changeStatus_exclusive in Hcs. exact Hcs. }
    destruct (files req) as [[|f fs]|]; intros H.
    - eapply Hstatus; [reflexivity|exact H].
    - pose proof (submitFiles_invariant now (f :: fs) task counts Hinv) as Hs.
      injection H as H. rewrite H in Hs. exact Hs.
    - eapply Hstatus; [reflexivity|exact H]. }
  destruct changed as [e|[t c]]; [discriminate|].
  intros [= <- <-].
  apply updateTaskState_invariant.
  destruct (assign_all_other updateData t Hdata) as [Hf Hv].
  eapply invariant_ext; [exact Hf|exact Hv|]. eapply Hchanged. reflexivity.
Qed.

(** C1, as the code has it: a task that has exactly one lifecycle flag
    set, or none while its verification status is pending, is in that
    condition again after every mutating operation: the state update, an
    approval or a rejection (exactly one flag), a status change of the
    update route (exactly one flag), a document submission through either
    route, the whole update route when the request body overwrites no
    lifecycle field, the expiration of a task that is not flagged new
    (exactly one flag), and the clean-up script. *)
Theorem flags_exclusive_or_pending (task : Task)
    (Hinv : exclusive_or_pending task) :
  (∀ now, exclusive_or_pending (updateTaskState task now))
  ∧ (∀ now adminId counts, exclusive (approve now adminId task counts).1)
  ∧ (∀ now adminId req counts,
       exclusive (reject now adminId req task counts).1)
  ∧ (∀ now req s counts task' counts',
       changeStatus now req s task counts = inr (task', counts') →
       exclusive task')
  ∧ (∀ now fs counts,
       exclusive_or_pending (submitFiles now fs task counts).1)
  ∧ (∀ document, exclusive_or_pending (attachDocument task document))
  ∧ (∀ now later req counts task' counts',
       Forall (λ kv, kv.1 ∉ lifecycle_keys) (body req) →
       applyUpdate now later req task counts = inr (task', counts') →
       exclusive_or_pending task')
  ∧ (∀ now, newTask task = false → exclusive (expire now task))
  ∧ exclusive_or_pending (fixTaskState task).1
  ∧ (count_true (flags (fixTaskState task).1) ≤ 1)%nat.
Proof.
  repeat split.
  - intros now. apply updateTaskState_invariant, Hinv.
  - intros now req s counts task' counts'. apply changeStatus_exclusive.
  - intros now fs counts. apply submitFiles_invariant, Hinv.
  - intros document. apply attachDocument_invariant, Hinv.
  - intros now later req counts task' counts' Hbody.
    apply applyUpdate_invariant; assumption.
  - intros now. apply expire_exclusive.
  - apply fixTaskState_invariant, Hinv.
  - apply fixTaskState_at_most_one.
Qed.

Lemma flags_exclusive_or_pending_witness :
  exclusive_or_pending submitted
  ∧ exclusive_or_pending (updateTaskState submitted 1000)
  ∧ flags (updateTaskState submitted 1000) = [false; false; false; false].
Proof.
  assert (exclusive_or_pending submitted) as H by (left; reflexivity).
  split; [exact H|]. split; [|reflexivity].
  exact (proj1 (flags_exclusive_or_pending submitted H) 1000%Z).
Defined.

(** C1, as stated, fails: the state update of a task that has exactly one
    flag set (active) and a pending verification status, before its
    deadline, clears all four flags. *)
Lemma exclusive_counterexample :
  ¬ (∀ (task : Task) (now : Z),
       exclusive task → exclusive (updateTaskState task now)).
Proof.
  intros H. specialize (H submitted 1000%Z eq_refl).
  vm_compute in H. discriminate H.
Qed.

(** The update route reaches that state: any update of the submitted
    task, here one that carries no field at all, stores it with its four
    flags cleared. *)
Lemma updateTask_clears_flags (m : bool) :
  let r := updateTask m 1000 1001 (request [] None) (db_with submitted) in
  flags <$> response_task r.1 = Some [false; false; false; false]
  ∧ lookup_task r.2 "e1" "t1" = response_task r.1.
Proof. destruct m; vm_compute; split; reflexivity. Qed.

(** ** Pending review and the deadline *)

Lemma sweepTasks_map now arr counts :
  (sweepTasks now arr counts).1.1 = map (expireDue now) arr
  ∧ (sweepTasks now arr counts).2 = count (sweepable now) arr.
Proof.
  revert counts. induction arr as [|task arr IH]; intros counts;
    [split; reflexivity|].
  cbn [sweepTasks map]. rewrite count_cons. unfold expireDue at 1.
  unfold sweepable at 1 2.
  destruct (completed task || failed task); cbn [negb andb].
  - destruct (IH counts) as [IHl IHn].
    destruct (sweepTasks now arr counts) as [[rest c] n]. cbn in *.
    rewrite IHl, IHn. split; [reflexivity|lia].
  - destruct (date_before (endDate task) now).
    + match goal with
      | |- context [sweepTasks now arr ?c] =>
          destruct (IH c) as [IHl IHn];
          destruct (sweepTasks now arr c) as [[rest c'] n]
      end.
      cbn in *. rewrite IHl, IHn. split; [reflexivity|lia].
    + destruct (IH counts) as [IHl IHn].
      destruct (sweepTasks now arr counts) as [[rest c] n]. cbn in *.
      rewrite IHl, IHn. split; [reflexivity|lia].
Qed.

Lemma find_map {A : Type} (p : A → bool) (f : A → A) (l : list A) :
  (∀ x, p (f x) = p x) →
  List.find p (map f l) = f <$> List.find p l.
Proof.
  intros Hp. induction l as [|x l IH]; [reflexivity|].
  cbn. rewrite Hp. destruct (p x); [reflexivity|exact IH].
Qed.

Lemma expireDue_id now task : _id (expireDue now task) = _id task.
Proof. unfold expireDue. destruct (sweepable now task); reflexivity. Qed.

(** The database the sweep route leaves, employee by employee. *)
Lemma sweepEmployee_fst now e :
  employee_id (sweepEmployee now e).1 = employee_id e
  ∧ tasks (sweepEmployee now e).1 = map (expireDue now) (tasks e).
Proof.
  unfold sweepEmployee.
  destruct (sweepTasks_map now (tasks e) (taskCounts e)) as [Hl _].
  destruct (sweepTasks now (tasks e) (taskCounts e)) as [[arr c] n].
  split; [reflexivity|exact Hl].
Qed.

Lemma sweepEmployees_fst now es :
  (sweepEmployees now es).1 = map (λ e, (sweepEmployee now e).1) es.
Proof.
  induction es as [|e es IH]; [reflexivity|].
  cbn [sweepEmployees map].
  destruct (sweepEmployee now e) as [e' n].
  destruct (sweepEmployees now es) as [rest k]. cbn in *.
  rewrite IH. reflexivity.
Qed.

Lemma checkExpired_fst now db :
  (checkExpired now db).1
  = map (λ a, if selected now a then (sweepAdmin now a).1 else a) db.
Proof.
  induction db as [|a db IH]; [reflexivity|].
  cbn [checkExpired map].
  destruct (checkExpired now db) as [rest k]. cbn [fst] in IH.
  rewrite <- IH.
  destruct (selected now a); [destruct (sweepAdmin now a)|]; reflexivity.
Qed.

Lemma sweepAdmin_employees_id now a eid :
  employees_id (sweepAdmin now a).1 eid
  = (λ e, (sweepEmployee now e).1) <$> employees_id a eid.
Proof.
  unfold sweepAdmin, employees_id.
  pose proof (sweepEmployees_fst now (employees a)) as Hes.
  destruct (sweepEmployees now (employees a)) as [es n]. cbn in *.
  rewrite Hes. apply find_map.
  intros e. unfold is_employee.
  destruct (sweepEmployee_fst now e) as [-> _]. reflexivity.
Qed.

Lemma existsb_map_same {A : Type} (p : A → bool) (f : A → A) (l : list A) :
  (∀ x, p (f x) = p x) → existsb p (map f l) = existsb p l.
Proof.
  intros Hp. induction l as [|x l IH]; [reflexivity|].
  cbn. rewrite Hp, IH. reflexivity.
Qed.

Lemma sweepAdmin_has_employee now a eid :
  has_employee eid (sweepAdmin now a).1 = has_employee eid a.
Proof.
  unfold has_employee, sweepAdmin.
  pose proof (sweepEmployees_fst now (employees a)) as Hes.
  destruct (sweepEmployees now (employees a)) as [es n]. cbn in *.
  rewrite Hes. apply existsb_map_same.
  intros e. unfold is_employee.
  destruct (sweepEmployee_fst now e) as [-> _]. reflexivity.
Qed.

(** The task the routes find after the sweep route ran: the task they
    found before, expired when it was due and the query selected the
    admin that holds it. *)
Lemma checkExpired_lookup now db eid tid admin :
  findOne db eid = Some admin →
  lookup_task (checkExpired now db).1 eid tid
  = (if selected now admin then expireDue now else id)
    <$> lookup_task db eid tid.
Proof.
  intros Hadmin. unfold lookup_task. rewrite checkExpired_fst.
  unfold findOne in *. rewrite find_map.
  - rewrite Hadmin. cbn [fmap option_fmap option_map mbind option_bind].
    destruct (selected now admin).
    + rewrite sweepAdmin_employees_id.
      destruct (employees_id admin eid) as [e|]; [|reflexivity].
      cbn [fmap option_fmap option_map mbind option_bind].
      unfold tasks_id. destruct (sweepEmployee_fst now e) as [_ ->].
      apply find_map. intros t. unfold has_id.
      rewrite expireDue_id. reflexivity.
    + destruct (employees_id admin eid) as [e|]; [|reflexivity].
      cbn [fmap option_fmap option_map mbind option_bind].
      destruct (tasks_id e tid); reflexivity.
  - intros a. destruct (selected now a); [|reflexivity].
    apply sweepAdmin_has_employee.
Qed.

(** The query of the sweep route selects the admin that holds a pending
    task whose deadline has passed. *)
Lemma selected_pending now db eid tid admin task :
  findOne db eid = Some admin →
  lookup_task db eid tid = Some task →
  elemMatch now task = true →
  selected now admin = true.
Proof.
  intros Hadmin Hlookup Hmatch. unfold lookup_task in Hlookup.
  rewrite Hadmin in Hlookup.
  cbn [mbind option_bind] in Hlookup.
  destruct (employees_id admin eid) as [e|] eqn:He; [|discriminate].
  cbn [mbind option_bind] in Hlookup.
  unfold selected. apply existsb_exists. exists e. split.
  - apply find_some in He. tauto.
  - apply existsb_exists. exists task. split; [|exact Hmatch].
    apply find_some in Hlookup. tauto.
Qed.

(** C2, as the code has it: a task whose verification status is pending
    and that is not completed stays in pendingVerification under the state
    update and the sweep as long as its deadline has not passed at the
    evaluation time; once the deadline has passed, both mark a task that
    is not failed yet as failed and set its verification status to
    expired. The sweep is the route with its query: the task is looked up
    in the database before and after the route ran, and the loop over the
    tasks of the employee does the same with its counters.
    [determineTaskState], which reads the pendingVerification flag of the
    task, keeps a task that carries it pending whatever the deadline. *)
Theorem pending_review_and_deadline (task : Task)
    (Hvs : verificationStatus task = Some "pending")
    (Hc : completed task = false) :
  (∀ now, date_before (endDate task) now = false →
     let task' := updateTaskState task now in
     flags task' = [false; false; false; false]
     ∧ verificationStatus task' = Some "pending"
     ∧ status task' = Some "pendingVerification")
  ∧ (∀ now, date_before (endDate task) now = true → failed task = false →
       let task' := updateTaskState task now in
       failed task' = true ∧ verificationStatus task' = Some "expired")
  ∧ (∀ now counts, date_before (endDate task) now = false →
       sweepTasks now [task] counts = ([task], counts, 0%Z))
  ∧ (∀ now counts, date_before (endDate task) now = true →
       failed task = false →
       ∃ task' counts',
         sweepTasks now [task] counts = ([task'], counts', 1%Z)
         ∧ failed task' = true ∧ verificationStatus task' = Some "expired")
  ∧ (∀ now db eid tid,
       lookup_task db eid tid = Some task →
       date_before (endDate task) now = false →
       lookup_task (checkExpired now db).1 eid tid = Some task)
  ∧ (∀ now db eid tid,
       lookup_task db eid tid = Some task →
       date_before (endDate task) now = true →
       failed task = false →
       ∃ task',
         lookup_task (checkExpired now db).1 eid tid = Some task'
         ∧ failed task' = true ∧ verificationStatus task' = Some "expired"
         ∧ flags task' = [newTask task; false; false; true])
  ∧ (∀ now, pendingVerification task = true →
       TaskWorkflowService.determineTaskState now task
       = TaskWorkflowService.st_only_pending).
Proof.
  split_and!.
  - intros now Hd. unfold updateTaskState. rewrite Hc, Hd. cbn.
    rewrite Hvs. cbn. unfold stateLabel. cbn. rewrite Hvs. cbn.
    repeat split.
  - intros now Hd Hf. unfold updateTaskState. rewrite Hc, Hd, Hf. cbn.
    split; reflexivity.
  - intros now counts Hd. cbn. rewrite Hc, Hd.
    destruct (failed task); reflexivity.
  - intros now counts Hd Hf. cbn. rewrite Hc, Hd, Hf. cbn.
    eexists _, _. split; [reflexivity|]. split; reflexivity.
  - intros now db eid tid Hlookup Hd.
    destruct (findOne db eid) as [admin|] eqn:Hadmin;
      [|unfold lookup_task in Hlookup; rewrite Hadmin in Hlookup;
        discriminate].
    rewrite (checkExpired_lookup now db eid tid admin Hadmin), Hlookup.
    destruct (selected now admin); [|reflexivity].
    cbn [fmap option_fmap option_map]. unfold expireDue, sweepable.
    rewrite Hd, andb_false_r. reflexivity.
  - intros now db eid tid Hlookup Hd Hf.
    destruct (findOne db eid) as [admin|] eqn:Hadmin;
      [|unfold lookup_task in Hlookup; rewrite Hadmin in Hlookup;
        discriminate].
    assert (elemMatch now task = true) as Hmatch.
    { unfold elemMatch. rewrite Hvs, Hd, Hc, Hf.
      destruct (active task); reflexivity. }
    rewrite (checkExpired_lookup now db eid tid admin Hadmin), Hlookup.
    rewrite (selected_pending now db eid tid admin task Hadmin Hlookup Hmatch).
    exists (expire now task). cbn [fmap option_fmap option_map].
    unfold expireDue, sweepable. rewrite Hc, Hf, Hd.
    split_and!; reflexivity.
  - intros now Hp. unfold TaskWorkflowService.determineTaskState.
    rewrite Hc, Hp. reflexivity.
Qed.

(** The submitted task after its deadline: the state update and the sweep
    fail it. *)
Lemma pending_review_and_deadline_witness :
  verificationStatus (updateTaskState submitted 3000) = Some "expired"
  ∧ failed (updateTaskState submitted 3000) = true.
Proof.
  pose proof (pending_review_and_deadline submitted eq_refl eq_refl)
    as (_ & H & _).
  destruct (H 3000%Z eq_refl eq_refl) as [Hf Hv].
  split; [exact Hv | exact Hf].
Defined.

(** C2, as stated, fails: a task pending verification whose deadline has
    passed is marked failed, with verification status expired, by the
    state update, by the loop of the sweep and by the sweep route. *)
Lemma pending_not_expired_counterexample :
  ¬ (∀ (task : Task) (now : Z),
       verificationStatus task = Some "pending" →
       let task' := updateTaskState task now in
       failed task' = false ∧ verificationStatus task' ≠ Some "expired")
  ∧ ¬ (∀ (task : Task) (now : Z) (counts : TaskCounts.t),
         verificationStatus task = Some "pending" →
         Forall (λ task', failed task' = false
                          ∧ verificationStatus task' ≠ Some "expired")
           (sweepTasks now [task] counts).1.1)
  ∧ ¬ (∀ (task : Task) (now : Z) (db : list Admin) (eid tid : string),
         verificationStatus task = Some "pending" →
         lookup_task db eid tid = Some task →
         failed <$> lookup_task (checkExpired now db).1 eid tid
         = Some false).
Proof.
  split_and!.
  - intros H. destruct (H submitted 3000%Z eq_refl) as [Hf _].
    vm_compute in Hf. discriminate Hf.
  - intros H. specialize (H submitted 3000%Z zero_counts eq_refl).
    apply Forall_cons in H as [[Hf _] _].
    vm_compute in Hf. discriminate Hf.
  - intros H.
    specialize (H submitted 3000%Z (db_with submitted) "e1" "t1" eq_refl
                  eq_refl).
    vm_compute in H. discriminate H.
Qed.

(** ** The transition validators *)

(** Membership in an explicit list of strings, by evaluation. *)
Ltac member := apply (bool_decide_unpack _); vm_compute; exact I.

Lemma includes_true (l : list string) (s : string) :
  includes l s = true ↔ s ∈ l.
Proof. unfold includes. apply bool_decide_eq_true. Qed.

Lemma legal_spec (cur new : string) :
  legal cur new
  ↔ (cur = "new" ∧ new ∈ ["active"; "failed"])
    ∨ (cur = "active" ∧ new ∈ ["pendingVerification"; "failed"])
    ∨ (cur = "pendingVerification" ∧ new ∈ ["completed"; "rejected"; "failed"])
    ∨ (cur = "rejected" ∧ new ∈ ["pendingVerification"; "failed"]).
Proof.
  split.
  - intros []; [left|left|right; left|right; left|right; right; left
                |right; right; left|right; right; left
                |right; right; right|right; right; right];
      (split; [reflexivity|member]).
  - rewrite !elem_of_cons, !elem_of_nil.
    intros [[-> H]|[[-> H]|[[-> H]|[-> H]]]];
      repeat (destruct H as [->|H]); try contradiction; constructor.
Qed.

Lemma gated_spec (cur new : string) :
  gated cur new
  ↔ (cur = "new" ∧ new ∈ ["active"])
    ∨ (cur = "active" ∧ new ∈ ["pendingVerification"; "failed"])
    ∨ (cur = "pendingVerification" ∧ new ∈ ["completed"; "rejected"])
    ∨ (cur = "rejected" ∧ new ∈ ["active"; "failed"]).
Proof.
  split.
  - intros []; [left|right; left|right; left|right; right; left
                |right; right; left|right; right; right|right; right; right];
      (split; [reflexivity|member]).
  - rewrite !elem_of_cons, !elem_of_nil.
    intros [[-> H]|[[-> H]|[[-> H]|[-> H]]]];
      repeat (destruct H as [->|H]); try contradiction; constructor.
Qed.

(** The lookup in the table of [isValidTransition], key by key. *)
Lemma get_prop_ALLOWED_TRANSITIONS (cur : string) :
  cur ∉ objectPrototypeKeys →
  get_prop ALLOWED_TRANSITIONS cur
  = if String.eqb cur "new" then Own ["active"; "failed"]
    else if String.eqb cur "active" then Own ["pendingVerification"; "failed"]
    else if String.eqb cur "pendingVerification"
    then Own ["completed"; "rejected"; "failed"]
    else if String.eqb cur "rejected" then Own ["pendingVerification"; "failed"]
    else if String.eqb cur "completed" then Own []
    else if String.eqb cur "failed" then Own []
    else Missing.
Proof.
  intros Hproto. unfold get_prop.
  rewrite (bool_decide_eq_false_2 _ Hproto).
  repeat match goal with
         | |- context [String.eqb cur ?s] =>
             destruct (String.eqb_spec cur s) as [->|?];
             [vm_compute; reflexivity|]
         end.
  unfold ALLOWED_TRANSITIONS, validTransitions.
  rewrite (not_elem_of_list_to_map_1 (M := gmap string)); [reflexivity|].
  cbn. rewrite !not_elem_of_cons. repeat split; try assumption.
  apply not_elem_of_nil.
Qed.

(** The lookup in the table of [handleStatusUpdate], key by key. *)
Lemma get_prop_validTransitions (cur : string) :
  cur ∉ objectPrototypeKeys →
  get_prop validTransitions cur
  = if String.eqb cur "new" then Own ["active"]
    else if String.eqb cur "active" then Own ["pendingVerification"; "failed"]
    else if String.eqb cur "pendingVerification"
    then Own ["completed"; "rejected"]
    else if String.eqb cur "rejected" then Own ["active"; "failed"]
    else Missing.
Proof.
  intros Hproto. unfold get_prop.
  rewrite (bool_decide_eq_false_2 _ Hproto).
  repeat match goal with
         | |- context [String.eqb cur ?s] =>
             destruct (String.eqb_spec cur s) as [->|?];
             [vm_compute; reflexivity|]
         end.
  unfold ALLOWED_TRANSITIONS, validTransitions.
  rewrite (not_elem_of_list_to_map_1 (M := gmap string)); [reflexivity|].
  cbn. rewrite !not_elem_of_cons. repeat split; try assumption.
  apply not_elem_of_nil.
Qed.

Lemma isValidTransition_result (cur new : string) :
  cur ≠ "" → cur ∉ objectPrototypeKeys →
  ∃ b, isValidTransition cur new = Normal b
       ∧ (b = true ↔ cur = new ∨ legal cur new).
Proof.
  intros Hcur Hproto. unfold isValidTransition.
  apply String.eqb_neq in Hcur. rewrite Hcur.
  destruct (String.eqb_spec cur new) as [->|Hne].
  { exists true. split; [reflexivity|]. split; [left|]; reflexivity. }
  rewrite (get_prop_ALLOWED_TRANSITIONS cur Hproto).
  repeat match goal with
         | |- context [String.eqb cur ?s] =>
             let Hn := fresh "Hkey" in
             destruct (String.eqb_spec cur s) as [->|Hn]
         end.
  all: eexists; (split; [reflexivity|]).
  all: rewrite includes_true, legal_spec, ?elem_of_cons, ?elem_of_nil.
  all: intuition congruence.
Qed.

Lemma transitionAllowed_result (cur new : string) :
  cur ∉ objectPrototypeKeys →
  ∃ b, transitionAllowed (Some cur) new = Normal b
       ∧ (b = true
          ↔ gated cur new
            ∨ cur ∉ ["new"; "active"; "pendingVerification"; "rejected"]).
Proof.
  intros Hproto. unfold transitionAllowed.
  change (prop_key (Some cur)) with cur.
  rewrite (get_prop_validTransitions cur Hproto).
  repeat match goal with
         | |- context [String.eqb cur ?s] =>
             let Hn := fresh "Hkey" in
             destruct (String.eqb_spec cur s) as [->|Hn]
         end.
  all: eexists; (split; [reflexivity|]).
  all: rewrite ?includes_true, gated_spec, ?not_elem_of_cons, ?elem_of_cons,
         ?elem_of_nil.
  all: intuition congruence.
Qed.

(** C4, as the code has it: for a current status that is not empty (and
    is no property name inherited from [Object.prototype]),
    [isValidTransition] returns true exactly for the transitions of the
    legal table and the same-status no-ops, and false for every other
    pair; [validateStatusUpdate] reports such a rejection with a reason
    that carries the current and the requested status. The gate of
    [handleStatusUpdate] applies a table of its own, without same-status
    no-ops, lets every status through that is no key of its table, and
    reports a rejection with the same message. An empty current status is
    refused by [isValidTransition] whatever the requested status. *)
Theorem isValidTransition_legal (cur new : string)
    (Hcur : cur ≠ "") (Hproto : cur ∉ objectPrototypeKeys) :
  (isValidTransition cur new = Normal true ↔ cur = new ∨ legal cur new)
  ∧ (isValidTransition cur new = Normal false
     ↔ ¬ (cur = new ∨ legal cur new))
  ∧ (∀ now task,
       getTaskStatus now (Some task) = cur →
       ¬ (cur = new ∨ legal cur new) →
       validateStatusUpdate now task new
       = Normal {| isValid := false;
                   reason := Some (invalid_transition_message cur new) |})
  ∧ (transitionAllowed (Some cur) new = Normal true
     ↔ gated cur new
       ∨ cur ∉ ["new"; "active"; "pendingVerification"; "rejected"])
  ∧ (transitionAllowed (Some cur) new = Normal false
     ↔ ¬ (gated cur new
          ∨ cur ∉ ["new"; "active"; "pendingVerification"; "rejected"]))
  ∧ (∀ now task,
       _id task ≠ "" → completed task = false → failed task = false →
       status task = Some cur →
       transitionAllowed (Some cur) new = Normal false →
       handleStatusUpdate now (Some task) new
       = Normal (inl (invalid_transition_message cur new)))
  ∧ isValidTransition "" new = Normal false.
Proof.
  destruct (isValidTransition_result cur new Hcur Hproto) as (b & Hb & Hiff).
  destruct (transitionAllowed_result cur new Hproto) as (g & Hg & Hgiff).
  assert (isValidTransition cur new = Normal false
          ↔ ¬ (cur = new ∨ legal cur new)) as Hfalse.
  { rewrite Hb, <- Hiff. destruct b; split; intros H; congruence. }
  split_and!.
  - rewrite Hb, <- Hiff. split; intros H; congruence.
  - exact Hfalse.
  - intros now task Hstatus Hno. apply Hfalse in Hno.
    unfold validateStatusUpdate. rewrite Hstatus, Hno. reflexivity.
  - rewrite Hg, <- Hgiff. split; intros H; congruence.
  - rewrite Hg, <- Hgiff. destruct g; split; intros H; congruence.
  - intros now task Hid Hc Hf Hst Hgate. unfold handleStatusUpdate.
    apply String.eqb_neq in Hid. rewrite Hid, Hc, Hf, Hst, Hgate.
    reflexivity.
  - reflexivity.
Qed.

Lemma isValidTransition_legal_witness :
  isValidTransition "new" "active" = Normal true
  ∧ isValidTransition "completed" "active" = Normal false.
Proof.
  assert (∀ s : string, bool_decide (s ∈ objectPrototypeKeys) = false →
                        s ∉ objectPrototypeKeys) as Hproto.
  { intros s Hs. apply bool_decide_eq_false in Hs. exact Hs. }
  split.
  - destruct (isValidTransition_legal "new" "active" ltac:(discriminate)
                (Hproto "new" eq_refl)) as (Haccepts & _).
    apply Haccepts. right. constructor.
  - destruct (isValidTransition_legal "completed" "active"
                ltac:(discriminate) (Hproto "completed" eq_refl))
      as (_ & Hrejects & _).
    apply Hrejects. rewrite legal_spec. intuition congruence.
Defined.

(** C4, as stated, fails: [isValidTransition] refuses the same-status
    no-op of an empty current status, and the gate of [handleStatusUpdate]
    refuses the same-status no-op of an active task (and the legal
    transitions from new to failed and from rejected to
    pendingVerification, while it lets rejected to active through). *)
Lemma accepts_exactly_legal_counterexample :
  ¬ accepts_exactly_legal isValidTransition
  ∧ ¬ accepts_exactly_legal (λ cur, transitionAllowed (Some cur)).
Proof.
  split; intros H.
  - destruct (H "" "") as [_ Hsame].
    specialize (Hsame (or_introl eq_refl)). vm_compute in Hsame.
    discriminate Hsame.
  - destruct (H "active" "active") as [_ Hsame].
    specialize (Hsame (or_introl eq_refl)). vm_compute in Hsame.
    discriminate Hsame.
Qed.

Example transitionAllowed_samples :
  transitionAllowed (Some "active") "active" = Normal false
  ∧ transitionAllowed (Some "new") "failed" = Normal false
  ∧ transitionAllowed (Some "rejected") "pendingVerification" = Normal false
  ∧ transitionAllowed (Some "pendingVerification") "failed" = Normal false
  ∧ transitionAllowed (Some "rejected") "active" = Normal true
  ∧ isValidTransition "constructor" "active" = Throw not_a_function.
Proof. vm_compute. repeat split. Qed.

(** ** The database after a handler saved a task *)

Lemma find_update_first {A : Type} (p : A → bool) (f : A → A) (l : list A)
    (x : A) :
  List.find p l = Some x → p (f x) = true →
  List.find p (update_first p f l) = Some (f x).
Proof.
  intros Hfind Hp. induction l as [|y l IH]; [discriminate|].
  cbn in *. destruct (p y) eqn:Hy.
  - injection Hfind as ->. cbn. rewrite Hp. reflexivity.
  - cbn. rewrite Hy. apply IH, Hfind.
Qed.

Lemma find_holds {A : Type} (p : A → bool) (l : list A) (x : A) :
  List.find p l = Some x → p x = true.
Proof. intros H. apply find_some in H. tauto. Qed.

Lemma find_existsb {A : Type} (p : A → bool) (l : list A) (x : A) :
  List.find p l = Some x → existsb p l = true.
Proof.
  intros H. apply find_some in H. apply existsb_exists. exists x. exact H.
Qed.

(** After the save, the routes find the task the handler left. *)
Lemma lookup_task_save db eid tid admin employee task task' counts :
  findOne db eid = Some admin →
  employees_id admin eid = Some employee →
  tasks_id employee tid = Some task →
  _id task' = _id task →
  lookup_task (save db eid (with_task employee tid task' counts)) eid tid
  = Some task'.
Proof.
  intros Hadmin Hemployee Htask Hid.
  set (employee' := with_task employee tid task' counts).
  assert (is_employee eid employee' = true) as He'.
  { apply find_holds in Hemployee. exact Hemployee. }
  assert (tasks_id employee' tid = Some task') as Htask'.
  { unfold tasks_id, employee', with_task. cbn.
    apply (find_update_first (has_id tid) (λ _, task') _ task Htask).
    apply find_holds in Htask. unfold has_id in *. rewrite Hid. exact Htask. }
  set (admin' := {| admin_id := admin_id admin;
                    employees := update_first (is_employee eid)
                                   (λ _, employee') (employees admin) |}).
  assert (employees_id admin' eid = Some employee') as Hemployee'.
  { unfold employees_id, admin'. cbn.
    exact (find_update_first (is_employee eid) (λ _, employee') _ employee
             Hemployee He'). }
  assert (findOne (save db eid employee') eid = Some admin') as Hadmin'.
  { unfold findOne, save.
    rewrite (find_update_first (has_employee eid)
               (λ a, {| admin_id := admin_id a;
                        employees := update_first (is_employee eid)
                                       (λ _, employee') (employees a) |})
               db admin Hadmin); [reflexivity|].
    unfold has_employee. eapply find_existsb. exact Hemployee'. }
  unfold lookup_task. rewrite Hadmin'.
  change (employees_id admin' eid ≫= (λ e, tasks_id e tid) = Some task').
  rewrite Hemployee'. exact Htask'.
Qed.

(** ** Review of a submission *)

Lemma approve_result now adminId task counts :
  let task' := (approve now adminId task counts).1 in
  flags task' = [false; false; true; false]
  ∧ verificationStatus task' = Some "approved"
  ∧ stateLabel task' = "completed"
  ∧ _id task' = _id task.
Proof. repeat split. Qed.

Lemma reject_result now adminId req task counts :
  let task' := (reject now adminId req task counts).1 in
  flags task' = [false; true; false; false]
  ∧ verificationStatus task' = Some "rejected"
  ∧ stateLabel task' = "active"
  ∧ submittedDocuments task' = submittedDocuments task
  ∧ status task' = status task
  ∧ _id task' = _id task.
Proof. repeat split. Qed.

(** C8: for a request that names an existing task and carries the
    decision completed or rejected, the verification route answers
    [NotPendingReview], leaving the database as it was, exactly when the
    verification status of the task is not pending; when it is pending,
    an approval stores the task as completed (only that flag set,
    verification status approved) and a rejection stores it as active
    (only that flag set) with verification status rejected. *)
Theorem verifyTask_pending_review now req db admin employee task
    (Hdecision : body_str (body req) "status" = Some "completed"
                 ∨ body_str (body req) "status" = Some "rejected")
    (Hadmin : findOne db (employeeId req) = Some admin)
    (Hemployee : employees_id admin (employeeId req) = Some employee)
    (Htask : tasks_id employee (taskId req) = Some task) :
  ((verifyTask now req db).1 = NotPendingReview
   ↔ verificationStatus task ≠ Some "pending")
  ∧ (verificationStatus task ≠ Some "pending" →
     verifyTask now req db = (NotPendingReview, db))
  ∧ (verificationStatus task = Some "pending" →
     ∃ task',
       (verifyTask now req db).1 = Ok 200 task'
       ∧ lookup_task (verifyTask now req db).2 (employeeId req) (taskId req)
         = Some task'
       ∧ (body_str (body req) "status" = Some "completed" →
          flags task' = [false; false; true; false]
          ∧ verificationStatus task' = Some "approved"
          ∧ stateLabel task' = "completed")
       ∧ (body_str (body req) "status" = Some "rejected" →
          flags task' = [false; true; false; false]
          ∧ verificationStatus task' = Some "rejected"
          ∧ stateLabel task' = "active")).
Proof.
  assert (negb (str_is (body_str (body req) "status") "completed"
                || str_is (body_str (body req) "status") "rejected") = false)
    as Hvalid.
  { destruct Hdecision as [-> | ->]; reflexivity. }
  assert (verificationStatus task ≠ Some "pending" →
          verifyTask now req db = (NotPendingReview, db)) as Hnot.
  { intros Hvs. apply str_is_false in Hvs. unfold verifyTask.
    rewrite Hvalid, Hadmin, Hemployee, Htask, Hvs. reflexivity. }
  assert (verificationStatus task = Some "pending" →
          ∃ task',
            (verifyTask now req db).1 = Ok 200 task'
            ∧ lookup_task (verifyTask now req db).2 (employeeId req)
                (taskId req) = Some task'
            ∧ (body_str (body req) "status" = Some "completed" →
               flags task' = [false; false; true; false]
               ∧ verificationStatus task' = Some "approved"
               ∧ stateLabel task' = "completed")
            ∧ (body_str (body req) "status" = Some "rejected" →
               flags task' = [false; true; false; false]
               ∧ verificationStatus task' = Some "rejected"
               ∧ stateLabel task' = "active")) as Hpending.
  { intros Hvs. apply str_is_true in Hvs. unfold verifyTask.
    rewrite Hvalid, Hadmin, Hemployee, Htask, Hvs. cbn [negb].
    destruct Hdecision as [Hd | Hd]; rewrite Hd; cbn [str_is String.eqb].
    - eexists. split; [reflexivity|]. split.
      + cbn [snd]. eapply lookup_task_save; eauto.
      + split; [intros _; repeat split | intros [=]].
    - eexists. split; [reflexivity|]. split.
      + cbn [snd]. eapply lookup_task_save; eauto.
      + split; [intros [=] | intros _; repeat split]. }
  split_and!; [|exact Hnot|exact Hpending].
  split.
  - intros Hresp. intros Hvs. destruct (Hpending Hvs) as (task' & Hok & _).
    rewrite Hok in Hresp. discriminate Hresp.
  - intros Hvs. rewrite (Hnot Hvs). reflexivity.
Qed.

Lemma verifyTask_pending_review_witness :
  verifyTask 1200 (request [("status", VStr "completed")] None)
    (db_with finished)
  = (NotPendingReview, db_with finished).
Proof.
  refine (proj1 (proj2 (verifyTask_pending_review 1200
                          (request [("status", VStr "completed")] None)
                          (db_with finished) (admin_with finished)
                          (employee_with finished) finished
                          (or_introl eq_refl) eq_refl eq_refl eq_refl)) _).
  discriminate.
Defined.

(** ** The expiration sweep *)

Lemma expire_not_sweepable now task : sweepable now (expire now task) = false.
Proof. reflexivity. Qed.

(** The sweep leaves tasks it has nothing to do with as they are ... *)
Lemma sweepTasks_fixed now arr counts :
  forallb (λ task, negb (sweepable now task)) arr = true →
  sweepTasks now arr counts = (arr, counts, 0%Z).
Proof.
  induction arr as [|task arr IH]; intros Hall; [reflexivity|].
  cbn in Hall. apply andb_true_iff in Hall as [Htask Harr].
  cbn [sweepTasks]. rewrite (IH Harr).
  unfold sweepable in Htask.
  destruct (completed task || failed task); [reflexivity|].
  destruct (date_before (endDate task) now); [discriminate|reflexivity].
Qed.

(** ... and leaves no task it would change. *)
Lemma sweepTasks_swept now arr counts :
  forallb (λ task, negb (sweepable now task))
    (sweepTasks now arr counts).1.1 = true.
Proof.
  revert counts. induction arr as [|task arr IH]; intros counts;
    [reflexivity|].
  cbn [sweepTasks].
  destruct (completed task || failed task) eqn:Hterminal.
  - specialize (IH counts).
    destruct (sweepTasks now arr counts) as [[rest c] n]. cbn in *.
    unfold sweepable. rewrite Hterminal. exact IH.
  - destruct (date_before (endDate task) now) eqn:Hdate.
    + match goal with
      | |- context [sweepTasks now arr ?c] =>
          specialize (IH c); destruct (sweepTasks now arr c) as [[rest c'] n]
      end.
      cbn in *. rewrite IH.
      change (negb (sweepable now (expire now task)) && true = true).
      rewrite expire_not_sweepable. reflexivity.
    + specialize (IH counts).
      destruct (sweepTasks now arr counts) as [[rest c] n]. cbn in *.
      unfold sweepable. rewrite Hterminal, Hdate. exact IH.
Qed.

Lemma sweepEmployee_settled now employee :
  settled now (sweepEmployee now employee).1 = true.
Proof.
  unfold sweepEmployee, settled.
  pose proof (sweepTasks_swept now (tasks employee) (taskCounts employee)) as H.
  destruct (sweepTasks now (tasks employee) (taskCounts employee))
    as [[arr c] n].
  exact H.
Qed.

Lemma sweepEmployees_settled now es :
  forallb (settled now) (sweepEmployees now es).1 = true.
Proof.
  induction es as [|employee es IH]; [reflexivity|].
  cbn [sweepEmployees].
  pose proof (sweepEmployee_settled now employee) as H.
  destruct (sweepEmployee now employee) as [employee' n].
  destruct (sweepEmployees now es) as [rest m]. cbn in *.
  rewrite H, IH. reflexivity.
Qed.

(** A second sweep of the same admin changes nothing, whether or not the
    query selects the admin again. *)
Lemma sweepEmployees_fixed now es :
  forallb (settled now) es = true → sweepEmployees now es = (es, 0%Z).
Proof.
  induction es as [|employee es IH]; intros Hall; [reflexivity|].
  cbn in Hall. apply andb_true_iff in Hall as [Hemployee Hes].
  cbn [sweepEmployees]. rewrite (IH Hes). unfold sweepEmployee.
  rewrite (sweepTasks_fixed now _ _ Hemployee).
  destruct employee; reflexivity.
Qed.

Lemma sweepAdmin_idempotent now admin :
  sweepAdmin now (sweepAdmin now admin).1 = ((sweepAdmin now admin).1, 0%Z).
Proof.
  unfold sweepAdmin at 1.
  assert (forallb (settled now) (employees (sweepAdmin now admin).1) = true)
    as Hsettled.
  { unfold sweepAdmin.
    pose proof (sweepEmployees_settled now (employees admin)) as H.
    destruct (sweepEmployees now (employees admin)) as [es n]. exact H. }
  rewrite (sweepEmployees_fixed now _ Hsettled).
  destruct (sweepAdmin now admin) as [[aid es] n]. reflexivity.
Qed.

(** The query selects no admin whose employees are all settled. *)
Lemma settled_not_selected now admin :
  forallb (settled now) (employees admin) = true →
  selected now admin = false.
Proof.
  intros Hall. unfold selected.
  apply not_true_is_false. intros Hsel.
  apply existsb_exists in Hsel as (employee & Hin & Htask).
  apply existsb_exists in Htask as (task & Hint & Hmatch).
  rewrite forallb_forall in Hall. specialize (Hall employee Hin).
  unfold settled in Hall. rewrite forallb_forall in Hall.
  specialize (Hall task Hint).
  unfold elemMatch in Hmatch. unfold sweepable in Hall.
  destruct (completed task), (failed task),
    (date_before (endDate task) now), (active task),
    (str_is (verificationStatus task) "pending"); discriminate.
Qed.

Lemma sweepAdmin_not_selected now admin :
  selected now (sweepAdmin now admin).1 = false.
Proof.
  apply settled_not_selected. unfold sweepAdmin.
  pose proof (sweepEmployees_settled now (employees admin)) as H.
  destruct (sweepEmployees now (employees admin)) as [es n]. exact H.
Qed.

(** The route changes nothing when the query selects no admin. *)
Lemma checkExpired_none_selected now db :
  forallb (λ admin, negb (selected now admin)) db = true →
  checkExpired now db = (db, 0%Z).
Proof.
  induction db as [|admin db IH]; intros Hall; [reflexivity|].
  cbn in Hall. apply andb_true_iff in Hall as [Hadmin Hdb].
  cbn [checkExpired]. rewrite (IH Hdb).
  destruct (selected now admin); [discriminate|reflexivity].
Qed.

(** After the route ran, the query selects no admin. *)
Lemma checkExpired_none_left now db :
  forallb (λ admin, negb (selected now admin)) (checkExpired now db).1 = true.
Proof.
  induction db as [|admin db IH]; [reflexivity|].
  cbn [checkExpired].
  destruct (selected now admin) eqn:Hsel.
  - pose proof (sweepAdmin_not_selected now admin) as H.
    destruct (sweepAdmin now admin) as [admin' n].
    destruct (checkExpired now db) as [rest m]. cbn in *.
    rewrite H, IH. reflexivity.
  - destruct (checkExpired now db) as [rest m]. cbn in *.
    rewrite Hsel, IH. reflexivity.
Qed.

(** C7: the expiration sweep is idempotent. For every database and
    clock reading, a second run at the same clock reading on the database
    the first run left reports an [updatedCount] of 0 and leaves every
    admin, employee, counter and task as the first run left them. *)
Theorem checkExpired_idempotent (now : Z) (db : list Admin) :
  checkExpired now (checkExpired now db).1 = ((checkExpired now db).1, 0%Z).
Proof.
  apply checkExpired_none_selected, checkExpired_none_left.
Qed.

(** The sweep does not touch the newTask flag: a task that is still new
    when its deadline passes is left with two flags set, where the state
    update leaves only the failed flag. *)
Example expire_new_task :
  flags (expire 2001 assigned) = [true; false; false; true]
  ∧ flags (updateTaskState assigned 2001) = [false; false; false; true].
Proof. split; reflexivity. Qed.

(** The scenario of an accepted task whose deadline passes: the first run
    fails it and reports one update, the second run reports none. *)
Example checkExpired_scenario :
  let first := checkExpired 2001 (db_with accepted) in
  first.2 = 1%Z
  ∧ (flags <$> lookup_task first.1 "e1" "t1")
    = Some [false; false; false; true]
  ∧ checkExpired 2001 first.1 = (first.1, 0%Z).
Proof. vm_compute. repeat split. Qed.

(** ** Terminal tasks *)

(** [handleStatusUpdate] refuses every request on a task that is
    completed or failed. *)
Lemma handleStatusUpdate_terminal now task newStatus :
  _id task ≠ "" → completed task || failed task = true →
  handleStatusUpdate now (Some task) newStatus
  = Normal (inl (terminal_message task)).
Proof.
  intros Hid Hterminal. unfold handleStatusUpdate.
  apply String.eqb_neq in Hid. rewrite Hid, Hterminal. reflexivity.
Qed.

(** The update route refuses to fail a completed task. *)
Lemma changeStatus_failed_completed now req task counts :
  completed task = true →
  changeStatus now req "failed" task counts
  = inl "Completed tasks cannot be marked as failed".
Proof. intros H. unfold changeStatus. cbn. rewrite H. reflexivity. Qed.

(** The update route makes any task active on request: the switch has no
    guard in that case. *)
Lemma changeStatus_active now req task counts :
  changeStatus now req "active" task counts
  = inr (task |> set_active true |> set_completed false |> set_failed false
              |> set_newTask false |> set_verificationStatus (Some ""),
         counts).
Proof. reflexivity. Qed.


(** ** Rejection and resubmission *)

(** The upload route appends the document to the evidence of the task. *)
Lemma attachDocument_appends task document :
  submittedDocuments (attachDocument task document)
  = Some (default [] (submittedDocuments task) ++ [document])%list.
Proof.
  unfold attachDocument.
  destruct (submittedDocuments task) eqn:Hdocs;
    repeat case_match; cbn; rewrite ?Hdocs; reflexivity.
Qed.

(** The upload route asks for a review only when the stored status of the
    task is new or active. *)
Lemma attachDocument_verificationStatus task document :
  verificationStatus (attachDocument task document)
  = if str_is (status task) "new" || str_is (status task) "active"
    then Some "pending" else verificationStatus task.
Proof.
  unfold attachDocument.
  destruct (submittedDocuments task); cbn;
    destruct (str_is (status task) "new" || str_is (status task) "active");
    reflexivity.
Qed.

Lemma stateLabel_ext task task' :
  flags task = flags task' →
  verificationStatus task = verificationStatus task' →
  stateLabel task = stateLabel task'.
Proof.
  unfold flags, stateLabel. intros [= Hn Ha Hc Hf] Hvs.
  rewrite Hn, Ha, Hc, Hf, Hvs. reflexivity.
Qed.

(** A rejection leaves the stored status of the task as it was, so a
    document uploaded after the rejection of a task stored as
    pendingVerification does not ask for a review again. *)
Lemma resubmission_not_pending now adminId req task counts document :
  status task = Some "pendingVerification" →
  let rejected := (reject now adminId req task counts).1 in
  verificationStatus (attachDocument rejected document) = Some "rejected"
  ∧ stateLabel (attachDocument rejected document) = "active".
Proof.
  intros Hstatus. cbn zeta.
  assert (verificationStatus
            (attachDocument (reject now adminId req task counts).1 document)
          = Some "rejected") as Hvs.
  { rewrite attachDocument_verificationStatus.
    change (status (reject now adminId req task counts).1) with (status task).
    rewrite Hstatus. reflexivity. }
  split; [exact Hvs|].
  rewrite (stateLabel_ext _ (reject now adminId req task counts).1);
    [reflexivity | apply attachDocument_flags | exact Hvs].
Qed.

(** C6 at its failing input, through the routes: a new task is accepted,
    a first document is uploaded, the submission is rejected and a second
    document is uploaded. After the rejection the task is active with
    verification status rejected; after the second upload the evidence
    holds both documents in order, but the verification status is still
    rejected, the task is not pending verification, and the review of the
    resubmission is refused. *)
Theorem resubmission_after_rejection (m : bool) :
  let s1 := (updateTask m 1000 1001 accept_request (db_with assigned)).2 in
  let s2 := (uploadDocument 1100 "d1" (request [] (Some report1)) s1).2 in
  let s3 := (verifyTask 1200 reject_request s2).2 in
  let upload := request [] (Some report2) in
  let s4 := (uploadDocument 1300 "d2" upload s3).2 in
  (verificationStatus <$> lookup_task s2 "e1" "t1") = Some (Some "pending")
  ∧ (status <$> lookup_task s2 "e1" "t1") = Some (Some "pendingVerification")
  ∧ (flags <$> lookup_task s3 "e1" "t1") = Some [false; true; false; false]
  ∧ (verificationStatus <$> lookup_task s3 "e1" "t1")
    = Some (Some "rejected")
  ∧ (submittedDocuments <$> lookup_task s4 "e1" "t1")
    = Some (Some [doc1; uploadedDocument 1300 "d2" upload report2])
  ∧ (verificationStatus <$> lookup_task s4 "e1" "t1")
    = Some (Some "rejected")
  ∧ (stateLabel <$> lookup_task s4 "e1" "t1") = Some "active"
  ∧ (verifyTask 1400 approve_request s4).1 = NotPendingReview.
Proof. destruct m; vm_compute; repeat split. Qed.

(** The other submission path, the document branch of the update route,
    does ask for a review again after a rejection, and appends the
    documents. *)
Lemma submitFiles_after_rejection now later adminId req task counts fs :
  let rejected := (reject now adminId req task counts).1 in
  let resubmitted := (submitFiles later fs rejected counts).1 in
  verificationStatus resubmitted = Some "pending"
  ∧ status resubmitted = Some "pendingVerification"
  ∧ submittedDocuments resubmitted
    = Some (default [] (submittedDocuments task)
              ++ map (pushedDocument later) fs)%list.
Proof. repeat split. Qed.

(** ** Acceptance *)

(** The status the client derives for a task is one of seven labels. *)
Lemma getTaskStatus_cases now task :
  getTaskStatus now task
  ∈ ["unknown"; "completed"; "failed"; "pendingVerification"; "rejected";
     "active"; "new"].
Proof.
  unfold getTaskStatus. repeat case_match; member.
Qed.

(** What [validateStatusUpdate] answers to a request for active. *)
Lemma validateStatusUpdate_active now task :
  let cur := getTaskStatus now (Some task) in
  validateStatusUpdate now task "active"
  = Normal (if bool_decide (cur = "new" ∨ cur = "active")
            then {| isValid := true; reason := None |}
            else {| isValid := false;
                    reason := Some (invalid_transition_message cur "active") |}).
Proof.
  cbn zeta. unfold validateStatusUpdate.
  pose proof (getTaskStatus_cases now (Some task)) as Hcases.
  rewrite !elem_of_cons, elem_of_nil in Hcases.
  destruct Hcases as [->|[->|[->|[->|[->|[->|[->|[]]]]]]]];
    vm_compute; reflexivity.
Qed.

(** What the update route does to a task on a request that carries the
    status active and nothing else. *)
Lemma applyUpdate_accept now later req task counts :
  body req = [("status", VStr "active")] → files req = None →
  applyUpdate now later req task counts
  = inr (if date_before (endDate task) later
         then task |> set_status (Some "active")
                   |> set_active false |> set_newTask false
                   |> set_completed false |> set_failed true
                   |> set_verificationStatus (Some "expired")
                   |> set_updatedAt (Some later)
         else task |> set_active true |> set_completed false
                   |> set_failed false |> set_newTask false
                   |> set_verificationStatus (Some "")
                   |> set_status (Some "active"),
         counts).
Proof.
  intros Hbody Hfiles. unfold applyUpdate. rewrite Hbody, Hfiles.
  change (body_get [("status", VStr "active")] "status")
    with (Some (VStr "active")).
  change (List.filter _ [("status", VStr "active")])
    with (@nil (string * JSVal)).
  change (truthy (Some (VStr "active"))) with true.
  cbv iota beta. rewrite changeStatus_active. cbn [fold_left].
  unfold updateTaskState.
  cbn [endDate completed failed set_status set_verificationStatus
       set_newTask set_failed set_completed set_active].
  destruct (date_before (endDate task) later); reflexivity.
Qed.

(** C9, as the code has it, for a task that is neither completed nor
    failed: [TaskWorkflowService.acceptTask] returns the active flag set
    whenever the deadline of the task has not passed, without a check that
    the task is new, and throws when the deadline has passed;
    [validateStatusUpdate] refuses a request for active with a reason that
    names the transition unless the derived status of the task is new or
    already active; the update route makes the task active when its
    deadline has not passed and otherwise stores it, without an error, as
    failed with verification status expired. *)
Theorem acceptTask_active_unless_expired (now : Z) (task : Task)
    (Hc : completed task = false) (Hf : failed task = false) :
  (TaskWorkflowService.isTaskExpired now task = false →
   TaskWorkflowService.acceptTask now task = inr active_state)
  ∧ (TaskWorkflowService.isTaskExpired now task = true →
     TaskWorkflowService.acceptTask now task
     = inl "Cannot accept expired task")
  ∧ (let cur := getTaskStatus now (Some task) in
     validateStatusUpdate now task "active"
     = Normal (if bool_decide (cur = "new" ∨ cur = "active")
               then {| isValid := true; reason := None |}
               else {| isValid := false;
                       reason := Some (invalid_transition_message cur
                                         "active") |}))
  ∧ (∀ later req counts,
       body req = [("status", VStr "active")] → files req = None →
       ∃ task',
         applyUpdate now later req task counts = inr (task', counts)
         ∧ (date_before (endDate task) later = false →
            flags task' = [false; true; false; false]
            ∧ status task' = Some "active")
         ∧ (date_before (endDate task) later = true →
            flags task' = [false; false; false; true]
            ∧ verificationStatus task' = Some "expired")).
Proof.
  split_and!.
  - intros He. unfold TaskWorkflowService.acceptTask. rewrite He. reflexivity.
  - intros He. unfold TaskWorkflowService.acceptTask. rewrite He. reflexivity.
  - apply validateStatusUpdate_active.
  - intros later req counts Hbody Hfiles.
    rewrite (applyUpdate_accept now later req task counts Hbody Hfiles).
    eexists. split; [reflexivity|].
    split; intros ->; split; reflexivity.
Qed.

Lemma acceptTask_active_unless_expired_witness :
  TaskWorkflowService.acceptTask 1000 assigned = inr active_state
  ∧ TaskWorkflowService.acceptTask 2001 assigned
    = inl "Cannot accept expired task".
Proof.
  destruct (acceptTask_active_unless_expired 1000 assigned eq_refl eq_refl)
    as (Hopen & _).
  destruct (acceptTask_active_unless_expired 2001 assigned eq_refl eq_refl)
    as (_ & Hexpired & _).
  split; [apply Hopen | apply Hexpired]; reflexivity.
Defined.

(** C9, as stated, fails: the acceptance of a task that is not new, here
    one that is active already, does not fail. [acceptTask] returns the
    active flag set, the validator accepts the same-status request, and
    the update route answers with success. *)
Lemma acceptTask_not_new_counterexample :
  ¬ (∀ (now : Z) (task : Task),
       newTask task = false →
       ∃ e, TaskWorkflowService.acceptTask now task = inl e)
  ∧ ¬ (∀ (now : Z) (task : Task),
         newTask task = false →
         ∃ r, validateStatusUpdate now task "active"
              = Normal {| isValid := false; reason := Some r |})
  ∧ ¬ (∀ (m : bool) (now later : Z) (task : Task),
         newTask task = false →
         ∃ http e c,
           (updateTask m now later accept_request (db_with task)).1
           = Error http e c).
Proof.
  split_and!; intros H.
  - destruct (H 1000%Z accepted eq_refl) as [e He].
    vm_compute in He. discriminate He.
  - destruct (H 1000%Z accepted eq_refl) as [r Hr].
    vm_compute in Hr. discriminate Hr.
  - destruct (H true 1000%Z 1001%Z accepted eq_refl) as (http & e & c & He).
    vm_compute in He. discriminate He.
Qed.

(** The acceptance as the client sends it: the payload of
    [getStatusUpdatePayload], and the request of the task card, make a new
    task active. *)
Example accept_new_task (m : bool) :
  let payload := getStatusUpdatePayload 1000 "active" in
  let card :=
    [("status", VStr "active"); ("newTask", VBool false);
     ("active", VBool true); ("completed", VBool false);
     ("failed", VBool false); ("verificationStatus", VStr "");
     ("updatedAt", VDate 1000)] in
  validateStatusUpdate 1000 assigned "active"
  = Normal {| isValid := true; reason := None |}
  ∧ (flags <$> response_task
               (updateTask m 1000 1001 (request payload None)
                  (db_with assigned)).1)
    = Some [false; true; false; false]
  ∧ (flags <$> response_task
               (updateTask m 1000 1001 (request card None)
                  (db_with assigned)).1)
    = Some [false; true; false; false].
Proof. destruct m; vm_compute; repeat split. Qed.

(** ** Scenarios *)

(** An active task is submitted and approved: it ends completed, and the
    counters of the employee move one task from active to completed. *)
Example approval_scenario (m : bool) :
  let s1 := (updateTask m 1000 1001 accept_request (db_with assigned)).2 in
  let s2 := (uploadDocument 1100 "d1" (request [] (Some report1)) s1).2 in
  let s3 := (verifyTask 1200 approve_request s2).2 in
  (TaskCounts.active <$> lookup_counts s2 "e1") = Some 1%Z
  ∧ (TaskCounts.completed <$> lookup_counts s2 "e1") = Some 0%Z
  ∧ (flags <$> lookup_task s3 "e1" "t1") = Some [false; false; true; false]
  ∧ (TaskCounts.active <$> lookup_counts s3 "e1") = Some 0%Z
  ∧ (TaskCounts.completed <$> lookup_counts s3 "e1") = Some 1%Z.
Proof. destruct m; vm_compute; repeat split. Qed.

(** After a submission every later update of the task recounts the
    employee without it: the counters sum to 0 for one task. *)
Example recount_after_submission (m : bool) :
  let db := (updateTask m 1200 1201 (request [] None) (db_with submitted)).2 in
  (TaskCounts.sum <$> lookup_counts db "e1") = Some 0%Z
  ∧ (flags <$> lookup_task db "e1" "t1")
    = Some [false; false; false; false].
Proof. destruct m; vm_compute; repeat split. Qed.

(** An upload request without a file is refused and changes nothing. *)
Example upload_without_file (now : Z) (freshId : string) (db : list Admin) :
  uploadDocument now freshId (request [] None) db
  = (Error 400 "No file was uploaded. Please select a file to upload." None,
     db).
Proof. reflexivity. Qed.

(** * Further properties *)

(** ** The workflow service: bulk processing *)

Lemma withState_flags task s :
  (newTask (withState task s), active (withState task s),
   completed (withState task s), failed (withState task s),
   pendingVerification (withState task s))
  = (st_newTask s, st_active s, st_completed s, st_failed s,
     st_pendingVerification s).
Proof. reflexivity. Qed.

(** A task that carries the state [determineTaskState] gave it resolves to
    that state again at the same clock reading. *)
Lemma determineTaskState_resolveState now task :
  TaskWorkflowService.determineTaskState now task
  = resolveState (completed task) (pendingVerification task)
      (TaskWorkflowService.isTaskExpired now task)
      (TaskWorkflowService.hasSubmittedDocuments task)
      (newTask task) (failed task) (active task).
Proof. reflexivity. Qed.

Lemma resolveState_again c p e d n f a :
  let s := resolveState c p e d n f a in
  resolveState (st_completed s) (st_pendingVerification s) e d
    (st_newTask s) (st_failed s) (st_active s) = s.
Proof. destruct c, p, e, d, n, f, a; reflexivity. Qed.

Lemma determineTaskState_withState now task :
  TaskWorkflowService.determineTaskState now
    (withState task (TaskWorkflowService.determineTaskState now task))
  = TaskWorkflowService.determineTaskState now task.
Proof.
  rewrite (determineTaskState_resolveState now (withState _ _)).
  rewrite (determineTaskState_resolveState now task).
  apply resolveState_again.
Qed.

Lemma withState_withState task s : withState (withState task s) s = withState task s.
Proof. reflexivity. Qed.

Lemma processAllTasks_cons clock task arr :
  processAllTasks clock (task :: arr)
  = withState task (TaskWorkflowService.determineTaskState (clock 0%nat) task)
    :: processAllTasks (λ i, clock (S i)) arr.
Proof. reflexivity. Qed.

Lemma processAllTasks_fixed_clock now arr :
  processAllTasks (λ _, now) arr
  = map (λ task,
           withState task (TaskWorkflowService.determineTaskState now task))
        arr.
Proof.
  induction arr as [|task arr IH]; [reflexivity|].
  rewrite processAllTasks_cons, IH. reflexivity.
Qed.

(** X1: at a fixed clock reading [processAllTasks] is idempotent: tasks
    that were processed once are left as they are by a second pass. *)
Theorem processAllTasks_idempotent (now : Z) (arr : list Task) :
  processAllTasks (λ _, now) (processAllTasks (λ _, now) arr)
  = processAllTasks (λ _, now) arr.
Proof.
  rewrite !processAllTasks_fixed_clock, map_map.
  apply map_ext. intros task.
  rewrite determineTaskState_withState. apply withState_withState.
Qed.

(** X2: the four counts of [getTaskStatistics] and the number of tasks
    resolved to pendingVerification add up to the total, which is the
    number of tasks given: the four counts alone fall short of the total
    by the tasks that await verification. *)
Theorem getTaskStatistics_total (clock : nat → Z) (arr : list Task) :
  let s := getTaskStatistics clock arr in
  (stat_newTask s + stat_active s + stat_completed s + stat_failed s
   + count pendingVerification (processAllTasks clock arr))%Z
  = stat_total s
  ∧ stat_total s = Z.of_nat (length arr).
Proof.
  cbn zeta. unfold getTaskStatistics. cbn [stat_newTask stat_active
    stat_completed stat_failed stat_total].
  revert clock. induction arr as [|task arr IH]; intros clock;
    [split; reflexivity|].
  rewrite processAllTasks_cons, !count_cons. cbn [length].
  destruct (IH (λ i, clock (S i))) as [IHsum IHlen].
  pose proof (determineTaskState_cases (clock 0%nat) task) as Hcases.
  rewrite !elem_of_cons, elem_of_nil in Hcases.
  split; [|lia].
  destruct Hcases as [H|[H|[H|[H|[H|[]]]]]]; rewrite H; cbn; lia.
Qed.

(** X3: [needsStateUpdate] answers true for every list that is not
    empty, whatever the tasks are: the current state it serialises has
    four keys and the expected state five, so the two texts always
    differ. *)
Theorem needsStateUpdate_nonempty (clock : nat → Z) (arr : list Task) :
  needsStateUpdate clock arr = negb (bool_decide (arr = [])).
Proof.
  destruct arr as [|task arr]; [reflexivity|].
  rewrite bool_decide_eq_false_2 by discriminate.
  unfold needsStateUpdate. rewrite imap_cons. cbn [existsb].
  apply orb_true_iff. left. unfold id.
  apply negb_true_iff, String.eqb_neq.
  pose proof (determineTaskState_cases (clock 0%nat) task) as Hcases.
  rewrite !elem_of_cons, elem_of_nil in Hcases.
  unfold currentState.
  destruct Hcases as [H|[H|[H|[H|[H|[]]]]]]; rewrite H;
    destruct (newTask task), (active task), (completed task), (failed task);
    vm_compute; discriminate.
Qed.

(** X4: the states the transitions return are kept by the resolution. A
    task that carries the state [acceptTask] returned resolves to active
    while its deadline has not passed, one that carries the state of
    [submitDocument] resolves to completed, and one that carries the
    state [expireTask] returned resolves to completed when it has
    documents and, once its deadline has passed, to failed when it has
    none (a task flagged pendingVerification stays pending). *)
Theorem transition_states_kept (now later : Z) (task : Task)
    (Hpending : pendingVerification task = false) :
  (∀ s, TaskWorkflowService.acceptTask now task = inr s →
        TaskWorkflowService.isTaskExpired later task = false →
        TaskWorkflowService.determineTaskState later (withFlags task s)
        = TaskWorkflowService.st_only_active)
  ∧ TaskWorkflowService.determineTaskState later
      (withFlags task (TaskWorkflowService.submitDocument task))
    = TaskWorkflowService.st_only_completed
  ∧ (TaskWorkflowService.hasSubmittedDocuments task = true →
     TaskWorkflowService.determineTaskState later
       (withFlags task (TaskWorkflowService.expireTask task))
     = TaskWorkflowService.st_only_completed)
  ∧ (TaskWorkflowService.hasSubmittedDocuments task = false →
     TaskWorkflowService.isTaskExpired later task = true →
     TaskWorkflowService.determineTaskState later
       (withFlags task (TaskWorkflowService.expireTask task))
     = TaskWorkflowService.st_only_failed).
Proof.
  split_and!.
  - intros s Haccept Hopen. unfold TaskWorkflowService.acceptTask in Haccept.
    destruct (TaskWorkflowService.isTaskExpired now task); [discriminate|].
    injection Haccept as <-.
    unfold TaskWorkflowService.determineTaskState.
    change (TaskWorkflowService.isTaskExpired later (withFlags task ?s))
      with (TaskWorkflowService.isTaskExpired later task).
    rewrite Hopen. cbn. rewrite Hpending.
    destruct (TaskWorkflowService.hasSubmittedDocuments _); reflexivity.
  - reflexivity.
  - intros Hdocs. unfold TaskWorkflowService.expireTask. rewrite Hdocs.
    reflexivity.
  - intros Hdocs Hexpired. unfold TaskWorkflowService.expireTask.
    rewrite Hdocs. unfold TaskWorkflowService.determineTaskState.
    change (TaskWorkflowService.isTaskExpired later (withFlags task ?s))
      with (TaskWorkflowService.isTaskExpired later task).
    change (TaskWorkflowService.hasSubmittedDocuments (withFlags task ?s))
      with (TaskWorkflowService.hasSubmittedDocuments task).
    rewrite Hexpired, Hdocs. cbn. rewrite Hpending. reflexivity.
Qed.

Lemma transition_states_kept_witness :
  TaskWorkflowService.determineTaskState 1500
    (withFlags assigned active_state)
  = TaskWorkflowService.st_only_active.
Proof.
  destruct (transition_states_kept 1000 1500 assigned eq_refl) as (H & _).
  apply H; reflexivity.
Defined.

(** ** The routes and the rest of the database *)

Lemma find_update_first_frame {A B : Type} (p q : A → bool) (g : A → A)
    (F : A → option B) (l : list A) (x : A) :
  List.find p l = Some x →
  q (g x) = q x →
  (q x = true → F (g x) = F x) →
  List.find q (update_first p g l) ≫= F = List.find q l ≫= F.
Proof.
  intros Hfind Hq HF. induction l as [|y l IH]; [discriminate|].
  cbn in *. destruct (p y) eqn:Hy.
  - injection Hfind as ->. cbn. rewrite Hq.
    destruct (q x) eqn:Hqx; [cbn; apply HF; reflexivity|reflexivity].
  - cbn. destruct (q y); [reflexivity|]. apply IH, Hfind.
Qed.

Lemma existsb_update_first {A : Type} (p q : A → bool) (g : A → A)
    (l : list A) :
  (∀ x, p x = true → q (g x) = q x) →
  existsb q (update_first p g l) = existsb q l.
Proof.
  intros Hq. induction l as [|y l IH]; [reflexivity|].
  cbn. destruct (p y) eqn:Hy; cbn; [rewrite (Hq y Hy)|rewrite IH];
    reflexivity.
Qed.

Lemma has_id_eq id task : has_id id task = true ↔ _id task = id.
Proof. unfold has_id. apply String.eqb_eq. Qed.

Lemma is_employee_eq id e : is_employee id e = true ↔ employee_id e = id.
Proof. unfold is_employee. apply String.eqb_eq. Qed.

(** The save of an employee whose task [tid] was replaced leaves every
    other task of the database where it was. *)
Lemma lookup_task_save_other db eid tid admin employee task task' employee'
    eid' tid' :
  findOne db eid = Some admin →
  employees_id admin eid = Some employee →
  tasks_id employee tid = Some task →
  tasks employee' = update_first (has_id tid) (λ _, task') (tasks employee) →
  employee_id employee' = employee_id employee →
  _id task' = _id task →
  (eid', tid') ≠ (eid, tid) →
  lookup_task (save db eid employee') eid' tid' = lookup_task db eid' tid'.
Proof.
  intros Hadmin Hemployee Htask Htasks Heid Hid Hother.
  pose proof (proj1 (has_id_eq _ _) (find_holds _ _ _ Htask)) as Htid.
  pose proof (proj1 (is_employee_eq _ _) (find_holds _ _ _ Hemployee)) as He.
  assert (is_employee eid' employee' = is_employee eid' employee) as Hsame.
  { unfold is_employee. rewrite Heid. reflexivity. }
  unfold lookup_task, findOne, save.
  apply (find_update_first_frame (has_employee eid) (has_employee eid') _
           (λ a, employees_id a eid' ≫= λ e, tasks_id e tid') db admin Hadmin).
  - unfold has_employee. cbn. apply existsb_update_first.
    intros x Hx. apply is_employee_eq in Hx. unfold is_employee.
    rewrite Heid, He, Hx. reflexivity.
  - intros _. unfold employees_id. cbn.
    apply (find_update_first_frame (is_employee eid) (is_employee eid') _
             (λ e, tasks_id e tid') (employees admin) employee Hemployee
             Hsame).
    intros Hq. apply is_employee_eq in Hq.
    assert (tid' ≠ tid) as Hne.
    { intros ->. apply Hother. rewrite <- Hq, He. reflexivity. }
    unfold tasks_id. rewrite Htasks.
    pose proof (find_update_first_frame (has_id tid) (has_id tid')
                  (λ _, task') Some (tasks employee) task Htask) as Hframe.
    assert (has_id tid' task = false) as Hnot.
    { apply not_true_is_false. rewrite has_id_eq. congruence. }
    assert (has_id tid' task' = false) as Hnot'.
    { apply not_true_is_false. rewrite has_id_eq. congruence. }
    rewrite Hnot, Hnot' in Hframe.
    specialize (Hframe eq_refl ltac:(discriminate)).
    destruct (List.find (has_id tid') (update_first _ _ _)),
      (List.find (has_id tid') (tasks employee)); cbn in Hframe; congruence.
Qed.

Lemma assign_id task kv : _id (assign task kv) = _id task.
Proof.
  destruct kv as [key value]. unfold assign.
  destruct value; repeat case_match; reflexivity.
Qed.

Lemma updateTaskState_id task now : _id (updateTaskState task now) = _id task.
Proof. unfold updateTaskState. repeat case_match; reflexivity. Qed.

Lemma changeStatus_id now req s task counts task' counts' :
  changeStatus now req s task counts = inr (task', counts') →
  _id task' = _id task.
Proof.
  unfold changeStatus. intros H. repeat case_match; simplify_eq; reflexivity.
Qed.

Lemma assign_all_id (updateData : Body) task :
  _id (fold_left
         (λ task kv,
            if String.eqb kv.1 "_id" || String.eqb kv.1 "__v"
            then task else assign task kv)
         updateData task)
  = _id task.
Proof.
  revert task. induction updateData as [|kv updateData IH]; intros task;
    [reflexivity|].
  cbn [fold_left]. rewrite IH.
  destruct (String.eqb kv.1 "_id" || String.eqb kv.1 "__v");
    [reflexivity|apply assign_id].
Qed.

(** The update route keeps the identifier of the task it changes. *)
Lemma applyUpdate_id now later req task counts task' counts' :
  applyUpdate now later req task counts = inr (task', counts') →
  _id task' = _id task.
Proof.
  unfold applyUpdate.
  set (changed := match files req with Some (f :: fs) => _ | _ => _ end).
  assert (∀ t c, changed = inr (t, c) → _id t = _id task) as Hchanged.
  { intros t c. subst changed.
    assert (∀ r : string + Task * TaskCounts.t,
              (if truthy (body_get (body req) "status")
               then match body_get (body req) "status" with
                    | Some (VStr s) =>
                        match changeStatus now req s task counts with
                        | inl e => inl e
                        | inr (task, counts) =>
                            inr (task |> set_status (Some (routeLabel task)),
                                 counts)
                        end
                    | Some v => inl ("Invalid status: " ++ js_text v)
                    | None => inr (task, counts)
                    end
               else inr (task, counts)) = r →
              r = inr (t, c) → _id t = _id task) as Hstatus.
    { intros r Hr ->. destruct (truthy _); [|congruence].
      destruct (body_get (body req) "status") as [[b|s|d]|]; try congruence.
      destruct (changeStatus now req s task counts) as [e|[t1 c1]] eqn:Hcs;
        [discriminate|].
      injection Hr as <- <-. apply changeStatus_id in Hcs. exact Hcs. }
    destruct (files req) as [[|f fs]|]; intros H.
    - eapply Hstatus; [reflexivity|exact H].
    - unfold submitFiles in H. repeat case_match; simplify_eq; reflexivity.
    - eapply Hstatus; [reflexivity|exact H]. }
  destruct changed as [e|[t c]]; [discriminate|].
  intros [= <- <-]. rewrite updateTaskState_id, assign_all_id.
  apply (Hchanged t c eq_refl).
Qed.

Lemma attachDocument_id task document :
  _id (attachDocument task document) = _id task.
Proof. unfold attachDocument. repeat case_match; reflexivity. Qed.



Lemma lookup_task_intro db eid tid admin employee task :
  findOne db eid = Some admin →
  employees_id admin eid = Some employee →
  tasks_id employee tid = Some task →
  lookup_task db eid tid = Some task.
Proof.
  intros Hadmin Hemployee Htask. unfold lookup_task. rewrite Hadmin.
  change (employees_id admin eid ≫= (λ e, tasks_id e tid) = Some task).
  rewrite Hemployee. exact Htask.
Qed.

Lemma attachDocument_status task document :
  status (attachDocument task document)
  = if str_is (status task) "new" || str_is (status task) "active"
    then Some "pendingVerification" else status task.
Proof.
  unfold attachDocument.
  destruct (submittedDocuments task); cbn;
    destruct (str_is (status task) "new" || str_is (status task) "active");
    reflexivity.
Qed.

(** X5: every response of the three mutating routes tells what happened
    to the database. A request answered with an error leaves the database
    as it was. A success of the verification or the update route is a 200
    whose task agrees in identifier, status label and flags (for the
    update route in verification status and deadline too) with the task
    that a lookup of the same identifiers now finds. A success of the
    upload route means that the task found before is now stored with its
    flags as they were, its status and verification status set to
    pendingVerification and pending when the stored status was new or
    active and left alone otherwise, and the file name, original name,
    path, size and type of the uploaded document appended to those of its
    documents. *)
Theorem routes_responses (m : bool) (now later : Z) (freshId : string)
    (req : Request) (db : list Admin) :
  match (verifyTask now req db).1 with
  | Ok http task =>
      http = 200%nat
      ∧ reported <$> lookup_task (verifyTask now req db).2 (employeeId req)
                       (taskId req)
        = Some (reported task)
  | Created _ => False
  | Error _ _ _ => (verifyTask now req db).2 = db
  end
  ∧ match (updateTask m now later req db).1 with
    | Ok http task =>
        http = 200%nat
        ∧ (λ t, (reported t, verificationStatus t, endDate t))
            <$> lookup_task (updateTask m now later req db).2 (employeeId req)
                  (taskId req)
          = Some (reported task, verificationStatus task, endDate task)
    | Created _ => False
    | Error _ _ _ => (updateTask m now later req db).2 = db
    end
  ∧ match (uploadDocument now freshId req db).1 with
    | Ok _ _ => False
    | Created document =>
        ∃ task stored,
          lookup_task db (employeeId req) (taskId req) = Some task
          ∧ lookup_task (uploadDocument now freshId req db).2
              (employeeId req) (taskId req) = Some stored
          ∧ _id stored = _id task
          ∧ flags stored = flags task
          ∧ status stored
            = (if str_is (status task) "new" || str_is (status task) "active"
               then Some "pendingVerification" else status task)
          ∧ verificationStatus stored
            = (if str_is (status task) "new" || str_is (status task) "active"
               then Some "pending" else verificationStatus task)
          ∧ documentSummary <$> default [] (submittedDocuments stored)
            = ((documentSummary <$> default [] (submittedDocuments task))
               ++ [documentSummary document])%list
    | Error _ _ _ => (uploadDocument now freshId req db).2 = db
    end.
Proof.
  split_and!.
  - unfold verifyTask.
    destruct (negb _); [reflexivity|].
    destruct (findOne db (employeeId req)) as [admin|] eqn:Hadmin;
      [|reflexivity].
    destruct (employees_id admin (employeeId req)) as [employee|]
      eqn:Hemployee; [|reflexivity].
    destruct (tasks_id employee (taskId req)) as [task|] eqn:Htask;
      [|reflexivity].
    destruct (negb _); [reflexivity|].
    destruct (str_is _ "completed"); cbn [fst snd approve reject];
      (split; [reflexivity|]);
      (erewrite lookup_task_save; [reflexivity|eauto..]).
  - unfold updateTask.
    destruct (_ || _); [reflexivity|].
    destruct (findOne db (employeeId req)) as [admin|] eqn:Hadmin;
      [|reflexivity].
    destruct (employees_id admin (employeeId req)) as [employee|]
      eqn:Hemployee; [|reflexivity].
    destruct (tasks_id employee (taskId req)) as [task|] eqn:Htask;
      [|reflexivity].
    destruct (applyUpdate now later req task (taskCounts employee))
      as [e|[task' counts']] eqn:Happly; [reflexivity|].
    cbn [fst snd]. split; [reflexivity|].
    pose proof (lookup_task_save db (employeeId req) (taskId req) admin
                  employee task task'
                  (taskCounts
                     (recount m (with_task employee (taskId req) task'
                                   counts')))
                  Hadmin Hemployee Htask
                  (applyUpdate_id _ _ _ _ _ _ _ Happly)) as Hsaved.
    match goal with
    | |- _ <$> ?l = _ =>
        assert (l = Some task') as -> by (destruct m; exact Hsaved)
    end.
    reflexivity.
  - unfold uploadDocument.
    destruct (file req) as [f|]; [|reflexivity].
    destruct (findOne db (employeeId req)) as [admin|] eqn:Hadmin;
      [|reflexivity].
    destruct (employees_id admin (employeeId req)) as [employee|]
      eqn:Hemployee; [|reflexivity].
    destruct (tasks_id employee (taskId req)) as [task|] eqn:Htask;
      [|reflexivity].
    cbn [fst snd].
    exists task, (attachDocument task (uploadedDocument now freshId req f)).
    split_and!.
    + eapply lookup_task_intro; eauto.
    + eapply lookup_task_save; eauto. apply attachDocument_id.
    + apply attachDocument_id.
    + apply attachDocument_flags.
    + apply attachDocument_status.
    + apply attachDocument_verificationStatus.
    + rewrite attachDocument_appends. cbn [from_option]. unfold id at 1.
      rewrite fmap_app. reflexivity.
Qed.

(** X6: the three mutating routes leave every task but the one the
    request addresses as it was: a lookup under another employee or
    another task identifier finds after the request what it found
    before. *)
Theorem routes_leave_other_tasks (m : bool) (now later : Z)
    (freshId : string) (req : Request) (db : list Admin) (eid' tid' : string)
    (Hother : (eid', tid') ≠ (employeeId req, taskId req)) :
  lookup_task (verifyTask now req db).2 eid' tid' = lookup_task db eid' tid'
  ∧ lookup_task (updateTask m now later req db).2 eid' tid'
    = lookup_task db eid' tid'
  ∧ lookup_task (uploadDocument now freshId req db).2 eid' tid'
    = lookup_task db eid' tid'.
Proof.
  split_and!.
  - unfold verifyTask.
    destruct (negb _); [reflexivity|].
    destruct (findOne db (employeeId req)) as [admin|] eqn:Hadmin;
      [|reflexivity].
    destruct (employees_id admin (employeeId req)) as [employee|]
      eqn:Hemployee; [|reflexivity].
    destruct (tasks_id employee (taskId req)) as [task|] eqn:Htask;
      [|reflexivity].
    destruct (negb _); [reflexivity|].
    destruct (str_is _ "completed"); cbn [snd approve reject];
      (eapply lookup_task_save_other;
       [exact Hadmin|exact Hemployee|exact Htask|reflexivity|reflexivity
       |reflexivity|exact Hother]).
  - unfold updateTask.
    destruct (_ || _); [reflexivity|].
    destruct (findOne db (employeeId req)) as [admin|] eqn:Hadmin;
      [|reflexivity].
    destruct (employees_id admin (employeeId req)) as [employee|]
      eqn:Hemployee; [|reflexivity].
    destruct (tasks_id employee (taskId req)) as [task|] eqn:Htask;
      [|reflexivity].
    destruct (applyUpdate now later req task (taskCounts employee))
      as [e|[task' counts']] eqn:Happly; [reflexivity|].
    cbn [snd].
    eapply lookup_task_save_other;
      [exact Hadmin|exact Hemployee|exact Htask
      |destruct m; reflexivity|destruct m; reflexivity
      |exact (applyUpdate_id _ _ _ _ _ _ _ Happly)|exact Hother].
  - unfold uploadDocument.
    destruct (file req) as [f|]; [|reflexivity].
    destruct (findOne db (employeeId req)) as [admin|] eqn:Hadmin;
      [|reflexivity].
    destruct (employees_id admin (employeeId req)) as [employee|]
      eqn:Hemployee; [|reflexivity].
    destruct (tasks_id employee (taskId req)) as [task|] eqn:Htask;
      [|reflexivity].
    cbn [snd].
    eapply lookup_task_save_other;
      [exact Hadmin|exact Hemployee|exact Htask|reflexivity|reflexivity
      |apply attachDocument_id|exact Hother].
Qed.

Lemma routes_leave_other_tasks_witness :
  lookup_task (verifyTask 1200 approve_request db_two).2 "e1" "t2"
  = Some second_task.
Proof.
  destruct (routes_leave_other_tasks true 1200 1201 "d9" approve_request
              db_two "e1" "t2" ltac:(discriminate)) as (H & _).
  rewrite H. reflexivity.
Defined.

(** ** The sweep, task by task *)

Lemma or_num_zero x : or_num x 0 = x.
Proof. unfold or_num. destruct (Z.eqb_spec x 0); congruence. Qed.

(** X7: the loop of the sweep over the tasks of an employee expires
    exactly the tasks that are neither completed nor failed and whose
    deadline has passed, leaves every other task as it is, and reports the
    number of tasks it expired; it adds that number to the failed counter,
    never touches the newTask and completed counters, and moves the active
    counter only towards zero. *)
Theorem sweepTasks_expires_due (now : Z) (arr : list Task)
    (counts : TaskCounts.t) :
  let '(arr', counts', n) := sweepTasks now arr counts in
  arr' = map (expireDue now) arr
  ∧ n = count (sweepable now) arr
  ∧ TaskCounts.failed counts' = (TaskCounts.failed counts + n)%Z
  ∧ TaskCounts.newTask counts' = TaskCounts.newTask counts
  ∧ TaskCounts.completed counts' = TaskCounts.completed counts
  ∧ (Z.min 0 (TaskCounts.active counts) ≤ TaskCounts.active counts'
     ≤ Z.max 0 (TaskCounts.active counts))%Z.
Proof.
  revert counts. induction arr as [|task arr IH]; intros counts.
  { cbn. repeat split; lia. }
  cbn [sweepTasks map]. rewrite count_cons. unfold expireDue at 1.
  unfold sweepable at 1 2.
  destruct (completed task || failed task) eqn:Hterminal; cbn [negb andb].
  - specialize (IH counts).
    destruct (sweepTasks now arr counts) as [[rest c] n].
    destruct IH as (-> & -> & Hf & Hn & Hc & Ha).
    repeat split; try assumption; try lia.
  - destruct (date_before (endDate task) now) eqn:Hdate.
    + match goal with
      | |- context [sweepTasks now arr ?c] =>
          specialize (IH c); destruct (sweepTasks now arr c) as [[rest c'] n]
      end.
      destruct IH as (-> & -> & Hf & Hn & Hc & Ha).
      split; [reflexivity|]. split; [lia|].
      revert Hf Hn Hc Ha.
      destruct (str_is (status (expire now task)) "active");
        cbn; rewrite ?or_num_zero; unfold or_num;
        destruct (Z.eqb_spec (TaskCounts.active counts) 0); intros; lia.
    + specialize (IH counts).
      destruct (sweepTasks now arr counts) as [[rest c] n].
      destruct IH as (-> & -> & Hf & Hn & Hc & Ha).
      repeat split; try assumption; try lia.
Qed.

Lemma sweepEmployees_map now es :
  map (λ e, (employee_id e, tasks e)) (sweepEmployees now es).1
  = map (λ e, (employee_id e, map (expireDue now) (tasks e))) es
  ∧ (sweepEmployees now es).2
    = foldr Z.add 0%Z (map (λ e, count (sweepable now) (tasks e)) es).
Proof.
  induction es as [|e es [IHl IHn]]; [split; reflexivity|].
  cbn [sweepEmployees]. unfold sweepEmployee.
  destruct (sweepTasks_map now (tasks e) (taskCounts e)) as [Hl Hn].
  destruct (sweepTasks now (tasks e) (taskCounts e)) as [[arr c] n].
  destruct (sweepEmployees now es) as [rest k]. cbn in *.
  rewrite Hl, Hn, IHl, IHn. split; reflexivity.
Qed.

(** X8: the sweep route expires exactly the due tasks (neither completed
    nor failed, deadline passed) of the admins its query selects and
    leaves every other task, and every admin and employee identifier, as
    it was; the [updatedCount] it reports is the number of those due
    tasks. *)
Theorem checkExpired_expires_due (now : Z) (db : list Admin) :
  task_lists (checkExpired now db).1 = swept_lists now db
  ∧ (checkExpired now db).2 = due_count now db.
Proof.
  induction db as [|a db [IHl IHn]]; [split; reflexivity|].
  cbn [checkExpired].
  destruct (checkExpired now db) as [rest k]. cbn [fst snd] in IHl, IHn.
  unfold task_lists, swept_lists, due_count in *. cbn [map foldr].
  rewrite <- IHl, <- IHn.
  destruct (selected now a).
  - unfold sweepAdmin.
    destruct (sweepEmployees_map now (employees a)) as [Hl Hn].
    destruct (sweepEmployees now (employees a)) as [es n].
    cbn [fst snd map admin_id employees] in *. rewrite Hl, Hn.
    split; reflexivity.
  - split; reflexivity.
Qed.

(** X9: on a task that is not flagged new, the sweep and the per-task
    state update do the same: a due task is left by the sweep exactly as
    [updateTaskState] leaves it at the same clock reading. *)
Theorem expire_matches_updateTaskState (now : Z) (task : Task)
    (Hdue : sweepable now task = true) (Hnew : newTask task = false) :
  expireDue now task = updateTaskState task now.
Proof.
  unfold expireDue. rewrite Hdue. unfold sweepable in Hdue.
  apply andb_true_iff in Hdue as [Hterminal Hdate].
  apply negb_true_iff, orb_false_iff in Hterminal as [Hc Hf].
  unfold updateTaskState. rewrite Hc, Hdate, Hf. cbn [negb andb].
  destruct task. cbn in *. subst. reflexivity.
Qed.

Lemma expire_matches_updateTaskState_witness :
  expireDue 2001 accepted = updateTaskState accepted 2001.
Proof.
  apply expire_matches_updateTaskState; reflexivity.
Defined.

(** ** The state update *)

(** X10: the state update only ever clears the newTask and active flags,
    never changes the completed flag, the identifier, the deadline or the
    evidence of a task, and sets the failed flag only when the deadline
    has passed; a task it leaves failed was failed before or is past its
    deadline. *)
Theorem updateTaskState_only_clears (task : Task) (now : Z) :
  let task' := updateTaskState task now in
  (newTask task' = true → newTask task = true)
  ∧ (active task' = true → active task = true)
  ∧ completed task' = completed task
  ∧ (failed task' = true →
     failed task = true ∨ date_before (endDate task) now = true)
  ∧ _id task' = _id task
  ∧ endDate task' = endDate task
  ∧ submittedDocuments task' = submittedDocuments task.
Proof.
  cbn zeta. unfold updateTaskState.
  destruct (completed task) eqn:Hc; [tauto|].
  destruct (date_before (endDate task) now) eqn:Hdate;
    destruct (failed task) eqn:Hf; cbn [negb andb];
    destruct (str_is (verificationStatus task) "pending"); cbn;
    rewrite ?Hc, ?Hf; repeat split; auto; discriminate.
Qed.

Lemma updateTaskState_expired task now :
  completed task = false →
  date_before (endDate task) now = true →
  failed task = false →
  updateTaskState task now
  = task |> set_active false |> set_newTask false |> set_completed false
         |> set_failed true |> set_verificationStatus (Some "expired")
         |> set_updatedAt (Some now).
Proof. intros Hc Hd Hf. unfold updateTaskState. rewrite Hc, Hd, Hf. reflexivity. Qed.

Lemma updateTaskState_waiting task now :
  completed task = false →
  date_before (endDate task) now && negb (failed task) = false →
  str_is (verificationStatus task) "pending" = true →
  updateTaskState task now
  = task |> set_active false |> set_newTask false |> set_completed false
         |> set_failed false |> set_status (Some "pendingVerification").
Proof.
  intros Hc Hd Hp. unfold updateTaskState. rewrite Hc, Hd, Hp.
  unfold stateLabel. cbn. rewrite Hp. reflexivity.
Qed.

Lemma updateTaskState_labelled task now :
  completed task = false →
  date_before (endDate task) now && negb (failed task) = false →
  str_is (verificationStatus task) "pending" = false →
  updateTaskState task now = task |> set_status (Some (stateLabel task)).
Proof.
  intros Hc Hd Hp. unfold updateTaskState. rewrite Hc, Hd, Hp. reflexivity.
Qed.

(** X11: for a task that is not at once failed and pending verification,
    a second state update at the same clock reading changes no flag and
    not the verification status, and a third changes nothing at all; the
    second may still rewrite the stored status label, which the first
    leaves stale when it fails an expired task. *)
Theorem updateTaskState_settles (task : Task) (now : Z)
    (Hsane : failed task && str_is (verificationStatus task) "pending"
             = false) :
  let once := updateTaskState task now in
  let twice := updateTaskState once now in
  flags twice = flags once
  ∧ verificationStatus twice = verificationStatus once
  ∧ updateTaskState twice now = twice.
Proof.
  cbn zeta.
  destruct (completed task) eqn:Hc.
  { assert (updateTaskState task now = task) as Hsame.
    { unfold updateTaskState. rewrite Hc. reflexivity. }
    rewrite !Hsame. repeat split. }
  destruct (date_before (endDate task) now && negb (failed task)) eqn:Hdue.
  - apply andb_true_iff in Hdue as [Hd Hf]. apply negb_true_iff in Hf.
    rewrite (updateTaskState_expired task now Hc Hd Hf).
    rewrite (updateTaskState_labelled _ now);
      [|reflexivity|cbn; apply andb_false_r|reflexivity].
    rewrite (updateTaskState_labelled _ now);
      [|reflexivity|cbn; apply andb_false_r|reflexivity].
    repeat split.
  - destruct (str_is (verificationStatus task) "pending") eqn:Hp.
    + rewrite andb_true_r in Hsane. rewrite Hsane in Hdue.
      rewrite (updateTaskState_waiting task now Hc) by (rewrite ?Hsane; auto).
      rewrite (updateTaskState_waiting _ now);
        [|reflexivity|exact Hdue|exact Hp].
      rewrite (updateTaskState_waiting _ now);
        [|reflexivity|exact Hdue|exact Hp].
      repeat split.
    + rewrite (updateTaskState_labelled task now Hc Hdue Hp).
      rewrite (updateTaskState_labelled _ now);
        [|exact Hc|exact Hdue|exact Hp].
      rewrite (updateTaskState_labelled _ now);
        [|exact Hc|exact Hdue|exact Hp].
      repeat split.
Qed.

Lemma updateTaskState_settles_witness :
  flags (updateTaskState (updateTaskState accepted 2001) 2001)
  = flags (updateTaskState accepted 2001).
Proof.
  destruct (updateTaskState_settles accepted 2001 eq_refl) as (H & _).
  exact H.
Defined.

(** The status label after one and after two updates of an accepted task
    whose deadline has passed. *)
Example updateTaskState_stale_label :
  status (updateTaskState accepted 2001) = Some "active"
  ∧ status (updateTaskState (updateTaskState accepted 2001) 2001)
    = Some "expired".
Proof. split; reflexivity. Qed.

(** ** The clean-up script *)

Lemma fixTaskState_flagged task :
  overflagged task = true →
  fixTaskState task
  = (if completed task then
       task |> set_newTask false |> set_active false
            |> set_completed true |> set_failed false
     else if failed task then
       task |> set_newTask false |> set_active false
            |> set_completed false |> set_failed true
     else if active task then
       task |> set_newTask false |> set_active true
            |> set_completed false |> set_failed false
     else
       task |> set_newTask true |> set_active false
            |> set_completed false |> set_failed false, true).
Proof. unfold overflagged, fixTaskState. intros ->. reflexivity. Qed.

Lemma fixTaskState_fixed task : overflagged (fixTaskState task).1 = false.
Proof.
  unfold overflagged, fixTaskState, count_true, flags.
  destruct (newTask task) eqn:Hn, (active task) eqn:Ha,
    (completed task) eqn:Hc, (failed task) eqn:Hf; cbn;
    rewrite ?Hn, ?Ha, ?Hc, ?Hf; reflexivity.
Qed.

Lemma fixTaskState_unflagged task :
  overflagged task = false → fixTaskState task = (task, false).
Proof. unfold overflagged, fixTaskState. intros ->. reflexivity. Qed.

Lemma fixTaskState_snd task : (fixTaskState task).2 = overflagged task.
Proof. unfold overflagged, fixTaskState. case_match; reflexivity. Qed.

(** The clean-up of a task does not move it to another bucket of the
    counters. *)
Lemma fixTaskState_bucket task :
  let task' := (fixTaskState task).1 in
  completed task' = completed task
  ∧ failed task' && negb (completed task')
    = failed task && negb (completed task)
  ∧ active task' && negb (completed task') && negb (failed task')
    = active task && negb (completed task) && negb (failed task)
  ∧ newTask task' && negb (active task') && negb (completed task')
    && negb (failed task')
    = newTask task && negb (active task) && negb (completed task)
      && negb (failed task).
Proof.
  cbn zeta. unfold fixTaskState, count_true, flags.
  destruct (newTask task) eqn:Hn, (active task) eqn:Ha,
    (completed task) eqn:Hc, (failed task) eqn:Hf; cbn;
    rewrite ?Hn, ?Ha, ?Hc, ?Hf; repeat split.
Qed.

Lemma count_map (p : Task → bool) (f : Task → Task) arr :
  count p (map f arr) = count (λ task, p (f task)) arr.
Proof.
  induction arr as [|task arr IH]; [reflexivity|].
  cbn [map]. rewrite !count_cons, IH. reflexivity.
Qed.

Lemma count_ext (p q : Task → bool) arr :
  (∀ task, p task = q task) → count p arr = count q arr.
Proof.
  intros H. induction arr as [|task arr IH]; [reflexivity|].
  rewrite !count_cons, IH, H. reflexivity.
Qed.

(** X12: the clean-up script moves no task to another bucket: the
    counters recomputed from the fixed tasks are the counters recomputed
    from the tasks as they were. It fixes exactly the tasks that have more
    than one flag set, and leaves none of them. *)
Theorem fixEmployee_keeps_counts (employee : Employee) :
  let fixed := (fixEmployee employee).1 in
  taskCounts (updateTaskCounts fixed) = taskCounts (updateTaskCounts employee)
  ∧ Z.of_nat (fixEmployee employee).2 = count overflagged (tasks employee)
  ∧ count overflagged (tasks fixed) = 0%Z
  ∧ length (tasks fixed) = length (tasks employee).
Proof.
  cbn zeta.
  assert (tasks (fixEmployee employee).1
          = map (λ task, (fixTaskState task).1) (tasks employee)) as Htasks.
  { unfold fixEmployee. case_match; cbn; rewrite map_map; reflexivity. }
  split_and!.
  - unfold updateTaskCounts. cbn [taskCounts tasks]. rewrite Htasks.
    rewrite !count_map. f_equal; apply count_ext; intros task;
      pose proof (fixTaskState_bucket task) as (Hc & Hf & Ha & Hn);
      cbn zeta in *; congruence.
  - unfold fixEmployee. case_match; cbn [snd]; unfold count;
      f_equal; clear;
      induction (tasks employee) as [|task arr IH]; try reflexivity;
      cbn [map List.filter]; rewrite fixTaskState_snd;
      destruct (overflagged task); cbn [length]; rewrite IH; reflexivity.
  - rewrite Htasks, count_map.
    rewrite (count_ext _ (λ _, false)) by apply fixTaskState_fixed.
    generalize (tasks employee). intros arr.
    induction arr as [|task arr IH]; [reflexivity|].
    rewrite count_cons, IH. reflexivity.
  - rewrite Htasks. apply length_map.
Qed.

(** X13: the clean-up script is idempotent: a second run over an
    employee the first run left finds nothing to fix and leaves the
    employee, counters included, as the first run left it. *)
Theorem fixEmployee_idempotent (employee : Employee) :
  fixEmployee (fixEmployee employee).1 = ((fixEmployee employee).1, 0%nat).
Proof.
  assert (∀ e, Forall (λ task, overflagged task = false) (tasks e) →
               fixEmployee e = (e, 0%nat)) as Hclean.
  { intros e Hall. unfold fixEmployee.
    assert (map fixTaskState (tasks e) = map (λ task, (task, false)) (tasks e))
      as ->.
    { induction Hall as [|task arr Htask _ IH]; [reflexivity|].
      cbn [map]. rewrite IH, (fixTaskState_unflagged task Htask).
      reflexivity. }
    assert (List.filter snd (map (λ task : Task, (task, false)) (tasks e))
            = []) as ->.
    { generalize (tasks e). intros arr.
      induction arr as [|task arr IH]; [reflexivity|exact IH]. }
    cbn. rewrite map_map. cbn. rewrite map_id. destruct e; reflexivity. }
  apply Hclean.
  assert (tasks (fixEmployee employee).1
          = map (λ task, (fixTaskState task).1) (tasks employee)) as ->.
  { unfold fixEmployee. case_match; cbn; rewrite map_map; reflexivity. }
  apply Forall_forall. intros task Hin.
  apply list_elem_of_In, in_map_iff in Hin as (task0 & <- & _).
  apply fixTaskState_fixed.
Qed.

(** ** The client helpers and the update route *)

Lemma applyUpdate_status_error now later req task counts s e :
  files req = None →
  body_get (body req) "status" = Some (VStr s) →
  s ≠ "" →
  changeStatus now req s task counts = inl e →
  applyUpdate now later req task counts = inl e.
Proof.
  intros Hfiles Hstatus Hs Hchange. unfold applyUpdate.
  rewrite Hfiles, Hstatus. cbn [truthy]. apply String.eqb_neq in Hs.
  rewrite Hs, Hchange. reflexivity.
Qed.

(** X14: the updates the client helpers build for the statuses
    pendingVerification and rejected are never applied: the update route
    answers a request that carries such a payload (and no files) with an
    error and leaves the database as it was, whatever the task. *)
Theorem client_submission_refused (m : bool) (now later t : Z)
    (req : Request) (db : list Admin) (newStatus : string)
    (Hstatus : newStatus = "pendingVerification" ∨ newStatus = "rejected")
    (Hbody : body req = getStatusUpdatePayload t newStatus
             ∨ ∃ task, statusUpdateData t task newStatus = inr (body req))
    (Hfiles : files req = None) :
  ∃ http message,
    updateTask m now later req db = (Error http message None, db).
Proof.
  assert (body_get (body req) "status" = Some (VStr newStatus)) as Hget.
  { destruct Hbody as [-> | [task Hdata]].
    - destruct Hstatus as [-> | ->]; reflexivity.
    - destruct Hstatus as [-> | ->]; unfold statusUpdateData in Hdata;
        cbn in Hdata; repeat case_match; try discriminate Hdata;
        injection Hdata as <-; reflexivity. }
  assert (∀ task counts, ∃ e,
            applyUpdate now later req task counts = inl e) as Hrefused.
  { intros task counts.
    destruct Hstatus as [-> | ->]; eexists;
      (eapply applyUpdate_status_error;
       [exact Hfiles|exact Hget|discriminate|reflexivity]). }
  unfold updateTask.
  destruct (_ || _); [eauto|].
  destruct (findOne db (employeeId req)) as [admin|]; [|eauto].
  destruct (employees_id admin (employeeId req)) as [employee|]; [|eauto].
  destruct (tasks_id employee (taskId req)) as [task|]; [|eauto].
  destruct (Hrefused task (taskCounts employee)) as [e ->]. eauto.
Qed.

Lemma client_submission_refused_witness :
  ∃ http message,
    updateTask true 1200 1201
      (request (getStatusUpdatePayload 1200 "pendingVerification") None)
      (db_with accepted)
    = (Error http message None, db_with accepted).
Proof.
  apply (client_submission_refused true 1200 1201 1200
           (request (getStatusUpdatePayload 1200 "pendingVerification") None)
           (db_with accepted) "pendingVerification");
    [left; reflexivity | left; reflexivity | reflexivity].
Defined.

Lemma applyUpdate_status_ok now later req task counts s t c :
  files req = None →
  body_get (body req) "status" = Some (VStr s) →
  s ≠ "" →
  changeStatus now req s task counts = inr (t, c) →
  applyUpdate now later req task counts
  = inr (updateTaskState
           (fold_left
              (λ task kv,
                 if String.eqb kv.1 "_id" || String.eqb kv.1 "__v"
                 then task else assign task kv)
              (List.filter (λ kv, negb (String.eqb kv.1 "status")) (body req))
              (t |> set_status (Some (routeLabel t))))
           later, c).
Proof.
  intros Hfiles Hstatus Hs Hchange. unfold applyUpdate.
  rewrite Hfiles, Hstatus. cbn [truthy]. apply String.eqb_neq in Hs.
  rewrite Hs, Hchange. reflexivity.
Qed.

Lemma changeStatus_ok_cases now req s task counts t c :
  changeStatus now req s task counts = inr (t, c) →
  s = "active" ∨ s = "completed" ∨ s = "failed".
Proof.
  unfold changeStatus. intros H.
  repeat match goal with
         | H : context [String.eqb s ?x] |- _ =>
             destruct (String.eqb_spec s x) as [->|?]
         end; auto; discriminate.
Qed.

Lemma changeStatus_active_result now req task counts u c :
  changeStatus now req "active" task counts = inr (u, c) →
  verificationStatus u = Some "" ∧ endDate u = endDate task.
Proof.
  rewrite changeStatus_active. intros [= <- <-]. split; reflexivity.
Qed.

(** X15: a status update the client builds with [getStatusUpdatePayload]
    and the update route accepts is stored so that the client derives the
    requested status from it again: [getTaskStatus] of the stored task is
    completed after a completion, failed after a failure, and active after
    an acceptance as long as the deadline of the task has not passed. *)
Theorem client_payload_round_trip (now later t t' : Z) (req : Request)
    (task task' : Task) (counts counts' : TaskCounts.t) (newStatus : string)
    (Hstatus : newStatus = "active" ∨ newStatus = "completed"
               ∨ newStatus = "failed")
    (Hbody : body req = getStatusUpdatePayload t newStatus)
    (Hfiles : files req = None)
    (Hopen : newStatus = "active" →
             date_before (endDate task) later = false
             ∧ date_before (endDate task) t' = false)
    (Happly : applyUpdate now later req task counts = inr (task', counts')) :
  getTaskStatus t' (Some task') = newStatus.
Proof.
  assert (body_get (body req) "status" = Some (VStr newStatus)) as Hget.
  { rewrite Hbody.
    destruct Hstatus as [->|[->| ->]]; vm_compute; reflexivity. }
  assert (newStatus ≠ "") as Hne.
  { destruct Hstatus as [->|[->| ->]]; discriminate. }
  destruct (changeStatus now req newStatus task counts) as [e|[u c]]
    eqn:Hchange.
  { rewrite (applyUpdate_status_error _ _ _ _ _ _ _ Hfiles Hget Hne Hchange)
      in Happly. discriminate Happly. }
  rewrite (applyUpdate_status_ok _ _ _ _ _ _ _ _ Hfiles Hget Hne Hchange)
    in Happly.
  injection Happly as <- <-. rewrite Hbody.
  destruct Hstatus as [->|[->| ->]].
  - destruct (Hopen eq_refl) as [Hlater Hthen].
    apply changeStatus_active_result in Hchange as [Hvu Heu].
    match goal with
    | |- getTaskStatus _ (Some (updateTaskState ?X _)) = _ =>
        assert (completed X = false ∧ failed X = false ∧ active X = true
                ∧ verificationStatus X = verificationStatus u
                ∧ endDate X = endDate u)
          as (Hc & Hf & Ha & Hv & He) by (vm_compute; repeat split);
        remember X as x eqn:Hx in *
    end.
    rewrite Hvu in Hv. rewrite Heu in He.
    clear Hx.
    rewrite (updateTaskState_labelled x later Hc);
      [|rewrite He, Hlater; reflexivity|rewrite Hv; reflexivity].
    unfold getTaskStatus.
    change (completed (set_status ?l x)) with (completed x).
    change (failed (set_status ?l x)) with (failed x).
    change (active (set_status ?l x)) with (active x).
    change (verificationStatus (set_status ?l x))
      with (verificationStatus x).
    change (endDate (set_status ?l x)) with (endDate x).
    rewrite Hc, Hf, Ha, Hv, He.
    unfold date_before in Hthen. rewrite Hthen. vm_compute. reflexivity.
  - match goal with
    | |- getTaskStatus _ (Some (updateTaskState ?X _)) = _ =>
        assert (completed X = true ∧ verificationStatus X = Some "verified")
          as (Hc & Hv) by (vm_compute; repeat split);
        remember X as x eqn:Hx in *
    end.
    clear Hx.
    unfold updateTaskState. rewrite Hc. unfold getTaskStatus.
    rewrite Hc, Hv. vm_compute. reflexivity.
  - match goal with
    | |- getTaskStatus _ (Some (updateTaskState ?X _)) = _ =>
        assert (completed X = false ∧ failed X = true
                ∧ verificationStatus X = Some "expired")
          as (Hc & Hf & Hv) by (vm_compute; repeat split);
        remember X as x eqn:Hx in *
    end.
    clear Hx.
    rewrite (updateTaskState_labelled x later Hc);
      [|rewrite Hf; apply andb_false_r|rewrite Hv; reflexivity].
    unfold getTaskStatus.
    change (completed (set_status ?l x)) with (completed x).
    change (failed (set_status ?l x)) with (failed x).
    rewrite Hc, Hf. reflexivity.
Qed.

Lemma client_payload_round_trip_witness :
  match applyUpdate 1000 1001
          (request (getStatusUpdatePayload 1000 "active") None)
          assigned zero_counts with
  | inr (task', _) => getTaskStatus 1500 (Some task') = "active"
  | inl _ => False
  end.
Proof.
  destruct (applyUpdate 1000 1001
              (request (getStatusUpdatePayload 1000 "active") None)
              assigned zero_counts) as [e|[task' counts']] eqn:Happly.
  - vm_compute in Happly. discriminate Happly.
  - apply (client_payload_round_trip 1000 1001 1000 1500
             (request (getStatusUpdatePayload 1000 "active") None)
             assigned task' zero_counts counts' "active");
      [left; reflexivity | reflexivity | reflexivity
      | intros _; split; reflexivity | exact Happly].
Defined.

(** ** The task list of the dashboard *)

(** X16: the task list shows a task as failed exactly when its deadline
    has passed and it is neither completed nor approved, whatever its
    flags say; a task it shows as failed or as completed has no other
    flag set, and unless the verification status of the task is the empty
    string (where the list keeps the newTask and active flags as they
    are) a shown task never has more than one flag set. *)
Theorem viewTask_flags (now : Z) (employee : option string) (task : Task) :
  let v := viewTask now employee task in
  failed (vt_task v)
  = vt_isExpired v && negb (completed task)
    && negb (str_is (verificationStatus task) "approved")
  ∧ vt_isExpired v = date_before (endDate task) now
  ∧ (failed (vt_task v) = true →
     flags (vt_task v) = [false; false; false; true])
  ∧ (completed (vt_task v) = true →
     flags (vt_task v) = [false; false; true; false])
  ∧ (str_is (verificationStatus task) "" = false →
     (count_true (flags (vt_task v)) ≤ 1)%nat).
Proof.
  cbn zeta. unfold viewTask.
  change (match endDate task with
          | Some e => (e <? now)%Z
          | None => false
          end) with (date_before (endDate task) now).
  destruct (date_before (endDate task) now), (completed task),
    (str_is (verificationStatus task) "approved"),
    (str_is (verificationStatus task) "pending"),
    (str_is (verificationStatus task) "rejected"),
    (str_is (verificationStatus task) ""),
    (newTask task), (active task); cbn;
    repeat split; intros; try discriminate; auto.
Qed.

Lemma categorizeTask_rejected c v :
  rejectedTasks (categorizeTask c v) = rejectedTasks c.
Proof. unfold categorizeTask. repeat case_match; reflexivity. Qed.

Lemma categorizeTask_all c v :
  all_categories (categorizeTask c v) ≡ₚ all_categories c ++ [v].
Proof.
  unfold categorizeTask, all_categories.
  repeat case_match; cbn [failedTasks completeTasks pendingVerificationTasks
    rejectedTasks newTasks activeTasks];
    rewrite <- ?(assoc_L (++));
    repeat apply Permutation_app_head;
    first [ reflexivity
          | cbn [app]; rewrite ?(assoc_L (++));
            apply Permutation_cons_append ].
Qed.

Lemma categorizeTask_keeps c v w :
  w ∈ activeTasks c → w ∈ activeTasks (categorizeTask c v).
Proof.
  unfold categorizeTask. intros Hin.
  repeat case_match; cbn; rewrite ?elem_of_app; auto.
Qed.

Lemma categorize_keeps arr c w :
  w ∈ activeTasks c → w ∈ activeTasks (fold_left categorizeTask arr c).
Proof.
  revert c. induction arr as [|v arr IH]; intros c Hin; cbn [fold_left];
    [exact Hin|].
  apply IH, categorizeTask_keeps, Hin.
Qed.

Lemma categorizeTask_rejected_active c v :
  str_is (verificationStatus (vt_task v)) "rejected" = true →
  failed (vt_task v) = false →
  completed (vt_task v) = false →
  v ∈ activeTasks (categorizeTask c v).
Proof.
  intros Hr Hf Hc. unfold categorizeTask. rewrite Hf, Hc.
  apply str_is_true in Hr. rewrite Hr. cbn.
  apply elem_of_app. right. apply list_elem_of_singleton. reflexivity.
Qed.

Lemma categorize_all arr c :
  all_categories (fold_left categorizeTask arr c) ≡ₚ all_categories c ++ arr.
Proof.
  revert c. induction arr as [|v arr IH]; intros c; cbn [fold_left].
  - rewrite app_nil_r. reflexivity.
  - rewrite IH, categorizeTask_all, <- (assoc_L (++)). reflexivity.
Qed.

Lemma categorize_rejected arr c :
  rejectedTasks (fold_left categorizeTask arr c) = rejectedTasks c.
Proof.
  revert c. induction arr as [|v arr IH]; intros c; cbn [fold_left];
    [reflexivity|].
  rewrite IH. apply categorizeTask_rejected.
Qed.

(** X17: the sorting of the task list puts every task on exactly one of
    its lists: the six lists together are a rearrangement of the tasks
    given, so their lengths add up to the number of tasks. The list of
    rejected tasks is always empty: a rejected task that is neither failed
    nor completed is put on the active list. *)
Theorem categorize_partition (arr : list ViewTask) :
  all_categories (categorize arr) ≡ₚ arr
  ∧ rejectedTasks (categorize arr) = []
  ∧ Forall (λ v, str_is (verificationStatus (vt_task v)) "rejected" = true →
                 failed (vt_task v) = false →
                 completed (vt_task v) = false →
                 v ∈ activeTasks (categorize arr)) arr.
Proof.
  unfold categorize. split_and!.
  - rewrite categorize_all. reflexivity.
  - rewrite categorize_rejected. reflexivity.
  - generalize noCategories.
    induction arr as [|v arr IH]; intros c; constructor.
    + intros Hr Hf Hc. cbn [fold_left].
      apply categorize_keeps, categorizeTask_rejected_active; assumption.
    + apply IH.
Qed.

(** ** The review queue of the admin routes *)

Lemma collectPending_from es pendingTasks totalPendingTasks :
  fold_left
    (λ '(pendingTasks, totalPendingTasks) employee,
       let employeePendingTasks := List.filter awaitsReview (tasks employee) in
       ((pendingTasks ++ map (pendingEntry employee) employeePendingTasks)%list,
        (totalPendingTasks + Z.of_nat (length employeePendingTasks))%Z))
    es (pendingTasks, totalPendingTasks)
  = let queue :=
      es ≫= λ e, pendingEntry e <$> List.filter awaitsReview (tasks e) in
    ((pendingTasks ++ queue)%list,
     (totalPendingTasks + Z.of_nat (length queue))%Z).
Proof.
  revert pendingTasks totalPendingTasks.
  induction es as [|e es IH]; intros l n; cbn [fold_left].
  - cbn. rewrite app_nil_r, Z.add_0_r. reflexivity.
  - rewrite IH. cbn zeta. rewrite bind_cons, length_app, length_fmap.
    rewrite <- (assoc_L (++)). f_equal. lia.
Qed.

Lemma collectPending_total es :
  (collectPending es).2 = Z.of_nat (length (collectPending es).1).
Proof.
  unfold collectPending. rewrite collectPending_from. reflexivity.
Qed.

Lemma js_slice_window {A : Type} (l : list A) (skip limit_ : Z) :
  (0 ≤ skip)%Z → (0 ≤ limit_)%Z →
  js_slice l skip (skip + limit_)
  = take (Z.to_nat limit_) (drop (Z.to_nat skip) l).
Proof.
  intros Hskip Hlimit. unfold js_slice, relative_index.
  destruct (Z.ltb_spec skip 0); [lia|].
  destruct (Z.ltb_spec (skip + limit_) 0); [lia|].
  destruct (Z_le_gt_dec (Z.of_nat (length l)) skip) as [Hout|Hin].
  - rewrite !drop_ge by lia. rewrite !take_nil. reflexivity.
  - rewrite (Z.min_l skip) by lia.
    destruct (Z_le_gt_dec (skip + limit_) (Z.of_nat (length l))).
    + rewrite Z.min_l by lia. f_equal. lia.
    + rewrite Z.min_r by lia.
      rewrite !take_ge; [reflexivity|rewrite length_drop; lia..].
Qed.

Lemma ceil_div_next (page_ limit_ total_ : Z) :
  (1 ≤ limit_)%Z →
  (page_ <? ceil_div total_ limit_)%Z = (page_ * limit_ <? total_)%Z.
Proof.
  intros Hlimit. unfold ceil_div.
  pose proof (Z.div_mod (- total_) limit_ ltac:(lia)) as Hdiv.
  pose proof (Z.mod_pos_bound (- total_) limit_ ltac:(lia)) as Hmod.
  destruct (Z.ltb_spec page_ (- (- total_ / limit_))),
    (Z.ltb_spec (page_ * limit_) total_); try reflexivity; nia.
Qed.

(** X18: the review queue of an admin in pages. For a page number and a
    page size of at least 1, the total the route reports is the length of
    the whole queue, the page holds the entries from (page - 1) * limit on,
    at most limit of them, hasNextPage tells exactly whether entries lie
    beyond the page, and position i of the page holds exactly the entry
    at position (page - 1) * limit + i of the queue, for i below limit:
    the pages cover the queue and show no entry twice. *)
Theorem paginate_pages (es : list Employee) (page_ limit_ : Z) :
  (1 ≤ page_)%Z → (1 ≤ limit_)%Z →
  let pendingTasks := (collectPending es).1 in
  let r := paginate page_ limit_ pendingTasks (collectPending es).2 in
  total (pagination r) = Z.of_nat (length pendingTasks)
  ∧ data r = take (Z.to_nat limit_)
                  (drop (Z.to_nat ((page_ - 1) * limit_)) pendingTasks)
  ∧ (hasNextPage (pagination r) = true
     ↔ (page_ * limit_ < Z.of_nat (length pendingTasks))%Z)
  ∧ (∀ (i : nat) (x : PendingTask),
       data r !! i = Some x
       ↔ pendingTasks !! (Z.to_nat ((page_ - 1) * limit_) + i)%nat = Some x
         ∧ (Z.of_nat i < limit_)%Z).
Proof.
  intros Hpage Hlimit pendingTasks r.
  assert (data r = take (Z.to_nat limit_)
                     (drop (Z.to_nat ((page_ - 1) * limit_)) pendingTasks))
    as Hdata.
  { unfold r, paginate. cbn [data]. apply js_slice_window; nia. }
  split_and!.
  - apply collectPending_total.
  - exact Hdata.
  - unfold r, paginate. cbn [pagination hasNextPage].
    rewrite collectPending_total, ceil_div_next by exact Hlimit.
    fold pendingTasks. apply Z.ltb_lt.
  - intros i x. rewrite Hdata, lookup_take_Some, lookup_drop.
    split; intros [Hx Hi]; (split; [exact Hx|lia]).
Qed.

Lemma paginate_pages_witness :
  (data (paginate 2 1 (collectPending [employee_with awaiting; employee_with awaiting]).1
                  (collectPending [employee_with awaiting; employee_with awaiting]).2))
  = [pendingEntry (employee_with awaiting) awaiting].
Proof.
  destruct (paginate_pages [employee_with awaiting; employee_with awaiting]
              2 1 ltac:(lia) ltac:(lia)) as (_ & Hdata & _).
  rewrite Hdata. vm_compute. reflexivity.
Defined.

(** ** The creation of a task *)

Lemma find_update_first_same {A : Type} (p : A → bool) (g : A → A)
    (l : list A) :
  (∀ x, p x = true → p (g x) = true) →
  List.find p (update_first p g l) = g <$> List.find p l.
Proof.
  intros Hp. induction l as [|y l IH]; [reflexivity|].
  cbn. destruct (p y) eqn:Hy; cbn.
  - rewrite (Hp y Hy). reflexivity.
  - rewrite Hy. exact IH.
Qed.

Lemma existsb_find {A : Type} (p : A → bool) (l : list A) :
  existsb p l = true → ∃ x, List.find p l = Some x.
Proof.
  induction l as [|y l IH]; [discriminate|].
  cbn. destruct (p y); [eauto|exact IH].
Qed.

Lemma is_admin_eq id a : is_admin id a = true ↔ admin_id a = id.
Proof. unfold is_admin. apply String.eqb_eq. Qed.

Lemma has_employee_update_first eid f es :
  (∀ e, employee_id (f e) = employee_id e) →
  existsb (is_employee eid) (update_first (is_employee eid) f es)
  = existsb (is_employee eid) es.
Proof.
  intros Hf. apply existsb_update_first.
  intros e _. unfold is_employee. rewrite Hf. reflexivity.
Qed.

Lemma employee_of_updateOne db aid eid f :
  (∀ e, employee_id (f e) = employee_id e) →
  employee_of (updateOne aid eid f db) aid eid = f <$> employee_of db aid eid.
Proof.
  intros Hf. unfold employee_of, updateOne.
  rewrite find_update_first_same.
  - destruct (List.find (owns aid eid) db) as [a|]; [|reflexivity].
    cbn. unfold employees_id. cbn.
    apply find_update_first_same.
    intros e. unfold is_employee. rewrite Hf. auto.
  - intros a. unfold owns, has_employee, is_admin. cbn.
    rewrite has_employee_update_first by exact Hf. auto.
Qed.

(** With unique identifiers, the admin [findById] finds after an update is
    the one the update was applied to. *)
Lemma findById_updateOne db aid eid f :
  (∀ e, employee_id (f e) = employee_id e) →
  NoDup (admin_id <$> db) →
  existsb (owns aid eid) db = true →
  findById (updateOne aid eid f db) aid
  = List.find (owns aid eid) (updateOne aid eid f db).
Proof.
  unfold findById, updateOne. intros Hf.
  induction db as [|a db IH]; [discriminate|].
  intros Hdup Hex. apply NoDup_cons in Hdup as [Hnew Hdup].
  cbn in *. destruct (owns aid eid a) eqn:Howns; cbn.
  - unfold owns, has_employee, is_admin in *. cbn.
    rewrite has_employee_update_first by exact Hf.
    rewrite Howns. apply andb_prop in Howns as [-> _]. reflexivity.
  - rewrite Howns. destruct (is_admin aid a) eqn:Ha.
    + exfalso. apply Hnew. apply existsb_exists in Hex as (a' & Hin & Ha').
      apply andb_prop in Ha' as [Ha' _].
      apply is_admin_eq in Ha, Ha'. rewrite Ha, <- Ha'.
      apply list_elem_of_fmap. exists a'. split; [reflexivity|].
      apply list_elem_of_In, Hin.
    + apply IH; assumption.
Qed.

Lemma count_snoc (p : Task → bool) (arr : list Task) (t : Task) :
  count p (arr ++ [t]) = (count p arr + (if p t then 1 else 0))%Z.
Proof.
  induction arr as [|u arr IH]; cbn [app].
  - rewrite count_cons. unfold count. cbn. lia.
  - rewrite !count_cons, IH. lia.
Qed.

(** X19: the creation of a task, in a database whose admins have
    distinct identifiers. A request the route refuses leaves the database
    as it is. A task it creates is new (only the newTask flag set, an empty
    verificationStatus), its deadline lies more than 30 seconds after the
    reading of the server clock, it is appended to the tasks of the
    employee, and the counters stored are the recount of that list: one
    more new task than in a recount of the former list, the other three
    counts the same. *)
Theorem createTask_outcome (isValidObjectId : string → bool)
    (parseDate : string → option Z) (now later : Z) (newId : string)
    (req : CreateRequest) (db : list Admin) :
  NoDup (admin_id <$> db) →
  match createTask isValidObjectId parseDate now later newId req db with
  | (Refused _ _, db') => db' = db
  | (TaskCreated task, db') =>
      flags task = [true; false; false; false]
      ∧ verificationStatus task = Some EmptyString
      ∧ (∃ e, endDate task = Some e ∧ (now + 30000 < e)%Z)
      ∧ ∃ emp,
          employee_of db (cr_adminId req) (cr_employeeId req) = Some emp
          ∧ employee_of db' (cr_adminId req) (cr_employeeId req)
            = Some {| employee_id := employee_id emp;
                      taskCounts := countTasks (tasks emp ++ [task]);
                      tasks := tasks emp ++ [task] |}
          ∧ countTasks (tasks emp ++ [task])
            = {| TaskCounts.newTask :=
                   TaskCounts.newTask (countTasks (tasks emp)) + 1;
                 TaskCounts.active := TaskCounts.active (countTasks (tasks emp));
                 TaskCounts.completed :=
                   TaskCounts.completed (countTasks (tasks emp));
                 TaskCounts.failed :=
                   TaskCounts.failed (countTasks (tasks emp)) |}
  end.
Proof.
  intros Hdup. unfold createTask.
  destruct (negb (isValidObjectId (cr_adminId req)) || _); [reflexivity|].
  destruct (negb (truthy_str (taskTitle (cr_body req))) || _ || _ || _);
    [reflexivity|].
  destruct (forbidden req); [reflexivity|].
  destruct (parseDate _) as [parsedEndDate|]; [|reflexivity].
  destruct (Z.leb_spec parsedEndDate (now + GRACE_MS)) as [|Hgrace];
    [reflexivity|].
  destruct (existsb _ db) eqn:Hex; [|reflexivity].
  cbn [negb].
  set (aid := cr_adminId req) in *. set (eid := cr_employeeId req) in *.
  set (task := createdTask newId parsedEndDate later).
  destruct (existsb_find _ _ Hex) as (a & Ha).
  pose proof (find_holds _ _ _ Ha) as Howns.
  apply andb_prop in Howns as [_ Hemp].
  destruct (existsb_find _ _ Hemp) as (emp & Hemp').
  assert (employee_of db aid eid = Some emp) as Hbefore.
  { unfold employee_of. rewrite Ha. exact Hemp'. }
  assert (employee_of (updateOne aid eid (push_task task) db) aid eid
          = Some (push_task task emp)) as Hpushed.
  { rewrite employee_of_updateOne, Hbefore by reflexivity. reflexivity. }
  rewrite findById_updateOne by (assumption || reflexivity).
  pose proof Hpushed as Hfound. unfold employee_of in Hfound.
  destruct (List.find (owns aid eid) (updateOne _ _ _ db)) as [adminDoc|];
    [|discriminate].
  cbn in Hfound. rewrite Hfound. cbn [tasks push_task].
  split_and!; try reflexivity.
  - exists parsedEndDate. split; [reflexivity|]. unfold GRACE_MS in Hgrace. lia.
  - exists emp. split_and!.
    + exact Hbefore.
    + rewrite employee_of_updateOne by reflexivity.
      rewrite Hpushed. reflexivity.
    + unfold countTasks. cbn [TaskCounts.newTask TaskCounts.active
        TaskCounts.completed TaskCounts.failed].
      rewrite !count_snoc. cbn. f_equal; lia.
Qed.

Lemma createTask_outcome_witness :
  NoDup (admin_id <$> db_with assigned)
  ∧ match createTask (λ _, true) (λ _, Some 100000%Z) 1000 1001 "t9"
            create_request (db_with assigned) with
    | (Refused _ _, db') => db' = db_with assigned
    | (TaskCreated task, _) => flags task = [true; false; false; false]
    end.
Proof.
  assert (NoDup (admin_id <$> db_with assigned)) as Hdup
    by apply NoDup_singleton.
  split; [exact Hdup|].
  pose proof (createTask_outcome (λ _, true) (λ _, Some 100000%Z) 1000 1001
                "t9" create_request (db_with assigned) Hdup) as H.
  destruct (createTask _ _ _ _ _ _ _) as [[task|] db']; [apply H|exact H].
Defined.

(** ** The two review queues *)

Lemma filter_none {A : Type} (p : A → bool) (l : list A) :
  existsb p l = false → List.filter p l = [].
Proof.
  induction l as [|x l IH]; [reflexivity|].
  cbn. destruct (p x); [discriminate|exact IH].
Qed.

Lemma no_pending_tasks {B : Type} (p : Task → bool)
    (f : Employee → Task → list B) (es : list Employee) :
  existsb (λ e, existsb p (tasks e)) es = false →
  (e ← es; task ← List.filter p (tasks e); f e task) = [].
Proof.
  induction es as [|e es IH]; [reflexivity|].
  cbn [existsb]. intros H. apply orb_false_elim in H as [He Hes].
  rewrite bind_cons, (filter_none _ _ He), (IH Hes). reflexivity.
Qed.

(** X20: the list of the employee routes holds every task whose stored
    status is pendingVerification, of every employee of every admin, once
    and in the order of the database: the query that selects the admins
    first drops no task. *)
Theorem pendingVerificationTasksOf_all (db : list Admin) :
  pendingVerificationTasksOf db
  = a ← db; e ← employees a;
    task ← List.filter (λ task, str_is (status task) "pendingVerification")
                       (tasks e);
    [(admin_id a, employee_id e, task)].
Proof.
  unfold pendingVerificationTasksOf.
  induction db as [|a db IH]; [reflexivity|].
  cbn [List.filter]. rewrite bind_cons.
  destruct (existsb _ (employees a)) eqn:Hany.
  - rewrite bind_cons, IH. reflexivity.
  - rewrite IH.
    rewrite (no_pending_tasks _ (λ e task, [(admin_id a, employee_id e, task)])
               _ Hany).
    reflexivity.
Qed.

(** X21: the upload route and the two review queues. A document uploaded
    to a task whose stored status is new or active puts the task on both
    queues: that of the admin routes (review pending, with a document) and
    that of the employee routes (status pendingVerification). With any
    other stored status the upload leaves the status as it is, and the
    task is on the queue of the admin routes exactly when its review was
    pending before. *)
Theorem attachDocument_queued (task : Task) (document : Document) :
  let task' := attachDocument task document in
  if str_is (status task) "new" || str_is (status task) "active"
  then awaitsReview task' = true
       ∧ str_is (status task') "pendingVerification" = true
  else awaitsReview task' = str_is (verificationStatus task) "pending"
       ∧ status task' = status task.
Proof.
  intros task'. unfold awaitsReview, task'.
  rewrite attachDocument_appends, attachDocument_verificationStatus,
    attachDocument_status.
  rewrite length_app, Nat.add_1_r. cbn [Nat.ltb Nat.leb].
  rewrite orb_true_r, andb_true_r.
  destruct (str_is (status task) "new" || str_is (status task) "active");
    split; reflexivity.
Qed.
